(** * OAuth session lifecycle and request dispatch of the Jira and ADO MCP servers

    A shallow embedding of [jira_mcp_stdio.py] and [ado_mcp_stdio.py]:
    the two token managers ([OAuthTokenManager], [ADOOAuthTokenManager]),
    the two servers ([JiraMCPServer], [ADOMCPServer]), and the dispatcher
    ([handle_request], [main]).

    Python values are an inductive type with Python's truthiness; Python
    floats are IEEE 754 binary64 numbers with their rounding; the outside
    world (token endpoint, REST endpoints, wall clock, browser redirects,
    the life of the listener thread) is an oracle carried in a [world]
    record next to a log of the effects performed; the methods are
    written in a small state monad over the object they mutate and the
    world. *)

From stdpp Require Import base option list strings gmap.
From Stdlib Require Import ZArith Lia.
From Stdlib Require Floats.SpecFloat.

Set Warnings "-register-all".
Local Open Scope Z_scope.

(** ** Python floats *)

(** A Python [float] is an IEEE 754 binary64 number: 53 bits of
    precision, infinities at exponent 1024, results rounded to nearest,
    ties to even. *)
Definition float : Type := SpecFloat.spec_float.

Definition prec : Z := 53.
Definition emax : Z := 1024.

(** The float nearest to an integer; an infinity when the integer lies
    beyond the largest float. *)
Definition float_of_Z (z : Z) : float :=
  SpecFloat.binary_normalize prec emax z 0 false.

(** The conversion of an [int] operand in mixed arithmetic with a float:
    [OverflowError] ("int too large to convert to float") when the
    rounded integer is not a finite float. *)
Definition int_to_float (z : Z) : option float :=
  match float_of_Z z with
  | SpecFloat.S754_infinity _ => None
  | f => Some f
  end.

(** [a + b], [a - b], [a >= b] on floats; none of them raises. *)
Definition float_add (a b : float) : float := SpecFloat.SFadd prec emax a b.
Definition float_sub (a b : float) : float := SpecFloat.SFsub prec emax a b.
Definition float_ge (a b : float) : bool := SpecFloat.SFleb b a.

(** [bool(f)]: every float but the two zeros is truthy, [nan] included. *)
Definition float_truthy (f : float) : bool :=
  negb (SpecFloat.SFeqb f (SpecFloat.S754_zero false)).

Arguments float_of_Z : simpl never.
Arguments int_to_float : simpl never.
Arguments float_add : simpl never.
Arguments float_sub : simpl never.
Arguments float_ge : simpl never.
Arguments float_truthy : simpl never.

(** ** Python values *)

(** The values that [json.loads] / [response.json()] can produce, which are
    also the values stored in the token fields.  A JSON number is an
    [int] of any size or a [float]. *)
Inductive pyval : Type :=
| PNone
| PBool (b : bool)
| PNum (z : Z)
| PFloat (f : float)
| PStr (s : string)
| PList (l : list pyval)
| PDict (d : gmap string pyval).

(** [bool(v)] / [if v:] *)
Definition truthy (v : pyval) : bool :=
  match v with
  | PNone => false
  | PBool b => b
  | PNum z => negb (z =? 0)
  | PFloat f => float_truthy f
  | PStr s => negb (String.eqb s "")
  | PList l => match l with [] => false | _ :: _ => true end
  | PDict d => negb (bool_decide (d = ∅))
  end.

(** [a and b] *)
Definition py_and (a b : pyval) : pyval := if truthy a then b else a.

(** [a or b] *)
Definition py_or (a b : pyval) : pyval := if truthy a then a else b.

(** [d.get(k)] *)
Definition dict_get (d : gmap string pyval) (k : string) : pyval :=
  default PNone (d !! k).

(** [d.get(k, dflt)] *)
Definition dict_get_or (d : gmap string pyval) (k : string) (dflt : pyval) : pyval :=
  default dflt (d !! k).

(** [v == "s"] for a string literal [s] *)
Definition is_str (v : pyval) (s : string) : bool :=
  match v with
  | PStr t => String.eqb t s
  | _ => false
  end.

(** The right operand [v] of [time.time() + v], as the float that is
    added.  A float is taken as it is; an [int] is converted, which
    raises [OverflowError] when it is too large; a [bool] is an [int];
    every other value raises [TypeError].  [None] stands for the
    exception. *)
Definition as_number (v : pyval) : option float :=
  match v with
  | PFloat f => Some f
  | PNum z => int_to_float z
  | PBool b => int_to_float (if b then 1 else 0)
  | _ => None
  end.

(** [tokens.get('expires_in', 3600)] as an addend, when it is one. *)
Definition expires_in_of (tokens : gmap string pyval) : option float :=
  as_number (dict_get_or tokens "expires_in" (PNum 3600)).

(** [now + expires_in - 300] on floats: the sum is rounded, then the
    difference. *)
Definition expiry (now expires_in : float) : float :=
  float_sub (float_add now expires_in) (float_of_Z 300).

Arguments expiry : simpl never.

(** Whether [len(v)] is defined ([TypeError] otherwise). *)
Definition has_len (v : pyval) : bool :=
  match v with
  | PStr _ | PList _ | PDict _ => true
  | PNone | PBool _ | PNum _ | PFloat _ => false
  end.

(** [type(v).__name__], as it appears in the text of an [AttributeError]. *)
Definition type_name (v : pyval) : string :=
  match v with
  | PNone => "NoneType"
  | PBool _ => "bool"
  | PNum _ => "int"
  | PFloat _ => "float"
  | PStr _ => "str"
  | PList _ => "list"
  | PDict _ => "dict"
  end.

(** A raised exception, by its message [str(e)]. *)
Definition exn : Type := string.

(** [request.args.get(k)] is [None] or a string; [if arg:] *)
Definition arg_truthy (a : option string) : bool :=
  match a with
  | Some s => negb (String.eqb s "")
  | None => false
  end.

(** ** The outside world *)

(** What a call of [requests.post] / [requests.get] comes back with: it
    raises (no connection, timeout), or it returns a response with a
    status code and a body; [body] is [response.json()], [None] when that
    call raises. *)
Inductive http_result : Type :=
| Raised
| Response (status_code : Z) (body : option pyval).

(** The HTTP requests the two managers send. *)
Inductive request : Type :=
| PostAuthorizationCode (code : string)
| PostRefreshToken (token : pyval)
| GetAccessibleResources
| GetProfile
| GetAccounts (member_id : pyval).

(** The query of a GET on [/oauth/callback]. *)
Record callback : Type := Callback {
  cb_code : option string;
  cb_error : option string
}.

(** Effects that leave a mark in the log. *)
Inductive event : Type :=
| Http (r : request)
| EventSet                (* auth_complete.set() *)
| Call (method : string)  (* entry into a method whose calls are counted *)
| Sleep (seconds : Z)
| ThreadStart             (* threading.Thread(...).start() *)
| BrowserOpen.            (* webbrowser.open(auth_url) *)

(** The environment is an oracle: the outcome of the n-th HTTP request,
    the n-th reading of [time.time()], the callback requests that reach
    the listener during the n-th blocking wait (before its timeout), and
    the answer of the n-th [is_alive()] on the listener thread (the
    thread ends when the web server cannot bind its port, or fails).
    [log] holds the effects so far, newest first. *)
Record world : Type := World {
  net : nat -> http_result;
  nreq : nat;
  clock : nat -> float;
  ticks : nat;
  callbacks : nat -> list callback;
  waits : nat;
  alive : nat -> bool;
  probes : nat;
  log : list event
}.

Definition log_event (e : event) (w : world) : world :=
  World (net w) (nreq w) (clock w) (ticks w) (callbacks w) (waits w)
        (alive w) (probes w) (e :: log w).

Definition next_request (r : request) (w : world) : world :=
  World (net w) (S (nreq w)) (clock w) (ticks w) (callbacks w) (waits w)
        (alive w) (probes w) (Http r :: log w).

Definition next_tick (w : world) : world :=
  World (net w) (nreq w) (clock w) (S (ticks w)) (callbacks w) (waits w)
        (alive w) (probes w) (log w).

Definition next_wait (w : world) : world :=
  World (net w) (nreq w) (clock w) (ticks w) (callbacks w) (S (waits w))
        (alive w) (probes w) (log w).

Definition next_probe (w : world) : world :=
  World (net w) (nreq w) (clock w) (ticks w) (callbacks w) (waits w)
        (alive w) (S (probes w)) (log w).

(** Counting in the log. *)
Definition is_set (e : event) : bool :=
  match e with EventSet => true | _ => false end.

Definition is_http (e : event) : bool :=
  match e with Http _ => true | _ => false end.

Definition is_call (f : string) (e : event) : bool :=
  match e with Call g => String.eqb g f | _ => false end.

Fixpoint count (p : event -> bool) (l : list event) : nat :=
  match l with
  | [] => O
  | e :: l' => if p e then S (count p l') else count p l'
  end.

(** ** A state monad over an object and the world *)

Definition act (S A : Type) : Type := S -> world -> A * S * world.

Definition ret {S A} (a : A) : act S A := fun s w => (a, s, w).

Definition bind {S A B} (c : act S A) (k : A -> act S B) : act S B :=
  fun s w => let r := c s w in k r.1.1 r.1.2 r.2.

Notation "x <- c ;; k" := (bind c (fun x => k))
  (at level 100, c at next level, right associativity, only parsing).
Notation "c ;; k" := (bind c (fun _ => k))
  (at level 100, right associativity, only parsing).

Definition gets {S A} (f : S -> A) : act S A := fun s w => (f s, s, w).

Definition modify {S} (f : S -> S) : act S unit := fun s w => (tt, f s, w).

Definition emit {S} (e : event) : act S unit := fun s w => (tt, s, log_event e w).

(** [requests.post(...)] / [requests.get(...)] *)
Definition http {S} (r : request) : act S http_result :=
  fun s w => (net w (nreq w), s, next_request r w).

(** [time.time()] *)
Definition time_time {S} : act S float :=
  fun s w => (clock w (ticks w), s, next_tick w).

(** [self.oauth_thread.is_alive()] *)
Definition is_alive {S} : act S bool :=
  fun s w => (alive w (probes w), s, next_probe w).

(** The callback requests served while the caller blocks on the event. *)
Definition arrivals {S} : act S (list callback) :=
  fun s w => (callbacks w (waits w), s, next_wait w).

(** The value, the object and the world an action ends with. *)
Definition value {S A} (r : A * S * world) : A := r.1.1.
Definition object {S A} (r : A * S * world) : S := r.1.2.
Definition after {S A} (r : A * S * world) : world := r.2.

(** [requests.request(...)] and the [requests.get] / [requests.post] calls
    of the organization methods: the outcome is the next one of the
    oracle, and the call is logged under the name of the function
    called. *)
Definition http_call {St} (f : string) : act St http_result :=
  fun s w =>
    (net w (nreq w), s,
     World (net w) (S (nreq w)) (clock w) (ticks w) (callbacks w) (waits w)
           (alive w) (probes w) (Call f :: log w)).

(** ** Tool results *)

(** [{"content": [{"type": "text", "text": text}]}] *)
Definition tool_text (text : string) : pyval :=
  PDict {[ "content" := PList [PDict {[ "type" := PStr "text";
                                        "text" := PStr text ]}] ]}.

(** [{"content": [{"type": "text", "text": text}], "isError": True}] *)
Definition tool_error (text : string) : pyval :=
  PDict {[ "content" := PList [PDict {[ "type" := PStr "text";
                                        "text" := PStr text ]}];
           "isError" := PBool true ]}.

(** Whether a tool result carries a truthy [isError]. *)
Definition is_error (result : pyval) : bool :=
  match result with
  | PDict d => truthy (dict_get d "isError")
  | _ => false
  end.

(** [async_safe_call(tool_func, ...)]: two seconds of sleep, then the
    call. *)
Definition async_safe_call {S A} (tool_func : act S A) : act S A :=
  emit (Sleep 2) ;;
  tool_func.

(** ** jira_mcp_stdio.py *)

Module Jira.

(** [class OAuthTokenManager]: the token storage and the OAuth flow
    management.  [expires_at] is [None] or a float; [oauth_thread] says
    whether [self.oauth_thread] holds a thread object (whether that
    thread is alive is for the world to say); [auth_complete] is the
    flag of the [threading.Event]. *)
Record OAuthTokenManager : Type := Manager {
  access_token : pyval;
  refresh_token : pyval;
  cloud_id : pyval;
  expires_at : option float;
  oauth_thread : bool;
  auth_complete : bool
}.

(** [OAuthTokenManager.__init__] *)
Definition init : OAuthTokenManager :=
  Manager PNone PNone PNone None false false.

Definition set_access_token (v : pyval) (m : OAuthTokenManager) :=
  Manager v (refresh_token m) (cloud_id m) (expires_at m)
          (oauth_thread m) (auth_complete m).

Definition set_refresh_token (v : pyval) (m : OAuthTokenManager) :=
  Manager (access_token m) v (cloud_id m) (expires_at m)
          (oauth_thread m) (auth_complete m).

Definition set_cloud_id (v : pyval) (m : OAuthTokenManager) :=
  Manager (access_token m) (refresh_token m) v (expires_at m)
          (oauth_thread m) (auth_complete m).

Definition set_expires_at (t : option float) (m : OAuthTokenManager) :=
  Manager (access_token m) (refresh_token m) (cloud_id m) t
          (oauth_thread m) (auth_complete m).

Definition set_oauth_thread (b : bool) (m : OAuthTokenManager) :=
  Manager (access_token m) (refresh_token m) (cloud_id m) (expires_at m)
          b (auth_complete m).

(** [self.auth_complete.set()] *)
Definition auth_complete_set : act OAuthTokenManager unit :=
  modify (fun m => Manager (access_token m) (refresh_token m) (cloud_id m)
                           (expires_at m) (oauth_thread m) true) ;;
  emit EventSet.

(** [_get_cloud_id]: every exception is caught and ends in [return False]. *)
Definition _get_cloud_id : act OAuthTokenManager bool :=
  tok <- gets access_token ;;
  if negb (truthy tok) then ret false else
  r <- http GetAccessibleResources ;;
  match r with
  | Raised => ret false
  | Response status_code body =>
      if status_code =? 200 then
        match body with
        | None => ret false
        | Some resources =>
            if truthy resources then
              (* self.cloud_id = resources[0]['id'] *)
              match resources with
              | PList (PDict first :: _) =>
                  match first !! "id" with
                  | Some v => modify (set_cloud_id v) ;; ret true
                  | None => ret false
                  end
              | _ => ret false
              end
            else ret false
        end
      else ret false
  end.

(** [_exchange_code_for_tokens] *)
Definition _exchange_code_for_tokens (code : string) : act OAuthTokenManager bool :=
  emit (Call "_exchange_code_for_tokens") ;;
  r <- http (PostAuthorizationCode code) ;;
  match r with
  | Raised => ret false
  | Response status_code body =>
      if status_code =? 200 then
        match body with
        | Some (PDict tokens) =>
            modify (set_access_token (dict_get tokens "access_token")) ;;
            modify (set_refresh_token (dict_get tokens "refresh_token")) ;;
            now <- time_time ;;
            match expires_in_of tokens with
            | Some expires_in =>
                modify (set_expires_at (Some (expiry now expires_in))) ;;
                _get_cloud_id ;;
                ret true
            | None => ret false
            end
        | _ => ret false
        end
      else ret false
  end.

(** [refresh_access_token] *)
Definition refresh_access_token : act OAuthTokenManager bool :=
  emit (Call "refresh_access_token") ;;
  rt <- gets refresh_token ;;
  if negb (truthy rt) then ret false else
  r <- http (PostRefreshToken rt) ;;
  match r with
  | Raised => ret false
  | Response status_code body =>
      if status_code =? 200 then
        match body with
        | Some (PDict tokens) =>
            modify (set_access_token (dict_get tokens "access_token")) ;;
            match tokens !! "refresh_token" with
            | Some v => modify (set_refresh_token v)
            | None => ret tt
            end ;;
            now <- time_time ;;
            match expires_in_of tokens with
            | Some expires_in =>
                modify (set_expires_at (Some (expiry now expires_in))) ;;
                ret true
            | None => ret false
            end
        | _ => ret false
        end
      else ret false
  end.

(** [self.expires_at and time.time() >= self.expires_at]: the clock is
    read only when [expires_at] is truthy. *)
Definition token_expired : act OAuthTokenManager bool :=
  ea <- gets expires_at ;;
  match ea with
  | None => ret false
  | Some t =>
      if float_truthy t then now <- time_time ;; ret (float_ge now t)
      else ret false
  end.

(** [get_valid_token] *)
Definition get_valid_token : act OAuthTokenManager pyval :=
  tok <- gets access_token ;;
  if negb (truthy tok) then ret PNone else
  expired <- token_expired ;;
  if expired then
    ok <- refresh_access_token ;;
    if negb ok then ret PNone else gets access_token
  else gets access_token.

(** [is_authenticated] *)
Definition is_authenticated (m : OAuthTokenManager) : bool :=
  truthy (py_and (access_token m) (cloud_id m)).

(** [_clear_tokens] *)
Definition _clear_tokens : act OAuthTokenManager unit :=
  modify (set_access_token PNone) ;;
  modify (set_refresh_token PNone) ;;
  modify (set_cloud_id PNone) ;;
  modify (set_expires_at None).

(** The view function [oauth_callback] registered on [/oauth/callback];
    the value is the body sent back to the browser. *)
Definition oauth_callback (c : callback) : act OAuthTokenManager string :=
  if arg_truthy (cb_error c) then
    auth_complete_set ;;
    ret "OAuth failed. Please check the logs."%string
  else if arg_truthy (cb_code c) then
    success <- _exchange_code_for_tokens (default ""%string (cb_code c)) ;;
    if success then
      auth_complete_set ;;
      ret "OAuth successful! You can close this window."%string
    else
      auth_complete_set ;;
      ret "OAuth failed during token exchange. Please check the logs."%string
  else ret "Invalid callback"%string.

(** [_start_oauth_server]: [if self.oauth_thread and
    self.oauth_thread.is_alive(): return]; otherwise a new thread is
    stored and started. *)
Definition _start_oauth_server : act OAuthTokenManager unit :=
  thread <- gets oauth_thread ;;
  running <- (if thread then is_alive else ret false) ;;
  if running then ret tt else
  modify (set_oauth_thread true) ;;
  emit ThreadStart ;;
  emit (Sleep 1).

(** [start_oauth_flow]; the authorization URL it returns is not used by
    its caller and is left out. *)
Definition start_oauth_flow : act OAuthTokenManager unit :=
  _start_oauth_server ;;
  emit BrowserOpen.

(** The listener thread serving callback requests while the main thread
    blocks in [Event.wait]: the wait ends as soon as the flag is set. *)
Fixpoint serve (cs : list callback) : act OAuthTokenManager bool :=
  match cs with
  | [] => ret false
  | c :: cs' =>
      oauth_callback c ;;
      done <- gets auth_complete ;;
      if done then ret true else serve cs'
  end.

(** [wait_for_authorization]: [self.auth_complete.wait(timeout)] returns
    at once when the flag is set, and otherwise blocks until it is set
    or the timeout passes. *)
Definition wait_for_authorization : act OAuthTokenManager bool :=
  done <- gets auth_complete ;;
  if done then ret true else
  cs <- arrivals ;;
  serve cs.

(** [class JiraMCPServer] *)
Record JiraMCPServer : Type := Server {
  oauth_manager : option OAuthTokenManager;
  auth_method : option string;
  session_authenticated : bool
}.

(** [JiraMCPServer.__init__], once the credentials are found. *)
Definition init_server : JiraMCPServer := Server (Some init) None false.

(** A method call on [self.oauth_manager] under the guard
    [if self.oauth_manager:]. *)
Definition on_manager {A} (c : act OAuthTokenManager A) : act JiraMCPServer (option A) :=
  fun s w =>
    match oauth_manager s with
    | Some m =>
        let r := c m w in
        (Some r.1.1, Server (Some r.1.2) (auth_method s) (session_authenticated s), r.2)
    | None => (None, s, w)
    end.

Definition set_session (method : option string) (b : bool) (s : JiraMCPServer) :=
  Server (oauth_manager s) method b.

(** [_get_auth_headers]: the bearer token of the headers, [None] when no
    headers are returned. *)
Definition _get_auth_headers : act JiraMCPServer pyval :=
  r <- on_manager (
         ok <- gets is_authenticated ;;
         if ok then get_valid_token else ret PNone) ;;
  match r with
  | Some token => if truthy token then ret token else ret PNone
  | None => ret PNone
  end.

(** [_authenticate_if_needed] *)
Definition _authenticate_if_needed : act JiraMCPServer bool :=
  already <- gets session_authenticated ;;
  if already then ret true else
  r <- on_manager (
         start_oauth_flow ;;
         authorized <- wait_for_authorization ;;
         if authorized then gets is_authenticated else ret false) ;;
  match r with
  | Some true =>
      modify (set_session (Some "oauth"%string) true) ;;
      ret true
  | _ => ret false
  end.

(** [clear_session] *)
Definition clear_session : act JiraMCPServer unit :=
  on_manager _clear_tokens ;;
  modify (set_session None false).

(** *** The operations on a session

    The methods through which the tool calls, the dispatcher and the
    listener thread reach the token manager, as steps on the server
    object; [run] performs a sequence of them. *)
Inductive op : Type :=
| StartOAuthFlow
| OAuthCallback (c : callback)
| ExchangeCodeForTokens (code : string)
| GetCloudId
| RefreshAccessToken
| GetValidToken
| WaitForAuthorization
| ClearTokens
| GetAuthHeaders
| AuthenticateIfNeeded
| ClearSession.

Definition step (o : op) : act JiraMCPServer unit :=
  match o with
  | StartOAuthFlow => on_manager start_oauth_flow ;; ret tt
  | OAuthCallback c => on_manager (oauth_callback c) ;; ret tt
  | ExchangeCodeForTokens code => on_manager (_exchange_code_for_tokens code) ;; ret tt
  | GetCloudId => on_manager _get_cloud_id ;; ret tt
  | RefreshAccessToken => on_manager refresh_access_token ;; ret tt
  | GetValidToken => on_manager get_valid_token ;; ret tt
  | WaitForAuthorization => on_manager wait_for_authorization ;; ret tt
  | ClearTokens => on_manager _clear_tokens ;; ret tt
  | GetAuthHeaders => _get_auth_headers ;; ret tt
  | AuthenticateIfNeeded => _authenticate_if_needed ;; ret tt
  | ClearSession => clear_session
  end.

Fixpoint run (ops : list op) : act JiraMCPServer unit :=
  match ops with
  | [] => ret tt
  | o :: ops' => step o ;; run ops'
  end.

(** [self.oauth_manager.auth_complete.is_set()] *)
Definition event_set (s : JiraMCPServer) : bool :=
  match oauth_manager s with
  | Some m => auth_complete m
  | None => false
  end.

(** *** The dispatcher *)

Section Dispatcher.

(** Python's [str()] on a value, as the f-strings apply it. *)
Variable py_str : pyval -> string.

(** The static catalog that [handle_tools_list] returns. *)
Variable tools_catalog : pyval.

(** [handle_tools_call]: the tool handlers are external to the
    dispatcher; a call returns a result or raises. *)
Variable handle_tools_call : pyval -> act JiraMCPServer (exn + pyval).

(** [handle_initialize] *)
Definition handle_initialize (params : pyval) : pyval :=
  PDict {[ "protocolVersion" := PStr "2024-11-05";
           "capabilities" := PDict {[ "tools" := PDict ∅ ]};
           "serverInfo" := PDict {[ "name" := PStr "jira-mcp-server";
                                    "version" := PStr "1.0.0" ]} ]}.

(** [handle_tools_list] *)
Definition handle_tools_list (params : pyval) : pyval := tools_catalog.

(** The response built in the [except Exception] clause of
    [handle_request]. *)
Definition internal_error (request_id : pyval) (e : exn) : pyval :=
  PDict {[ "jsonrpc" := PStr "2.0";
           "id" := request_id;
           "error" := PDict {[ "code" := PNum (-32603);
                               "message" := PStr ("Internal error: " +:+ e) ]} ]}.

(** The text of the [AttributeError] of [v.get] on a value without [get]. *)
Definition no_get (v : pyval) : exn :=
  "'" +:+ type_name v +:+ "' object has no attribute 'get'".

(** [handle_request].  A request line is given by the outcome of
    [json.loads(request_line.strip())]: the value, or the exception.
    The result is [inl] when an exception leaves [handle_request],
    [inr None] for [return None], [inr (Some response)] otherwise. *)
Definition handle_request (line : exn + pyval) : act JiraMCPServer (exn + option pyval) :=
  match line with
  | inl e => ret (inr (Some (internal_error PNone e)))
  | inr (PDict request_data) =>
      let method := dict_get request_data "method" in
      let params := dict_get_or request_data "params" (PDict ∅) in
      let request_id := dict_get request_data "id" in
      let respond (result : pyval) : exn + option pyval :=
        inr (Some (PDict {[ "jsonrpc" := PStr "2.0";
                            "id" := request_id;
                            "result" := result ]})) in
      if is_str method "initialize" then
        ret (respond (handle_initialize params))
      else if is_str method "notifications/initialized" then
        ret (inr None)
      else if is_str method "tools/list" then
        ret (respond (handle_tools_list params))
      else if is_str method "tools/call" then
        r <- handle_tools_call params ;;
        match r with
        | inr result => ret (respond result)
        | inl e =>
            ret (inr (Some (internal_error
              (if truthy (PDict request_data) then request_id else PNone) e)))
        end
      else
        ret (respond (PDict {[ "error" := PDict {[
          "code" := PNum (-32601);
          "message" := PStr ("Method not found: " +:+ py_str method) ]} ]}))
  | inr request_data =>
      (* request_data.get raises; in the except clause
         [request_data.get("id") if request_data else None] raises
         again when request_data is truthy *)
      if truthy request_data then ret (inl (no_get request_data))
      else ret (inr (Some (internal_error PNone (no_get request_data))))
  end.

(** [if response:] *)
Definition emitted (response : option pyval) : list pyval :=
  match response with
  | Some r => if truthy r then [r] else []
  | None => []
  end.

(** The loop of [main] over the lines read until end of input; the
    value is the list of responses printed, in the order printed.  An
    exception leaving [handle_request] is caught outside the loop:
    the loop is over. *)
Fixpoint main_loop (lines : list (exn + pyval)) : act JiraMCPServer (list pyval) :=
  match lines with
  | [] => ret []
  | line :: rest =>
      r <- handle_request line ;;
      match r with
      | inl _ => ret []
      | inr response =>
          out <- main_loop rest ;;
          ret (emitted response ++ out)
      end
  end.

End Dispatcher.

(** *** The tool layer *)

Section Tools.

(** Python's [str()] on a value, as the f-strings apply it. *)
Variable py_str : pyval -> string.

(** The handler methods of the REST tools, by tool name
    ([_get_all_projects], [_create_project], [_create_issue],
    [_get_issue_types], [_search_issues], [_get_issue], [_update_issue]),
    applied to the [arguments] of the call; [_get_all_projects] takes
    none.  A handler returns a result or raises. *)
Variable handler : string -> pyval -> act JiraMCPServer (exn + pyval).

(** [_get_base_url] *)
Definition _get_base_url (s : JiraMCPServer) : option string :=
  match oauth_manager s with
  | Some m =>
      if is_authenticated m
      then Some ("https://api.atlassian.com/ex/jira/" +:+ py_str (cloud_id m))
      else None
  | None => None
  end.

(** [_get_auth]: [None] on both paths. *)
Definition _get_auth (s : JiraMCPServer) : pyval :=
  match oauth_manager s with
  | Some m => if is_authenticated m then PNone else PNone
  | None => PNone
  end.

(** [_make_api_request]: [inl] is an exception the method raises itself;
    [inr] is what [requests.request] comes back with (it may have raised,
    which the method lets through). *)
Definition _make_api_request (method endpoint : string)
  : act JiraMCPServer (exn + http_result) :=
  headers <- _get_auth_headers ;;
  base_url <- gets _get_base_url ;;
  auth <- gets _get_auth ;;
  if negb (arg_truthy base_url) then
    ret (inl "No valid Jira URL configured"%string)
  else if truthy headers then
    r <- http_call "requests.request" ;;
    ret (inr r)
  else if truthy auth then
    r <- http_call "requests.request" ;;
    ret (inr r)
  else ret (inl "No valid authentication method available"%string).

(** [_authenticate] *)
Definition _authenticate : act JiraMCPServer pyval :=
  ok <- _authenticate_if_needed ;;
  if ok then
    method <- gets auth_method ;;
    let auth_status :=
      match method with
      | Some m => if String.eqb m "oauth" then "OAuth 2.0" else "Basic Auth"
      | None => "Basic Auth"
      end%string in
    ret (tool_text ("Successfully authenticated with Jira using " +:+ auth_status))
  else
    ret (tool_error "Authentication failed. Please ensure OAuth or Basic Auth credentials are configured.").

(** [_clear_session]: [clear_session] raises nothing, so the [except]
    clause has nothing to catch. *)
Definition _clear_session : act JiraMCPServer pyval :=
  clear_session ;;
  ret (tool_text "OAuth session cleared successfully. Re-authentication will be required for next BRD processing.").

(** [handle_tools_call]: [params.get] is outside the [try], so it raises
    on [params] without [get]; inside the [try] every exception of a
    handler becomes an error result. *)
Definition handle_tools_call (params : pyval) : act JiraMCPServer (exn + pyval) :=
  match params with
  | PDict p =>
      let tool_name := dict_get p "name" in
      let arguments := dict_get_or p "arguments" (PDict ∅) in
      r <-
        (if is_str tool_name "authenticate" then
           async_safe_call (result <- _authenticate ;; ret (inr result))
         else if is_str tool_name "get_all_projects" then
           async_safe_call (handler "get_all_projects" arguments)
         else if is_str tool_name "create_project" then
           async_safe_call (handler "create_project" arguments)
         else if is_str tool_name "create_issue" then
           async_safe_call (handler "create_issue" arguments)
         else if is_str tool_name "get_issue_types" then
           async_safe_call (handler "get_issue_types" arguments)
         else if is_str tool_name "search_issues" then
           async_safe_call (handler "search_issues" arguments)
         else if is_str tool_name "get_issue" then
           async_safe_call (handler "get_issue" arguments)
         else if is_str tool_name "update_issue" then
           async_safe_call (handler "update_issue" arguments)
         else if is_str tool_name "clear_session" then
           async_safe_call (result <- _clear_session ;; ret (inr result))
         else
           ret (inr (tool_error ("Unknown tool: " +:+ py_str tool_name)))) ;;
      match r with
      | inr result => ret (inr result)
      | inl e =>
          ret (inr (tool_error
                      ("Error executing " +:+ py_str tool_name +:+ ": " +:+ e)))
      end
  | _ => ret (inl (no_get params))
  end.

End Tools.

End Jira.

(** ** ado_mcp_stdio.py *)

Module ADO.

(** An [accountUri]: the one the provider gave, or
    [f"https://dev.azure.com/{name}"]. *)
Inductive uri : Type :=
| UriGiven (v : pyval)
| UriDevAzure (name : pyval).

(** The normalized [org_info] dictionaries kept in
    [self.organizations]. *)
Record org_info : Type := OrgInfo {
  accountId : pyval;
  accountName : pyval;
  accountUri : uri;
  properties : pyval
}.

(** [class ADOOAuthTokenManager] *)
Record ADOOAuthTokenManager : Type := Manager {
  access_token : pyval;
  refresh_token : pyval;
  expires_at : option float;
  ado_url : pyval;
  organizations : option (list org_info);
  selected_organization : option org_info;
  oauth_thread : bool;
  auth_complete : bool
}.

(** [ADOOAuthTokenManager.__init__] *)
Definition init : ADOOAuthTokenManager :=
  Manager PNone PNone None PNone None None false false.

Definition set_access_token (v : pyval) (m : ADOOAuthTokenManager) :=
  Manager v (refresh_token m) (expires_at m) (ado_url m) (organizations m)
          (selected_organization m) (oauth_thread m) (auth_complete m).

Definition set_refresh_token (v : pyval) (m : ADOOAuthTokenManager) :=
  Manager (access_token m) v (expires_at m) (ado_url m) (organizations m)
          (selected_organization m) (oauth_thread m) (auth_complete m).

Definition set_expires_at (t : option float) (m : ADOOAuthTokenManager) :=
  Manager (access_token m) (refresh_token m) t (ado_url m) (organizations m)
          (selected_organization m) (oauth_thread m) (auth_complete m).

Definition set_ado_url (v : pyval) (m : ADOOAuthTokenManager) :=
  Manager (access_token m) (refresh_token m) (expires_at m) v (organizations m)
          (selected_organization m) (oauth_thread m) (auth_complete m).

Definition set_organizations (o : option (list org_info)) (m : ADOOAuthTokenManager) :=
  Manager (access_token m) (refresh_token m) (expires_at m) (ado_url m) o
          (selected_organization m) (oauth_thread m) (auth_complete m).

Definition set_selected_organization (o : option org_info) (m : ADOOAuthTokenManager) :=
  Manager (access_token m) (refresh_token m) (expires_at m) (ado_url m)
          (organizations m) o (oauth_thread m) (auth_complete m).

Definition set_oauth_thread (b : bool) (m : ADOOAuthTokenManager) :=
  Manager (access_token m) (refresh_token m) (expires_at m) (ado_url m)
          (organizations m) (selected_organization m) b (auth_complete m).

(** [self.auth_complete.set()] *)
Definition auth_complete_set : act ADOOAuthTokenManager unit :=
  modify (fun m => Manager (access_token m) (refresh_token m) (expires_at m)
                           (ado_url m) (organizations m)
                           (selected_organization m) (oauth_thread m) true) ;;
  emit EventSet.

(** The normalization of one entry of the accounts response. *)
Definition normalize (org : gmap string pyval) : org_info :=
  let name := py_or (dict_get org "accountName") (dict_get org "name") in
  OrgInfo (py_or (dict_get org "accountId") (dict_get org "id"))
          name
          (if truthy (dict_get org "accountUri")
           then UriGiven (dict_get org "accountUri")
           else UriDevAzure name)
          (dict_get_or org "properties" (PDict ∅)).

(** The loop [for org in orgs] appending to [self.organizations]: the
    list built so far, and whether the loop ran to its end ([org.get]
    raises on an entry that is not a dictionary). *)
Fixpoint collect (orgs : list pyval) (acc : list org_info) : list org_info * bool :=
  match orgs with
  | [] => (acc, true)
  | PDict org :: rest =>
      let info := normalize org in
      collect rest (if truthy (accountName info) then acc ++ [info] else acc)
  | _ :: _ => (acc, false)
  end.

(** [_get_ado_organizations] *)
Definition _get_ado_organizations : act ADOOAuthTokenManager bool :=
  tok <- gets access_token ;;
  if negb (truthy tok) then ret false else
  profile_resp <- http GetProfile ;;
  match profile_resp with
  | Raised => ret false
  | Response status_code body =>
      if negb (status_code =? 200) then ret false else
      match body with
      | Some (PDict profile_data) =>
          let member_id := dict_get profile_data "id" in
          if negb (truthy member_id) then ret false else
          accounts_resp <- http (GetAccounts member_id) ;;
          match accounts_resp with
          | Raised => ret false
          | Response status_code' body' =>
              if negb (status_code' =? 200) then ret false else
              match body' with
              | Some (PDict accounts_data) =>
                  let orgs := dict_get_or accounts_data "value" (PList []) in
                  if negb (truthy orgs) then
                    modify (set_organizations (Some [])) ;;
                    ret false
                  else
                    match orgs with
                    | PList l =>
                        modify (set_organizations (Some (collect l []).1)) ;;
                        ret (collect l []).2
                    | _ =>
                        (* iterating raises, or the first [org.get] does *)
                        modify (set_organizations (Some [])) ;;
                        ret false
                    end
              | _ => ret false
              end
          end
      | _ => ret false
      end
  end.

(** [_exchange_code_for_tokens] *)
Definition _exchange_code_for_tokens (code : string) : act ADOOAuthTokenManager bool :=
  emit (Call "_exchange_code_for_tokens") ;;
  r <- http (PostAuthorizationCode code) ;;
  match r with
  | Raised => ret false
  | Response status_code body =>
      if status_code =? 200 then
        match body with
        | Some (PDict tokens) =>
            modify (set_access_token (dict_get tokens "access_token")) ;;
            modify (set_refresh_token (dict_get tokens "refresh_token")) ;;
            now <- time_time ;;
            match expires_in_of tokens with
            | Some expires_in =>
                modify (set_expires_at (Some (expiry now expires_in))) ;;
                modify (set_organizations None) ;;
                modify (set_selected_organization None) ;;
                modify (set_ado_url PNone) ;;
                tok <- gets access_token ;;
                (* len(self.access_token) if self.access_token else 0 *)
                if truthy tok && negb (has_len tok) then ret false else
                _get_ado_organizations ;;
                ret true
            | None => ret false
            end
        | _ => ret false
        end
      else ret false
  end.

(** [refresh_access_token] *)
Definition refresh_access_token : act ADOOAuthTokenManager bool :=
  emit (Call "refresh_access_token") ;;
  rt <- gets refresh_token ;;
  if negb (truthy rt) then ret false else
  r <- http (PostRefreshToken rt) ;;
  match r with
  | Raised => ret false
  | Response status_code body =>
      if status_code =? 200 then
        match body with
        | Some (PDict tokens) =>
            modify (set_access_token (dict_get tokens "access_token")) ;;
            match tokens !! "refresh_token" with
            | Some v => modify (set_refresh_token v)
            | None => ret tt
            end ;;
            now <- time_time ;;
            match expires_in_of tokens with
            | Some expires_in =>
                modify (set_expires_at (Some (expiry now expires_in))) ;;
                ret true
            | None => ret false
            end
        | _ => ret false
        end
      else ret false
  end.

(** [self.expires_at and time.time() >= self.expires_at] *)
Definition token_expired : act ADOOAuthTokenManager bool :=
  ea <- gets expires_at ;;
  match ea with
  | None => ret false
  | Some t =>
      if float_truthy t then now <- time_time ;; ret (float_ge now t)
      else ret false
  end.

(** [get_valid_token] *)
Definition get_valid_token : act ADOOAuthTokenManager pyval :=
  tok <- gets access_token ;;
  if negb (truthy tok) then ret PNone else
  expired <- token_expired ;;
  if expired then
    ok <- refresh_access_token ;;
    if negb ok then ret PNone else gets access_token
  else gets access_token.

(** [is_authenticated]: [has_token] and [has_orgs] are computed for the
    debug line only. *)
Definition is_authenticated (m : ADOOAuthTokenManager) : bool :=
  let has_token := truthy (access_token m) in
  let has_orgs := bool_decide (is_Some (organizations m)) in
  truthy (access_token m).

(** [_clear_tokens] *)
Definition _clear_tokens : act ADOOAuthTokenManager unit :=
  modify (set_access_token PNone) ;;
  modify (set_refresh_token PNone) ;;
  modify (set_expires_at None) ;;
  modify (set_ado_url PNone) ;;
  modify (set_organizations None) ;;
  modify (set_selected_organization None).

(** The view function [oauth_callback].  [_exchange_code_for_tokens]
    catches every exception itself, so the [except] clause around its
    call here has nothing to catch. *)
Definition oauth_callback (c : callback) : act ADOOAuthTokenManager string :=
  if arg_truthy (cb_error c) then
    auth_complete_set ;;
    ret "OAuth failed. Please check the logs."%string
  else if arg_truthy (cb_code c) then
    success <- _exchange_code_for_tokens (default ""%string (cb_code c)) ;;
    if success then
      auth_complete_set ;;
      ret "OAuth successful! You can close this window."%string
    else
      auth_complete_set ;;
      ret "OAuth failed during token exchange. Please check the logs."%string
  else ret "Invalid callback"%string.

(** [_start_oauth_server] *)
Definition _start_oauth_server : act ADOOAuthTokenManager unit :=
  thread <- gets oauth_thread ;;
  running <- (if thread then is_alive else ret false) ;;
  if running then ret tt else
  modify (set_oauth_thread true) ;;
  emit ThreadStart ;;
  emit (Sleep 1).

(** [start_oauth_flow]; the authorization URL it returns is not used by
    its caller and is left out. *)
Definition start_oauth_flow : act ADOOAuthTokenManager unit :=
  _start_oauth_server ;;
  emit BrowserOpen.

(** The listener thread serving callback requests while the main thread
    blocks in [Event.wait]. *)
Fixpoint serve (cs : list callback) : act ADOOAuthTokenManager bool :=
  match cs with
  | [] => ret false
  | c :: cs' =>
      oauth_callback c ;;
      done <- gets auth_complete ;;
      if done then ret true else serve cs'
  end.

(** [wait_for_authorization] *)
Definition wait_for_authorization : act ADOOAuthTokenManager bool :=
  done <- gets auth_complete ;;
  if done then ret true else
  cs <- arrivals ;;
  serve cs.

(** [class ADOMCPServer] *)
Record ADOMCPServer : Type := Server {
  oauth_manager : option ADOOAuthTokenManager;
  auth_method : option string;
  session_authenticated : bool
}.

(** [ADOMCPServer.__init__], once the credentials are found. *)
Definition init_server : ADOMCPServer := Server (Some init) None false.

(** A method call on [self.oauth_manager] under the guard
    [if self.oauth_manager:]. *)
Definition on_manager {A} (c : act ADOOAuthTokenManager A) : act ADOMCPServer (option A) :=
  fun s w =>
    match oauth_manager s with
    | Some m =>
        let r := c m w in
        (Some r.1.1, Server (Some r.1.2) (auth_method s) (session_authenticated s), r.2)
    | None => (None, s, w)
    end.

Definition set_session (method : option string) (b : bool) (s : ADOMCPServer) :=
  Server (oauth_manager s) method b.

(** [_get_auth_headers]: the bearer token of the headers, [None] when no
    headers are returned. *)
Definition _get_auth_headers : act ADOMCPServer pyval :=
  r <- on_manager (
         ok <- gets is_authenticated ;;
         if ok then get_valid_token else ret PNone) ;;
  match r with
  | Some token => if truthy token then ret token else ret PNone
  | None => ret PNone
  end.

(** [_authenticate_if_needed] *)
Definition _authenticate_if_needed : act ADOMCPServer bool :=
  already <- gets session_authenticated ;;
  if already then ret true else
  r <- on_manager (
         start_oauth_flow ;;
         authorized <- wait_for_authorization ;;
         if authorized then gets is_authenticated else ret false) ;;
  match r with
  | Some true =>
      modify (set_session (Some "oauth"%string) true) ;;
      ret true
  | _ => ret false
  end.

(** [clear_session] *)
Definition clear_session : act ADOMCPServer unit :=
  on_manager _clear_tokens ;;
  modify (set_session None false).

(** *** The operations on a session

    The methods through which the tool calls, the dispatcher and the
    listener thread reach the token manager, as steps on the server
    object; [run] performs a sequence of them. *)
Inductive op : Type :=
| StartOAuthFlow
| OAuthCallback (c : callback)
| ExchangeCodeForTokens (code : string)
| GetAdoOrganizations
| RefreshAccessToken
| GetValidToken
| WaitForAuthorization
| ClearTokens
| GetAuthHeaders
| AuthenticateIfNeeded
| ClearSession.

Definition step (o : op) : act ADOMCPServer unit :=
  match o with
  | StartOAuthFlow => on_manager start_oauth_flow ;; ret tt
  | OAuthCallback c => on_manager (oauth_callback c) ;; ret tt
  | ExchangeCodeForTokens code => on_manager (_exchange_code_for_tokens code) ;; ret tt
  | GetAdoOrganizations => on_manager _get_ado_organizations ;; ret tt
  | RefreshAccessToken => on_manager refresh_access_token ;; ret tt
  | GetValidToken => on_manager get_valid_token ;; ret tt
  | WaitForAuthorization => on_manager wait_for_authorization ;; ret tt
  | ClearTokens => on_manager _clear_tokens ;; ret tt
  | GetAuthHeaders => _get_auth_headers ;; ret tt
  | AuthenticateIfNeeded => _authenticate_if_needed ;; ret tt
  | ClearSession => clear_session
  end.

Fixpoint run (ops : list op) : act ADOMCPServer unit :=
  match ops with
  | [] => ret tt
  | o :: ops' => step o ;; run ops'
  end.

(** [self.oauth_manager.auth_complete.is_set()] *)
Definition event_set (s : ADOMCPServer) : bool :=
  match oauth_manager s with
  | Some m => auth_complete m
  | None => false
  end.

(** *** The dispatcher *)

Section Dispatcher.

(** Python's [str()] on a value, as the f-strings apply it. *)
Variable py_str : pyval -> string.

(** The static catalog that [handle_tools_list] returns. *)
Variable tools_catalog : pyval.

(** [handle_tools_call]: the tool handlers are external to the
    dispatcher; a call returns a result or raises. *)
Variable handle_tools_call : pyval -> act ADOMCPServer (exn + pyval).

(** [handle_initialize] *)
Definition handle_initialize (params : pyval) : pyval :=
  PDict {[ "protocolVersion" := PStr "2024-11-05";
           "capabilities" := PDict {[ "tools" := PDict ∅ ]};
           "serverInfo" := PDict {[ "name" := PStr "ado-mcp-server";
                                    "version" := PStr "1.0.0" ]} ]}.

(** [handle_tools_list] *)
Definition handle_tools_list (params : pyval) : pyval := tools_catalog.

(** The response built in the [except Exception] clause of
    [handle_request]. *)
Definition internal_error (request_id : pyval) (e : exn) : pyval :=
  PDict {[ "jsonrpc" := PStr "2.0";
           "id" := request_id;
           "error" := PDict {[ "code" := PNum (-32603);
                               "message" := PStr ("Internal error: " +:+ e) ]} ]}.

(** The text of the [AttributeError] of [v.get] on a value without [get]. *)
Definition no_get (v : pyval) : exn :=
  "'" +:+ type_name v +:+ "' object has no attribute 'get'".

(** [handle_request]: the routes are [initialize], [tools/list] and
    [tools/call]; every other method takes the final [else]. *)
Definition handle_request (line : exn + pyval) : act ADOMCPServer (exn + option pyval) :=
  match line with
  | inl e => ret (inr (Some (internal_error PNone e)))
  | inr (PDict request_data) =>
      let method := dict_get request_data "method" in
      let params := dict_get_or request_data "params" (PDict ∅) in
      let request_id := dict_get request_data "id" in
      let respond (result : pyval) : exn + option pyval :=
        inr (Some (PDict {[ "jsonrpc" := PStr "2.0";
                            "id" := request_id;
                            "result" := result ]})) in
      if is_str method "initialize" then
        ret (respond (handle_initialize params))
      else if is_str method "tools/list" then
        ret (respond (handle_tools_list params))
      else if is_str method "tools/call" then
        r <- handle_tools_call params ;;
        match r with
        | inr result => ret (respond result)
        | inl e =>
            ret (inr (Some (internal_error
              (if truthy (PDict request_data) then request_id else PNone) e)))
        end
      else
        ret (respond (PDict {[ "error" := PDict {[
          "code" := PNum (-32601);
          "message" := PStr ("Method not found: " +:+ py_str method) ]} ]}))
  | inr request_data =>
      if truthy request_data then ret (inl (no_get request_data))
      else ret (inr (Some (internal_error PNone (no_get request_data))))
  end.

(** [if response:] *)
Definition emitted (response : option pyval) : list pyval :=
  match response with
  | Some r => if truthy r then [r] else []
  | None => []
  end.

(** The loop of [main]. *)
Fixpoint main_loop (lines : list (exn + pyval)) : act ADOMCPServer (list pyval) :=
  match lines with
  | [] => ret []
  | line :: rest =>
      r <- handle_request line ;;
      match r with
      | inl _ => ret []
      | inr response =>
          out <- main_loop rest ;;
          ret (emitted response ++ out)
      end
  end.

End Dispatcher.

(** *** Organization selection *)

(** [org['accountName'] == org_name] *)
Definition named (org_name : string) (org : org_info) : bool :=
  is_str (accountName org) org_name.

(** [f"https://dev.azure.com/{org_name}"] *)
Definition dev_azure_url (org_name : string) : pyval :=
  PStr ("https://dev.azure.com/" +:+ org_name).

(** [self.organizations] after [if not self.organizations:
    self.organizations = []]. *)
Definition organizations_or_empty (m : ADOOAuthTokenManager) : list org_info :=
  match organizations m with
  | Some (org :: orgs) => org :: orgs
  | _ => []
  end.

(** [_validate_organization_access] *)
Definition _validate_organization_access (org_name : string)
  : act ADOOAuthTokenManager bool :=
  tok <- gets access_token ;;
  if negb (truthy tok) then ret false else
  r <- http_call "requests.get" ;;
  match r with
  | Raised => ret false
  | Response status_code _ =>
      if status_code =? 200 then ret true
      else if status_code =? 404 then ret false
      else if (status_code =? 401) || (status_code =? 403) then ret false
      else ret false
  end.

(** [select_organization] *)
Definition select_organization (org_name : string) : act ADOOAuthTokenManager bool :=
  valid <- _validate_organization_access org_name ;;
  if valid then
    let org_info :=
      OrgInfo PNone (PStr org_name) (UriDevAzure (PStr org_name)) (PDict ∅) in
    orgs <- gets organizations_or_empty ;;
    modify (set_organizations
              (Some (match List.find (named org_name) orgs with
                     | Some existing => orgs
                     | None => orgs ++ [org_info]
                     end))) ;;
    modify (set_selected_organization (Some org_info)) ;;
    modify (set_ado_url (dev_azure_url org_name)) ;;
    ret true
  else
    orgs <- gets organizations ;;
    match orgs with
    | Some (org :: orgs') =>
        match List.find (named org_name) (org :: orgs') with
        | Some found =>
            modify (set_selected_organization (Some found)) ;;
            modify (set_ado_url (dev_azure_url org_name)) ;;
            ret true
        | None => ret false
        end
    | _ => ret false
    end.

(** [_create_ado_organization] *)
Definition _create_ado_organization (org_name region : string)
  : act ADOOAuthTokenManager bool :=
  tok <- gets access_token ;;
  if negb (truthy tok) then ret false else
  r <- http_call "requests.post" ;;
  match r with
  | Raised => ret false
  | Response status_code body =>
      if (status_code =? 200) || (status_code =? 201) then
        match body with
        | Some (PDict org_data) =>
            let new_org :=
              OrgInfo (dict_get org_data "accountId")
                      (PStr org_name)
                      (UriGiven (dict_get org_data "accountUri"))
                      (dict_get_or org_data "properties" (PDict ∅)) in
            orgs <- gets organizations_or_empty ;;
            modify (set_organizations (Some (orgs ++ [new_org]))) ;;
            select_organization org_name ;;
            ret true
        | _ => ret false
        end
      else ret false
  end.

(** *** The tool layer *)

Section Tools.

(** Python's [str()] on a value, as the f-strings apply it. *)
Variable py_str : pyval -> string.

(** The handler methods of the organization and REST tools, by tool name
    ([_get_organizations], [_select_organization], [_create_organization],
    [_get_all_projects], [_create_project], [_create_issue],
    [_get_issue_types], [_search_issues], [_get_issue]), applied to the
    [arguments] of the call; [_get_organizations] and [_get_all_projects]
    take none.  A handler returns a result or raises. *)
Variable handler : string -> pyval -> act ADOMCPServer (exn + pyval).

(** [_get_base_url] *)
Definition _get_base_url (s : ADOMCPServer) : pyval :=
  match oauth_manager s with
  | Some m => if truthy (access_token m) then ado_url m else PNone
  | None => PNone
  end.

(** [_get_auth]: [None] on both paths. *)
Definition _get_auth (s : ADOMCPServer) : pyval :=
  match oauth_manager s with
  | Some m => if is_authenticated m then PNone else PNone
  | None => PNone
  end.

(** [_make_api_request]: [inl] is an exception the method raises itself;
    [inr] is what [requests.request] comes back with (it may have raised,
    which the method lets through). *)
Definition _make_api_request (method endpoint : string)
  : act ADOMCPServer (exn + http_result) :=
  headers <- _get_auth_headers ;;
  base_url <- gets _get_base_url ;;
  auth <- gets _get_auth ;;
  if negb (truthy base_url) then
    ret (inl "No valid ADO URL configured"%string)
  else if truthy headers then
    r <- http_call "requests.request" ;;
    ret (inr r)
  else if truthy auth then
    r <- http_call "requests.request" ;;
    ret (inr r)
  else ret (inl "No valid authentication method available"%string).

(** [_authenticate] *)
Definition _authenticate : act ADOMCPServer pyval :=
  ok <- _authenticate_if_needed ;;
  if ok then
    ret (tool_text " Successfully authenticated with ADO using OAuth 2.0")
  else
    ret (tool_error " Authentication failed. Please ensure OAuth credentials are configured.").

(** [_clear_session]: [clear_session] raises nothing, so the [except]
    clause has nothing to catch. *)
Definition _clear_session : act ADOMCPServer pyval :=
  clear_session ;;
  ret (tool_text " OAuth session cleared successfully. Re-authentication will be required for next BRD processing.").

(** [handle_tools_call] *)
Definition handle_tools_call (params : pyval) : act ADOMCPServer (exn + pyval) :=
  match params with
  | PDict p =>
      let tool_name := dict_get p "name" in
      let arguments := dict_get_or p "arguments" (PDict ∅) in
      r <-
        (if is_str tool_name "authenticate" then
           async_safe_call (result <- _authenticate ;; ret (inr result))
         else if is_str tool_name "get_organizations" then
           async_safe_call (handler "get_organizations" arguments)
         else if is_str tool_name "select_organization" then
           async_safe_call (handler "select_organization" arguments)
         else if is_str tool_name "create_organization" then
           async_safe_call (handler "create_organization" arguments)
         else if is_str tool_name "get_all_projects" then
           async_safe_call (handler "get_all_projects" arguments)
         else if is_str tool_name "create_project" then
           async_safe_call (handler "create_project" arguments)
         else if is_str tool_name "create_issue" then
           async_safe_call (handler "create_issue" arguments)
         else if is_str tool_name "get_issue_types" then
           async_safe_call (handler "get_issue_types" arguments)
         else if is_str tool_name "search_issues" then
           async_safe_call (handler "search_issues" arguments)
         else if is_str tool_name "get_issue" then
           async_safe_call (handler "get_issue" arguments)
         else if is_str tool_name "clear_session" then
           async_safe_call (result <- _clear_session ;; ret (inr result))
         else
           ret (inr (tool_error ("Unknown tool: " +:+ py_str tool_name)))) ;;
      match r with
      | inr result => ret (inr result)
      | inl e =>
          ret (inr (tool_error
                      ("Error executing " +:+ py_str tool_name +:+ ": " +:+ e)))
      end
  | _ => ret (inl (no_get params))
  end.

End Tools.

End ADO.

(** ** Notions used by the statements *)

(** A world in which every HTTP request comes back with [r], the clock
    stands at [now] seconds, no callback arrives and the listener thread
    stays alive. *)
Definition scripted (r : http_result) (now : Z) : world :=
  World (fun _ => r) 0 (fun _ => float_of_Z now) 0 (fun _ => []) 0
        (fun _ => true) 0 [].

(** How often [auth_complete.set()] ran, how often method [f] was
    entered, how many HTTP requests were sent. *)
Definition sets (w : world) : nat := count is_set (log w).
Definition calls (f : string) (w : world) : nat := count (is_call f) (log w).
Definition requests (w : world) : nat := count is_http (log w).

(** The stored expiry has passed at [now]: [expires_at] holds a value the
    code takes as set, and [now] is at or past it. *)
Definition passed (expires_at : option float) (now : float) : Prop :=
  exists t, expires_at = Some t /\ float_truthy t = true /\
            float_ge now t = true.

(** The token endpoint did not answer with HTTP 200: the request raised,
    or the status is another one. *)
Definition failed (r : http_result) : Prop :=
  r = Raised \/
  exists status_code body, r = Response status_code body /\ status_code <> 200.

(** Every manager method leaves a set completion flag set. *)
Definition jira_keeps_flag {A} (c : act Jira.OAuthTokenManager A) : Prop :=
  forall m w,
    Jira.auth_complete m = true -> Jira.auth_complete (object (c m w)) = true.

Definition ado_keeps_flag {A} (c : act ADO.ADOOAuthTokenManager A) : Prop :=
  forall m w,
    ADO.auth_complete m = true -> ADO.auth_complete (object (c m w)) = true.

(** A line that ends the loop of [main]: [json.loads] gives a truthy value
    without [get], so that the [except] clause of [handle_request] raises
    in its turn. *)
Definition fatal (line : exn + pyval) : bool :=
  match line with
  | inl _ => false
  | inr (PDict _) => false
  | inr v => truthy v
  end.

(** The [id] and the [method] of a request line ([None] where there is
    none), and the [id] of a response. *)
Definition line_id (line : exn + pyval) : pyval :=
  match line with
  | inr (PDict request_data) => dict_get request_data "id"
  | _ => PNone
  end.

Definition line_method (line : exn + pyval) : pyval :=
  match line with
  | inr (PDict request_data) => dict_get request_data "method"
  | _ => PNone
  end.

Definition response_id (response : pyval) : pyval :=
  match response with
  | PDict d => dict_get d "id"
  | _ => PNone
  end.

(** [response.get(k)], [None] standing for an absent member. *)
Definition response_member (response : pyval) (k : string) : option pyval :=
  match response with
  | PDict d => d !! k
  | _ => None
  end.

(** The notification the Jira dispatcher routes. *)
Definition is_notification (line : exn + pyval) : bool :=
  is_str (line_method line) "notifications/initialized".

(** The [id]s of the responses owed to a sequence of lines: one per line
    in order, none for the notification. *)
Fixpoint expected_ids (lines : list (exn + pyval)) : list pyval :=
  match lines with
  | [] => []
  | line :: rest =>
      if is_notification line then expected_ids rest
      else line_id line :: expected_ids rest
  end.

(** The methods with a route of their own, including the notification. *)
Definition routed (method : pyval) : bool :=
  is_str method "initialize" || is_str method "notifications/initialized"
  || is_str method "tools/list" || is_str method "tools/call".

(** The body of the response to a method without a route. *)
Definition method_not_found (py_str : pyval -> string) (method : pyval) : pyval :=
  PDict {[ "code" := PNum (-32601);
           "message" := PStr ("Method not found: " +:+ py_str method) ]}.

(** ** Sample inputs *)

(** A Jira manager holding a token but no cloud id. *)
Definition jira_token_only : Jira.OAuthTokenManager :=
  Jira.Manager (PStr "tok") PNone PNone None false false.

(** A token response without a [refresh_token] member. *)
Definition token_body : gmap string pyval :=
  {[ "access_token" := PStr "fresh"; "expires_in" := PNum 3600 ]}.

(** Managers whose token expired at 1000, with a refresh token in store
    and the completion event set. *)
Definition jira_expired : Jira.OAuthTokenManager :=
  Jira.Manager (PStr "stale") (PStr "r1") (PStr "cloud")
               (Some (float_of_Z 1000)) true true.

Definition ado_expired : ADO.ADOOAuthTokenManager :=
  ADO.Manager (PStr "stale") (PStr "r1") (Some (float_of_Z 1000)) PNone None None
              true true.

(** Callback requests: with a code, with an error, with neither. *)
Definition with_code : callback := Callback (Some "abc"%string) None.
Definition with_error : callback := Callback None (Some "access_denied"%string).
Definition with_neither : callback := Callback None None.

(** A Jira server after a completed authorization. *)
Definition jira_session : Jira.JiraMCPServer :=
  Jira.Server (Some jira_expired) (Some "oauth"%string) true.

(** A stand-in for [str()] that is right on strings, and a tool
    dispatcher that answers [None]. *)
Definition sample_str (v : pyval) : string :=
  match v with
  | PStr s => s
  | _ => ""
  end.

Definition sample_tools_call (params : pyval) : act Jira.JiraMCPServer (exn + pyval) :=
  ret (inr PNone).

(** Request lines: the initialization notification, and a request for a
    method without a route. *)
Definition initialized_notification : gmap string pyval :=
  {[ "jsonrpc" := PStr "2.0"; "method" := PStr "notifications/initialized" ]}.

Definition unknown_method_request : gmap string pyval :=
  {[ "jsonrpc" := PStr "2.0"; "id" := PNum 1; "method" := PStr "resources/list" ]}.

(** Unfolding of the monad. *)
Ltac run_act :=
  unfold value, object, after, sets, calls, requests, bind, ret, gets,
         modify, emit, http, time_time, is_alive, arrivals in *;
  cbn in *.

(** ** Further notions and sample inputs *)

(** A callback request with neither a code nor an error. *)
Definition stray (c : callback) : Prop :=
  arg_truthy (cb_code c) = false /\ arg_truthy (cb_error c) = false.

(** A world that answers the HTTP requests with [responses] in turn (and
    raises once they are used up), whose clock stands at [now] seconds,
    whose waits see the callback requests [cbs] in turn, and whose
    listener thread stays alive. *)
Definition replayed (responses : list http_result) (now : Z)
    (cbs : list (list callback)) : world :=
  World (fun n => nth n responses Raised) 0 (fun _ => float_of_Z now) 0
        (fun n => nth n cbs []) 0 (fun _ => true) 0 [].

(** How many listener threads were started. *)
Definition is_thread_start (e : event) : bool :=
  match e with ThreadStart => true | _ => false end.

Definition threads (w : world) : nat := count is_thread_start (log w).

(** An organization entry has a name. *)
Definition has_name (org : ADO.org_info) : bool := truthy (ADO.accountName org).

(** The answer of the accessible-resources endpoint with one site. *)
Definition one_site : pyval :=
  PList [PDict {[ "id" := PStr "site-1"; "name" := PStr "acme" ]}].

(** A token response with every member. *)
Definition full_token_body : gmap string pyval :=
  {[ "access_token" := PStr "fresh"; "refresh_token" := PStr "r2";
     "expires_in" := PNum 3600 ]}.

(** A token response whose [expires_in] is a string. *)
Definition odd_token_body : gmap string pyval :=
  {[ "access_token" := PStr "fresh"; "expires_in" := PStr "3600" ]}.

(** A token response whose [expires_in] is an integer beyond every
    float. *)
Definition huge_token_body : gmap string pyval :=
  {[ "access_token" := PStr "fresh"; "expires_in" := PNum (10 ^ 400) ]}.

(** A token response of a token that lives two minutes. *)
Definition short_token_body : gmap string pyval :=
  {[ "access_token" := PStr "fresh"; "expires_in" := PNum 120 ]}.

(** Worlds for one authorization: the token endpoint answers, then the
    accessible-resources (or profile) request is answered, refused, or
    raises; one callback with a code arrives. *)
Definition flow_with_site : world :=
  replayed [Response 200 (Some (PDict full_token_body));
            Response 200 (Some one_site)] 1000 [[with_code]].

Definition flow_without_site : world :=
  replayed [Response 200 (Some (PDict full_token_body)); Response 403 None]
           1000 [[with_code]].

Definition flow_token_only : world :=
  replayed [Response 200 (Some (PDict full_token_body))] 1000 [[with_code]].

(** Splitting conjunctions only. *)
Ltac splits := repeat match goal with |- _ /\ _ => split end.

(** Unfolding of the monad, the tool layer included. *)
Ltac run_tools :=
  unfold async_safe_call, http_call in *; run_act.

(** The tool names [handle_tools_call] routes to a REST handler, per
    server. *)
Definition jira_rest_tools : list string :=
  ["get_all_projects"; "create_project"; "create_issue"; "get_issue_types";
   "search_issues"; "get_issue"; "update_issue"]%string.

Definition ado_rest_tools : list string :=
  ["get_organizations"; "select_organization"; "create_organization";
   "get_all_projects"; "create_project"; "create_issue"; "get_issue_types";
   "search_issues"; "get_issue"]%string.

(** The tool name is none of [tools], nor one of the two session tools. *)
Definition unknown_tool (tools : list string) (tool_name : pyval) : bool :=
  negb (is_str tool_name "authenticate" || is_str tool_name "clear_session"
        || existsb (is_str tool_name) tools).

(** How often [requests.request] was called. *)
Definition api_calls (w : world) : nat := calls "requests.request" w.

(** How many seconds were slept. *)
Fixpoint slept (l : list event) : Z :=
  match l with
  | [] => 0
  | Sleep seconds :: l' => seconds + slept l'
  | _ :: l' => slept l'
  end.

(** Handlers for the samples: one that answers, one that raises. *)
Definition jira_quiet_handler (name : string) (arguments : pyval)
  : act Jira.JiraMCPServer (exn + pyval) :=
  ret (inr (tool_text name)).

Definition jira_raising_handler (name : string) (arguments : pyval)
  : act Jira.JiraMCPServer (exn + pyval) :=
  ret (inl "boom"%string).

Definition ado_quiet_handler (name : string) (arguments : pyval)
  : act ADO.ADOMCPServer (exn + pyval) :=
  ret (inr (tool_text name)).

Definition ado_raising_handler (name : string) (arguments : pyval)
  : act ADO.ADOMCPServer (exn + pyval) :=
  ret (inl "boom"%string).

(** [tools/call] request lines: for a tool no server has, for a tool both
    servers route to a handler, and with [params] that are a list. *)
Definition unknown_tool_params : gmap string pyval :=
  {[ "name" := PStr "delete_everything" ]}.

Definition unknown_tool_request : gmap string pyval :=
  {[ "jsonrpc" := PStr "2.0"; "id" := PNum 7; "method" := PStr "tools/call";
     "params" := PDict unknown_tool_params ]}.

Definition get_issue_params : gmap string pyval :=
  {[ "name" := PStr "get_issue";
     "arguments" := PDict {[ "issue_key" := PStr "BRD-1" ]} ]}.

Definition list_params_request : gmap string pyval :=
  {[ "jsonrpc" := PStr "2.0"; "id" := PNum 8; "method" := PStr "tools/call";
     "params" := PList [PStr "get_issue"] ]}.

(** A world whose first wait sees three callback requests: a stray one,
    one with an error, one with a code. *)
Definition three_callbacks : world :=
  replayed [] 0 [[with_neither; with_error; with_code]].

(** * Properties *)

(** ** Token presence and readiness (C1) *)

Lemma truthy_py_and a b : truthy (py_and a b) = truthy a && truthy b.
Proof. unfold py_and. destruct (truthy a) eqn:E; [done | by rewrite E]. Qed.

(** C1, as stated, fails on the Jira manager: with an access token and no
    cloud id, [is_authenticated()] is false although the token is present. *)
Lemma C1_jira_needs_cloud_id :
  ~ (Jira.is_authenticated jira_token_only = true <->
     truthy (Jira.access_token jira_token_only) = true).
Proof. cbn. intros [_ H]. by specialize (H eq_refl). Qed.

(** C1, amended: on the ADO manager [is_authenticated()] is true exactly
    when [access_token] is present, whatever the organization fields
    hold; on the Jira manager it is true exactly when both [access_token]
    and [cloud_id] are present. *)
Theorem C1_is_authenticated :
  (forall m : ADO.ADOOAuthTokenManager,
     ADO.is_authenticated m = truthy (ADO.access_token m)) /\
  (forall (m : ADO.ADOOAuthTokenManager) url orgs sel,
     ADO.is_authenticated
       (ADO.set_ado_url url
          (ADO.set_organizations orgs (ADO.set_selected_organization sel m)))
     = ADO.is_authenticated m) /\
  (forall m : Jira.OAuthTokenManager,
     Jira.is_authenticated m
     = truthy (Jira.access_token m) && truthy (Jira.cloud_id m)).
Proof.
  repeat split.
  intros m. unfold Jira.is_authenticated. apply truthy_py_and.
Qed.

(** ** Token exchange (C5, C6) *)

Section JiraExchange.
Import Jira.

Lemma jira_get_cloud_id_keeps m w :
  let r := _get_cloud_id m w in
  access_token (object r) = access_token m /\
  refresh_token (object r) = refresh_token m /\
  expires_at (object r) = expires_at m /\
  auth_complete (object r) = auth_complete m /\
  oauth_thread (object r) = oauth_thread m /\
  sets (after r) = sets w /\
  waits (after r) = waits w /\
  calls "_exchange_code_for_tokens" (after r) = calls "_exchange_code_for_tokens" w /\
  calls "refresh_access_token" (after r) = calls "refresh_access_token" w.
Proof.
  unfold _get_cloud_id; run_act.
  repeat (case_match; cbn; try done).
Qed.

Lemma jira_exchange_failed code m w :
  failed (net w (nreq w)) ->
  _exchange_code_for_tokens code m w
  = (false, m, next_request (PostAuthorizationCode code)
                 (log_event (Call "_exchange_code_for_tokens") w)).
Proof.
  intros H. unfold _exchange_code_for_tokens; run_act.
  destruct H as [-> | (st & b & -> & Hst)]; cbn; [done|].
  destruct (Z.eqb_spec st 200); [lia|]. done.
Qed.


Lemma jira_exchange_keeps code m w :
  let r := _exchange_code_for_tokens code m w in
  auth_complete (object r) = auth_complete m /\
  oauth_thread (object r) = oauth_thread m /\
  sets (after r) = sets w /\
  waits (after r) = waits w /\
  calls "_exchange_code_for_tokens" (after r)
  = S (calls "_exchange_code_for_tokens" w).
Proof.
  unfold _exchange_code_for_tokens; run_act.
  destruct (net w (nreq w)) as [|st [[]|]]; cbn; try done;
    destruct (st =? 200); cbn; try done.
  destruct (expires_in_of d); cbn; try done.
  match goal with |- context [_get_cloud_id ?m ?w] =>
    pose proof (jira_get_cloud_id_keeps m w) as K end.
  run_act. destruct K as (_ & _ & _ & -> & -> & -> & -> & -> & _). done.
Qed.
End JiraExchange.

Section ADOExchange.
Import ADO.

Lemma ado_get_organizations_keeps m w :
  let r := _get_ado_organizations m w in
  access_token (object r) = access_token m /\
  refresh_token (object r) = refresh_token m /\
  expires_at (object r) = expires_at m /\
  auth_complete (object r) = auth_complete m /\
  oauth_thread (object r) = oauth_thread m /\
  sets (after r) = sets w /\
  waits (after r) = waits w /\
  calls "_exchange_code_for_tokens" (after r) = calls "_exchange_code_for_tokens" w /\
  calls "refresh_access_token" (after r) = calls "refresh_access_token" w.
Proof.
  unfold _get_ado_organizations; run_act.
  repeat (case_match; cbn; try done).
Qed.

Lemma ado_exchange_failed code m w :
  failed (net w (nreq w)) ->
  _exchange_code_for_tokens code m w
  = (false, m, next_request (PostAuthorizationCode code)
                 (log_event (Call "_exchange_code_for_tokens") w)).
Proof.
  intros H. unfold _exchange_code_for_tokens; run_act.
  destruct H as [-> | (st & b & -> & Hst)]; cbn; [done|].
  destruct (Z.eqb_spec st 200); [lia|]. done.
Qed.


Lemma ado_exchange_keeps code m w :
  let r := _exchange_code_for_tokens code m w in
  auth_complete (object r) = auth_complete m /\
  oauth_thread (object r) = oauth_thread m /\
  sets (after r) = sets w /\
  waits (after r) = waits w /\
  calls "_exchange_code_for_tokens" (after r)
  = S (calls "_exchange_code_for_tokens" w).
Proof.
  unfold _exchange_code_for_tokens; run_act.
  destruct (net w (nreq w)) as [|st [[]|]]; cbn; try done;
    destruct (st =? 200); cbn; try done.
  destruct (expires_in_of d); cbn; try done.
  case_match; cbn; [done|].
  match goal with |- context [_get_ado_organizations ?m ?w] =>
    pose proof (ado_get_organizations_keeps m w) as K end.
  run_act. destruct K as (_ & _ & _ & -> & -> & -> & -> & -> & _). done.
Qed.
End ADOExchange.

(** C5: when the token endpoint raises or answers with a status other
    than 200, [_exchange_code_for_tokens] returns [False] and the manager
    is exactly as before the call (tokens, expiry, resource context and
    all other fields), on both servers. *)
Theorem C5_exchange_failure_keeps_state :
  forall (code : string) (w : world),
    failed (net w (nreq w)) ->
    (forall m : Jira.OAuthTokenManager,
       value (Jira._exchange_code_for_tokens code m w) = false /\
       object (Jira._exchange_code_for_tokens code m w) = m) /\
    (forall m : ADO.ADOOAuthTokenManager,
       value (ADO._exchange_code_for_tokens code m w) = false /\
       object (ADO._exchange_code_for_tokens code m w) = m).
Proof.
  intros code w H. split; intros m.
  - by rewrite (jira_exchange_failed code m w H).
  - by rewrite (ado_exchange_failed code m w H).
Qed.

Lemma C5_exchange_failure_witness :
  failed (net (scripted (Response 401 None) 1000) 0) /\
  value (Jira._exchange_code_for_tokens "c" jira_expired
           (scripted (Response 401 None) 1000)) = false /\
  object (ADO._exchange_code_for_tokens "c" ado_expired
            (scripted Raised 1000)) = ado_expired.
Proof.
  assert (H1 : failed (net (scripted (Response 401 None) 1000)
                           (nreq (scripted (Response 401 None) 1000)))).
  { right. exists 401, None. split; [reflexivity | lia]. }
  assert (H2 : failed (net (scripted Raised 1000) (nreq (scripted Raised 1000)))).
  { left. reflexivity. }
  split; [exact H1|]. split.
  - exact (proj1 (proj1 (C5_exchange_failure_keeps_state "c" _ H1) jira_expired)).
  - exact (proj2 (proj2 (C5_exchange_failure_keeps_state "c" _ H2) ado_expired)).
Defined.

(** C6, as stated, fails: a response that carries [expires_in] need not
    carry one that can be added to the clock.  With the string "3600",
    and with an integer too large for a float, the exchange answered with
    HTTP 200 returns [False] and [expires_at] is left at its old value,
    on both managers. *)
Lemma C6_expires_in_not_addable :
  odd_token_body !! "expires_in" = Some (PStr "3600") /\
  Jira._exchange_code_for_tokens "c" jira_expired
    (scripted (Response 200 (Some (PDict odd_token_body))) 5000)
  = (false,
     Jira.set_refresh_token PNone (Jira.set_access_token (PStr "fresh") jira_expired),
     next_tick (next_request (PostAuthorizationCode "c")
                  (log_event (Call "_exchange_code_for_tokens")
                     (scripted (Response 200 (Some (PDict odd_token_body))) 5000)))) /\
  huge_token_body !! "expires_in" = Some (PNum (10 ^ 400)) /\
  value (ADO._exchange_code_for_tokens "c" ado_expired
           (scripted (Response 200 (Some (PDict huge_token_body))) 5000))
  = false /\
  ADO.expires_at
    (object (ADO._exchange_code_for_tokens "c" ado_expired
               (scripted (Response 200 (Some (PDict huge_token_body))) 5000)))
  = ADO.expires_at ado_expired.
Proof. vm_compute. repeat split. Qed.



(** ** Refresh (C7) and token validity (C4) *)

Section JiraRefresh.
Import Jira.

Lemma jira_refresh_without_token m w :
  truthy (refresh_token m) = false ->
  refresh_access_token m w = (false, m, log_event (Call "refresh_access_token") w).
Proof. intros H. unfold refresh_access_token; run_act. by rewrite H. Qed.

Lemma jira_refresh_retains m w tokens :
  truthy (refresh_token m) = true ->
  net w (nreq w) = Response 200 (Some (PDict tokens)) ->
  tokens !! "refresh_token" = None ->
  let r := refresh_access_token m w in
  refresh_token (object r) = refresh_token m /\
  access_token (object r) = dict_get tokens "access_token" /\
  forall e, expires_in_of tokens = Some e ->
    value r = true /\ expires_at (object r) = Some (expiry (clock w (ticks w)) e).
Proof.
  intros Hrt H Hno. unfold refresh_access_token; run_act.
  rewrite Hrt; cbn. rewrite H; cbn. rewrite Hno; cbn.
  destruct (expires_in_of tokens) as [e'|]; cbn.
  - split; [done|]. split; [done|]. by intros e [= ->].
  - split; [done|]. split; [done|]. by intros e [=].
Qed.

Lemma jira_refresh_keeps m w :
  let r := refresh_access_token m w in
  auth_complete (object r) = auth_complete m /\
  oauth_thread (object r) = oauth_thread m /\
  sets (after r) = sets w /\
  waits (after r) = waits w /\
  calls "refresh_access_token" (after r) = S (calls "refresh_access_token" w).
Proof.
  unfold refresh_access_token; run_act.
  repeat (case_match; cbn; try done).
Qed.

Lemma jira_token_expired_spec m w :
  let r := token_expired m w in
  object r = m /\
  calls "refresh_access_token" (after r) = calls "refresh_access_token" w /\
  sets (after r) = sets w /\ waits (after r) = waits w /\
  (value r = true <-> passed (expires_at m) (clock w (ticks w))).
Proof.
  unfold token_expired, passed; run_act.
  destruct (expires_at m) as [t|]; cbn.
  - destruct (float_truthy t) eqn:T; cbn.
    + repeat split; try done.
      * intros Hle. exists t. by repeat split.
      * by intros (t' & [= <-] & _ & Hle).
    + repeat split; try done. intros (t' & [= <-] & ? & _). congruence.
  - repeat split; try done. by intros (t' & [=] & _).
Qed.

Lemma jira_get_valid_token_keeps m w :
  let r := get_valid_token m w in
  auth_complete (object r) = auth_complete m /\
  oauth_thread (object r) = oauth_thread m /\
  sets (after r) = sets w /\
  waits (after r) = waits w.
Proof.
  unfold get_valid_token; run_act.
  destruct (truthy (access_token m)); cbn; [|done].
  pose proof (jira_token_expired_spec m w) as (Ho & _ & Hs & Hw & _).
  run_act.
  destruct (token_expired m w).1.1; cbn.
  - match goal with |- context [refresh_access_token ?m' ?w'] =>
      pose proof (jira_refresh_keeps m' w') as K end.
    run_act. rewrite Ho in K. destruct K as (Ka & Kt & Ks & Kw & _).
    rewrite Ho.
    destruct (refresh_access_token m (token_expired m w).2).1.1; cbn;
      rewrite ?Ka, ?Kt, ?Ks, ?Kw, ?Hs, ?Hw; done.
  - rewrite Ho, Hs, Hw. done.
Qed.
End JiraRefresh.

Section JiraValidToken.
Import Jira.

Lemma jira_get_valid_token_spec m w :
  let r := get_valid_token m w in
  let now := clock w (ticks w) in
  (truthy (access_token m) = false -> r = (PNone, m, w)) /\
  (truthy (access_token m) = true -> passed (expires_at m) now ->
     let r' := refresh_access_token m (next_tick w) in
     calls "refresh_access_token" (after r) = S (calls "refresh_access_token" w) /\
     object r = object r' /\
     value r = if value r' then access_token (object r') else PNone) /\
  (truthy (access_token m) = true -> ~ passed (expires_at m) now ->
     calls "refresh_access_token" (after r) = calls "refresh_access_token" w /\
     object r = m /\
     value r = access_token m).
Proof.
  cbn zeta. unfold get_valid_token.
  pose proof (jira_token_expired_spec m w) as (Ho & Hc & _ & _ & Hp).
  split; [|split].
  - intros Ht. run_act. by rewrite Ht.
  - intros Ht Hpassed. apply Hp in Hpassed.
    assert (Hw : after (token_expired m w) = next_tick w).
    { clear -Hpassed. unfold token_expired in *; run_act.
      destruct (expires_at m) as [t|]; cbn in *; [|done].
      by destruct (float_truthy t). }
    pose proof (jira_refresh_keeps m (next_tick w)) as (_ & _ & _ & _ & Kc).
    run_act. rewrite Ht; cbn. rewrite Hpassed; cbn. rewrite Ho, Hw.
    split; [|by destruct (refresh_access_token m (next_tick w)).1.1].
    destruct (refresh_access_token m (next_tick w)).1.1; cbn; exact Kc.
  - intros Ht Hnot.
    assert (He : value (token_expired m w) = false).
    { destruct (value (token_expired m w)) eqn:E; [|done].
      destruct Hnot. by apply Hp. }
    run_act. rewrite Ht; cbn. rewrite He; cbn. by rewrite Ho, Hc.
Qed.
End JiraValidToken.

(** ** The callback listener (C9) *)

Section JiraCallback.
Import Jira.

Lemma jira_callback_spec c m w :
  let r := oauth_callback c m w in
  (arg_truthy (cb_code c) = true ->
     sets (after r) = S (sets w) /\ auth_complete (object r) = true) /\
  (arg_truthy (cb_error c) = false -> arg_truthy (cb_code c) = true ->
     calls "_exchange_code_for_tokens" (after r)
     = S (calls "_exchange_code_for_tokens" w)) /\
  (arg_truthy (cb_error c) = true ->
     sets (after r) = S (sets w) /\ auth_complete (object r) = true /\
     calls "_exchange_code_for_tokens" (after r)
     = calls "_exchange_code_for_tokens" w /\
     requests (after r) = requests w) /\
  (arg_truthy (cb_error c) = false -> arg_truthy (cb_code c) = false ->
     r = ("Invalid callback"%string, m, w)).
Proof.
  cbn zeta. unfold oauth_callback, auth_complete_set.
  pose proof (jira_exchange_keeps (default ""%string (cb_code c)) m w)
    as (_ & _ & Ks & _ & Kc).
  run_act.
  destruct (arg_truthy (cb_error c)), (arg_truthy (cb_code c)); cbn;
    repeat split; try done;
    destruct (_exchange_code_for_tokens _ m w).1.1; cbn;
    rewrite ?Ks, ?Kc; done.
Qed.

Lemma jira_callback_keeps c m w :
  let r := oauth_callback c m w in
  (auth_complete m = true -> auth_complete (object r) = true) /\
  (auth_complete (object r) = false -> sets (after r) = sets w) /\
  waits (after r) = waits w.
Proof.
  cbn zeta. unfold oauth_callback, auth_complete_set.
  pose proof (jira_exchange_keeps (default ""%string (cb_code c)) m w)
    as (Ka & _ & Ks & Kw & _).
  run_act.
  destruct (arg_truthy (cb_error c)), (arg_truthy (cb_code c)); cbn;
    repeat split; try done;
    destruct (_exchange_code_for_tokens _ m w).1.1; cbn; done.
Qed.
End JiraCallback.

(** ** The completion event is never cleared (C10) *)

Section JiraEvent.
Import Jira.

Lemma jira_serve_keeps cs m w :
  auth_complete m = true -> auth_complete (object (serve cs m w)) = true.
Proof.
  revert m w. induction cs as [|c cs IH]; intros m w Hm; [done|].
  cbn [serve]. run_act.
  destruct (auth_complete (oauth_callback c m w).1.2) eqn:E; cbn; [done|].
  apply IH. by apply (jira_callback_keeps c m w).
Qed.

Lemma jira_wait_when_set m w :
  auth_complete m = true -> wait_for_authorization m w = (true, m, w).
Proof. intros H. unfold wait_for_authorization; run_act. by rewrite H. Qed.

Lemma jira_start_keeps m w :
  let r := start_oauth_flow m w in
  auth_complete (object r) = auth_complete m /\
  access_token (object r) = access_token m /\
  cloud_id (object r) = cloud_id m /\
  waits (after r) = waits w /\ sets (after r) = sets w.
Proof.
  unfold start_oauth_flow, _start_oauth_server; run_act.
  by destruct (oauth_thread m); cbn; [destruct (alive w (probes w))|].
Qed.

Lemma jira_keeps_on_manager {A} (c : act OAuthTokenManager A) s w :
  jira_keeps_flag c -> event_set s = true ->
  event_set (object (on_manager c s w)) = true.
Proof.
  unfold jira_keeps_flag, event_set, on_manager, object. intros Hc Hs.
  destruct (oauth_manager s) as [m|]; cbn in *; [|done]. by apply Hc.
Qed.

Lemma jira_keeps_start : jira_keeps_flag start_oauth_flow.
Proof. intros m w H. by rewrite (proj1 (jira_start_keeps m w)). Qed.

Lemma jira_keeps_callback c : jira_keeps_flag (oauth_callback c).
Proof. intros m w. apply jira_callback_keeps. Qed.

Lemma jira_keeps_exchange code : jira_keeps_flag (_exchange_code_for_tokens code).
Proof. intros m w H. by rewrite (proj1 (jira_exchange_keeps code m w)). Qed.

Lemma jira_keeps_cloud_id : jira_keeps_flag _get_cloud_id.
Proof.
  intros m w H.
  by rewrite (proj1 (proj2 (proj2 (proj2 (jira_get_cloud_id_keeps m w))))).
Qed.

Lemma jira_keeps_refresh : jira_keeps_flag refresh_access_token.
Proof. intros m w H. by rewrite (proj1 (jira_refresh_keeps m w)). Qed.

Lemma jira_keeps_valid_token : jira_keeps_flag get_valid_token.
Proof. intros m w H. by rewrite (proj1 (jira_get_valid_token_keeps m w)). Qed.

Lemma jira_keeps_wait : jira_keeps_flag wait_for_authorization.
Proof. intros m w H. by rewrite (jira_wait_when_set m w H). Qed.

Lemma jira_keeps_clear : jira_keeps_flag _clear_tokens.
Proof. intros m w H. exact H. Qed.

Lemma jira_keeps_bind {A B} (c : act OAuthTokenManager A)
      (k : A -> act OAuthTokenManager B) :
  jira_keeps_flag c -> (forall a, jira_keeps_flag (k a)) -> jira_keeps_flag (x <- c ;; k x).
Proof. intros Hc Hk m w H. unfold bind, object. apply Hk, Hc, H. Qed.

Lemma jira_keeps_ret {A} (a : A) : jira_keeps_flag (ret a).
Proof. by intros m w H. Qed.

Lemma jira_keeps_gets {A} (f : OAuthTokenManager -> A) : jira_keeps_flag (gets f).
Proof. by intros m w H. Qed.

Lemma jira_get_auth_headers_keeps s w :
  event_set s = true -> event_set (object (_get_auth_headers s w)) = true.
Proof.
  intros Hs. unfold _get_auth_headers.
  match goal with |- context [on_manager ?c] =>
    assert (K : event_set (object (on_manager c s w)) = true) end.
  { apply jira_keeps_on_manager; [|done].
    apply jira_keeps_bind; [apply jira_keeps_gets|].
    intros []; [apply jira_keeps_valid_token | apply jira_keeps_ret]. }
  revert K. unfold bind, object, ret.
  destruct (on_manager _ s w).1.1 as [token|]; [destruct (truthy token)|]; done.
Qed.

Lemma jira_authenticate_keeps s w :
  event_set s = true -> event_set (object (_authenticate_if_needed s w)) = true.
Proof.
  intros Hs. unfold _authenticate_if_needed.
  match goal with |- context [on_manager ?c] =>
    assert (K : event_set (object (on_manager c s w)) = true) end.
  { apply jira_keeps_on_manager; [|done].
    apply jira_keeps_bind; [apply jira_keeps_start|]. intros _.
    apply jira_keeps_bind; [apply jira_keeps_wait|].
    intros []; [apply jira_keeps_gets | apply jira_keeps_ret]. }
  revert K. unfold bind, object, ret, gets, modify. cbn.
  destruct (session_authenticated s); [done|].
  by destruct (on_manager _ s w).1.1 as [[]|].
Qed.

Lemma jira_clear_session_keeps s w :
  event_set s = true -> event_set (object (clear_session s w)) = true.
Proof.
  unfold clear_session, event_set, on_manager; run_act.
  by destruct (oauth_manager s).
Qed.

Lemma jira_step_keeps o s w :
  event_set s = true -> event_set (object (step o s w)) = true.
Proof.
  intros Hs.
  assert (Hon : forall A (c : act OAuthTokenManager A),
             jira_keeps_flag c ->
             event_set (object ((on_manager c ;; ret tt) s w)) = true).
  { intros A c Hc. exact (jira_keeps_on_manager c s w Hc Hs). }
  destruct o; cbn [step].
  - apply Hon, jira_keeps_start.
  - apply Hon, jira_keeps_callback.
  - apply Hon, jira_keeps_exchange.
  - apply Hon, jira_keeps_cloud_id.
  - apply Hon, jira_keeps_refresh.
  - apply Hon, jira_keeps_valid_token.
  - apply Hon, jira_keeps_wait.
  - apply Hon, jira_keeps_clear.
  - exact (jira_get_auth_headers_keeps s w Hs).
  - exact (jira_authenticate_keeps s w Hs).
  - exact (jira_clear_session_keeps s w Hs).
Qed.

Lemma jira_run_keeps ops s w :
  event_set s = true -> event_set (object (run ops s w)) = true.
Proof.
  revert s w. induction ops as [|o ops IH]; intros s w Hs; [done|].
  cbn [run]. unfold bind, object in *. apply IH.
  exact (jira_step_keeps o s w Hs).
Qed.

Lemma jira_authenticate_when_set s w m :
  oauth_manager s = Some m -> auth_complete m = true ->
  session_authenticated s = false ->
  let r := _authenticate_if_needed s w in
  value r = is_authenticated m /\
  waits (after r) = waits w /\
  sets (after r) = sets w.
Proof.
  intros Hm Ha Hs. cbn zeta.
  pose proof (jira_start_keeps m w) as (Ka & Kt & Kc & Kw & Ks).
  assert (Hwait : wait_for_authorization (object (start_oauth_flow m w))
                    (after (start_oauth_flow m w))
                  = (true, object (start_oauth_flow m w),
                     after (start_oauth_flow m w))).
  { apply jira_wait_when_set. by rewrite Ka. }
  unfold _authenticate_if_needed, on_manager, is_authenticated in *.
  run_act. rewrite Hs, Hm; cbn. rewrite Hwait; cbn.
  rewrite Kt, Kc.
  by destruct (truthy (py_and (access_token m) (cloud_id m))).
Qed.
End JiraEvent.


Section ADORefresh.
Import ADO.

Lemma ado_refresh_without_token m w :
  truthy (refresh_token m) = false ->
  refresh_access_token m w = (false, m, log_event (Call "refresh_access_token") w).
Proof. intros H. unfold refresh_access_token; run_act. by rewrite H. Qed.

Lemma ado_refresh_retains m w tokens :
  truthy (refresh_token m) = true ->
  net w (nreq w) = Response 200 (Some (PDict tokens)) ->
  tokens !! "refresh_token" = None ->
  let r := refresh_access_token m w in
  refresh_token (object r) = refresh_token m /\
  access_token (object r) = dict_get tokens "access_token" /\
  forall e, expires_in_of tokens = Some e ->
    value r = true /\ expires_at (object r) = Some (expiry (clock w (ticks w)) e).
Proof.
  intros Hrt H Hno. unfold refresh_access_token; run_act.
  rewrite Hrt; cbn. rewrite H; cbn. rewrite Hno; cbn.
  destruct (expires_in_of tokens) as [e'|]; cbn.
  - split; [done|]. split; [done|]. by intros e [= ->].
  - split; [done|]. split; [done|]. by intros e [=].
Qed.

Lemma ado_refresh_keeps m w :
  let r := refresh_access_token m w in
  auth_complete (object r) = auth_complete m /\
  oauth_thread (object r) = oauth_thread m /\
  sets (after r) = sets w /\
  waits (after r) = waits w /\
  calls "refresh_access_token" (after r) = S (calls "refresh_access_token" w).
Proof.
  unfold refresh_access_token; run_act.
  repeat (case_match; cbn; try done).
Qed.

Lemma ado_token_expired_spec m w :
  let r := token_expired m w in
  object r = m /\
  calls "refresh_access_token" (after r) = calls "refresh_access_token" w /\
  sets (after r) = sets w /\ waits (after r) = waits w /\
  (value r = true <-> passed (expires_at m) (clock w (ticks w))).
Proof.
  unfold token_expired, passed; run_act.
  destruct (expires_at m) as [t|]; cbn.
  - destruct (float_truthy t) eqn:T; cbn.
    + repeat split; try done.
      * intros Hle. exists t. by repeat split.
      * by intros (t' & [= <-] & _ & Hle).
    + repeat split; try done. intros (t' & [= <-] & ? & _). congruence.
  - repeat split; try done. by intros (t' & [=] & _).
Qed.

Lemma ado_get_valid_token_keeps m w :
  let r := get_valid_token m w in
  auth_complete (object r) = auth_complete m /\
  oauth_thread (object r) = oauth_thread m /\
  sets (after r) = sets w /\
  waits (after r) = waits w.
Proof.
  unfold get_valid_token; run_act.
  destruct (truthy (access_token m)); cbn; [|done].
  pose proof (ado_token_expired_spec m w) as (Ho & _ & Hs & Hw & _).
  run_act.
  destruct (token_expired m w).1.1; cbn.
  - match goal with |- context [refresh_access_token ?m' ?w'] =>
      pose proof (ado_refresh_keeps m' w') as K end.
    run_act. rewrite Ho in K. destruct K as (Ka & Kt & Ks & Kw & _).
    rewrite Ho.
    destruct (refresh_access_token m (token_expired m w).2).1.1; cbn;
      rewrite ?Ka, ?Kt, ?Ks, ?Kw, ?Hs, ?Hw; done.
  - rewrite Ho, Hs, Hw. done.
Qed.
End ADORefresh.

Section ADOValidToken.
Import ADO.

Lemma ado_get_valid_token_spec m w :
  let r := get_valid_token m w in
  let now := clock w (ticks w) in
  (truthy (access_token m) = false -> r = (PNone, m, w)) /\
  (truthy (access_token m) = true -> passed (expires_at m) now ->
     let r' := refresh_access_token m (next_tick w) in
     calls "refresh_access_token" (after r) = S (calls "refresh_access_token" w) /\
     object r = object r' /\
     value r = if value r' then access_token (object r') else PNone) /\
  (truthy (access_token m) = true -> ~ passed (expires_at m) now ->
     calls "refresh_access_token" (after r) = calls "refresh_access_token" w /\
     object r = m /\
     value r = access_token m).
Proof.
  cbn zeta. unfold get_valid_token.
  pose proof (ado_token_expired_spec m w) as (Ho & Hc & _ & _ & Hp).
  split; [|split].
  - intros Ht. run_act. by rewrite Ht.
  - intros Ht Hpassed. apply Hp in Hpassed.
    assert (Hw : after (token_expired m w) = next_tick w).
    { clear -Hpassed. unfold token_expired in *; run_act.
      destruct (expires_at m) as [t|]; cbn in *; [|done].
      by destruct (float_truthy t). }
    pose proof (ado_refresh_keeps m (next_tick w)) as (_ & _ & _ & _ & Kc).
    run_act. rewrite Ht; cbn. rewrite Hpassed; cbn. rewrite Ho, Hw.
    split; [|by destruct (refresh_access_token m (next_tick w)).1.1].
    destruct (refresh_access_token m (next_tick w)).1.1; cbn; exact Kc.
  - intros Ht Hnot.
    assert (He : value (token_expired m w) = false).
    { destruct (value (token_expired m w)) eqn:E; [|done].
      destruct Hnot. by apply Hp. }
    run_act. rewrite Ht; cbn. rewrite He; cbn. by rewrite Ho, Hc.
Qed.
End ADOValidToken.


Section ADOCallback.
Import ADO.

Lemma ado_callback_spec c m w :
  let r := oauth_callback c m w in
  (arg_truthy (cb_code c) = true ->
     sets (after r) = S (sets w) /\ auth_complete (object r) = true) /\
  (arg_truthy (cb_error c) = false -> arg_truthy (cb_code c) = true ->
     calls "_exchange_code_for_tokens" (after r)
     = S (calls "_exchange_code_for_tokens" w)) /\
  (arg_truthy (cb_error c) = true ->
     sets (after r) = S (sets w) /\ auth_complete (object r) = true /\
     calls "_exchange_code_for_tokens" (after r)
     = calls "_exchange_code_for_tokens" w /\
     requests (after r) = requests w) /\
  (arg_truthy (cb_error c) = false -> arg_truthy (cb_code c) = false ->
     r = ("Invalid callback"%string, m, w)).
Proof.
  cbn zeta. unfold oauth_callback, auth_complete_set.
  pose proof (ado_exchange_keeps (default ""%string (cb_code c)) m w)
    as (_ & _ & Ks & _ & Kc).
  run_act.
  destruct (arg_truthy (cb_error c)), (arg_truthy (cb_code c)); cbn;
    repeat split; try done;
    destruct (_exchange_code_for_tokens _ m w).1.1; cbn;
    rewrite ?Ks, ?Kc; done.
Qed.

Lemma ado_callback_keeps c m w :
  let r := oauth_callback c m w in
  (auth_complete m = true -> auth_complete (object r) = true) /\
  (auth_complete (object r) = false -> sets (after r) = sets w) /\
  waits (after r) = waits w.
Proof.
  cbn zeta. unfold oauth_callback, auth_complete_set.
  pose proof (ado_exchange_keeps (default ""%string (cb_code c)) m w)
    as (Ka & _ & Ks & Kw & _).
  run_act.
  destruct (arg_truthy (cb_error c)), (arg_truthy (cb_code c)); cbn;
    repeat split; try done;
    destruct (_exchange_code_for_tokens _ m w).1.1; cbn; done.
Qed.
End ADOCallback.


Section ADOEvent.
Import ADO.

Lemma ado_serve_keeps cs m w :
  auth_complete m = true -> auth_complete (object (serve cs m w)) = true.
Proof.
  revert m w. induction cs as [|c cs IH]; intros m w Hm; [done|].
  cbn [serve]. run_act.
  destruct (auth_complete (oauth_callback c m w).1.2) eqn:E; cbn; [done|].
  apply IH. by apply (ado_callback_keeps c m w).
Qed.

Lemma ado_wait_when_set m w :
  auth_complete m = true -> wait_for_authorization m w = (true, m, w).
Proof. intros H. unfold wait_for_authorization; run_act. by rewrite H. Qed.

Lemma ado_start_keeps m w :
  let r := start_oauth_flow m w in
  auth_complete (object r) = auth_complete m /\
  access_token (object r) = access_token m /\
  waits (after r) = waits w /\ sets (after r) = sets w.
Proof.
  unfold start_oauth_flow, _start_oauth_server; run_act.
  by destruct (oauth_thread m); cbn; [destruct (alive w (probes w))|].
Qed.

Lemma ado_keeps_on_manager {A} (c : act ADOOAuthTokenManager A) s w :
  ado_keeps_flag c -> event_set s = true ->
  event_set (object (on_manager c s w)) = true.
Proof.
  unfold ado_keeps_flag, event_set, on_manager, object. intros Hc Hs.
  destruct (oauth_manager s) as [m|]; cbn in *; [|done]. by apply Hc.
Qed.

Lemma ado_keeps_start : ado_keeps_flag start_oauth_flow.
Proof. intros m w H. by rewrite (proj1 (ado_start_keeps m w)). Qed.

Lemma ado_keeps_callback c : ado_keeps_flag (oauth_callback c).
Proof. intros m w. apply ado_callback_keeps. Qed.

Lemma ado_keeps_exchange code : ado_keeps_flag (_exchange_code_for_tokens code).
Proof. intros m w H. by rewrite (proj1 (ado_exchange_keeps code m w)). Qed.

Lemma ado_keeps_organizations : ado_keeps_flag _get_ado_organizations.
Proof.
  intros m w H.
  by rewrite (proj1 (proj2 (proj2 (proj2 (ado_get_organizations_keeps m w))))).
Qed.

Lemma ado_keeps_refresh : ado_keeps_flag refresh_access_token.
Proof. intros m w H. by rewrite (proj1 (ado_refresh_keeps m w)). Qed.

Lemma ado_keeps_valid_token : ado_keeps_flag get_valid_token.
Proof. intros m w H. by rewrite (proj1 (ado_get_valid_token_keeps m w)). Qed.

Lemma ado_keeps_wait : ado_keeps_flag wait_for_authorization.
Proof. intros m w H. by rewrite (ado_wait_when_set m w H). Qed.

Lemma ado_keeps_clear : ado_keeps_flag _clear_tokens.
Proof. intros m w H. exact H. Qed.

Lemma ado_keeps_bind {A B} (c : act ADOOAuthTokenManager A)
      (k : A -> act ADOOAuthTokenManager B) :
  ado_keeps_flag c -> (forall a, ado_keeps_flag (k a)) -> ado_keeps_flag (x <- c ;; k x).
Proof. intros Hc Hk m w H. unfold bind, object. apply Hk, Hc, H. Qed.

Lemma ado_keeps_ret {A} (a : A) : ado_keeps_flag (ret a).
Proof. by intros m w H. Qed.

Lemma ado_keeps_gets {A} (f : ADOOAuthTokenManager -> A) : ado_keeps_flag (gets f).
Proof. by intros m w H. Qed.

Lemma ado_get_auth_headers_keeps s w :
  event_set s = true -> event_set (object (_get_auth_headers s w)) = true.
Proof.
  intros Hs. unfold _get_auth_headers.
  match goal with |- context [on_manager ?c] =>
    assert (K : event_set (object (on_manager c s w)) = true) end.
  { apply ado_keeps_on_manager; [|done].
    apply ado_keeps_bind; [apply ado_keeps_gets|].
    intros []; [apply ado_keeps_valid_token | apply ado_keeps_ret]. }
  revert K. unfold bind, object, ret.
  destruct (on_manager _ s w).1.1 as [token|]; [destruct (truthy token)|]; done.
Qed.

Lemma ado_authenticate_keeps s w :
  event_set s = true -> event_set (object (_authenticate_if_needed s w)) = true.
Proof.
  intros Hs. unfold _authenticate_if_needed.
  match goal with |- context [on_manager ?c] =>
    assert (K : event_set (object (on_manager c s w)) = true) end.
  { apply ado_keeps_on_manager; [|done].
    apply ado_keeps_bind; [apply ado_keeps_start|]. intros _.
    apply ado_keeps_bind; [apply ado_keeps_wait|].
    intros []; [apply ado_keeps_gets | apply ado_keeps_ret]. }
  revert K. unfold bind, object, ret, gets, modify. cbn.
  destruct (session_authenticated s); [done|].
  by destruct (on_manager _ s w).1.1 as [[]|].
Qed.

Lemma ado_clear_session_keeps s w :
  event_set s = true -> event_set (object (clear_session s w)) = true.
Proof.
  unfold clear_session, event_set, on_manager; run_act.
  by destruct (oauth_manager s).
Qed.

Lemma ado_step_keeps o s w :
  event_set s = true -> event_set (object (step o s w)) = true.
Proof.
  intros Hs.
  assert (Hon : forall A (c : act ADOOAuthTokenManager A),
             ado_keeps_flag c ->
             event_set (object ((on_manager c ;; ret tt) s w)) = true).
  { intros A c Hc. exact (ado_keeps_on_manager c s w Hc Hs). }
  destruct o; cbn [step].
  - apply Hon, ado_keeps_start.
  - apply Hon, ado_keeps_callback.
  - apply Hon, ado_keeps_exchange.
  - apply Hon, ado_keeps_organizations.
  - apply Hon, ado_keeps_refresh.
  - apply Hon, ado_keeps_valid_token.
  - apply Hon, ado_keeps_wait.
  - apply Hon, ado_keeps_clear.
  - exact (ado_get_auth_headers_keeps s w Hs).
  - exact (ado_authenticate_keeps s w Hs).
  - exact (ado_clear_session_keeps s w Hs).
Qed.

Lemma ado_run_keeps ops s w :
  event_set s = true -> event_set (object (run ops s w)) = true.
Proof.
  revert s w. induction ops as [|o ops IH]; intros s w Hs; [done|].
  cbn [run]. unfold bind, object in *. apply IH.
  exact (ado_step_keeps o s w Hs).
Qed.

Lemma ado_authenticate_when_set s w m :
  oauth_manager s = Some m -> auth_complete m = true ->
  session_authenticated s = false ->
  let r := _authenticate_if_needed s w in
  value r = is_authenticated m /\
  waits (after r) = waits w /\
  sets (after r) = sets w.
Proof.
  intros Hm Ha Hs. cbn zeta.
  pose proof (ado_start_keeps m w) as (Ka & Kt & Kw & Ks).
  assert (Hwait : wait_for_authorization (object (start_oauth_flow m w))
                    (after (start_oauth_flow m w))
                  = (true, object (start_oauth_flow m w),
                     after (start_oauth_flow m w))).
  { apply ado_wait_when_set. by rewrite Ka. }
  unfold _authenticate_if_needed, on_manager, is_authenticated in *.
  run_act. rewrite Hs, Hm; cbn. rewrite Hwait; cbn.
  rewrite Kt.
  by destruct (truthy (access_token m)).
Qed.
End ADOEvent.

(** ** What a refresh stores *)

Section JiraRefreshOutcome.
Import Jira.

Lemma jira_refresh_failed m w :
  truthy (refresh_token m) = true ->
  failed (net w (nreq w)) ->
  refresh_access_token m w
  = (false, m, next_request (PostRefreshToken (refresh_token m))
                 (log_event (Call "refresh_access_token") w)).
Proof.
  intros Hrt H. unfold refresh_access_token; run_act. rewrite Hrt; cbn.
  destruct H as [-> | (st & b & -> & Hst)]; cbn; [done|].
  by destruct (Z.eqb_spec st 200).
Qed.

Lemma jira_refresh_stored m w tokens :
  truthy (refresh_token m) = true ->
  net w (nreq w) = Response 200 (Some (PDict tokens)) ->
  let r := refresh_access_token m w in
  access_token (object r) = dict_get tokens "access_token" /\
  refresh_token (object r) = default (refresh_token m) (tokens !! "refresh_token") /\
  (value r = true <-> is_Some (expires_in_of tokens)) /\
  expires_at (object r)
  = match expires_in_of tokens with
    | Some e => Some (expiry (clock w (ticks w)) e)
    | None => expires_at m
    end.
Proof.
  intros Hrt H. unfold refresh_access_token; run_act.
  rewrite Hrt; cbn. rewrite H; cbn.
  destruct (tokens !! "refresh_token"), (expires_in_of tokens); cbn;
    splits; done.
Qed.

End JiraRefreshOutcome.

Section ADORefreshOutcome.
Import ADO.

Lemma ado_refresh_failed m w :
  truthy (refresh_token m) = true ->
  failed (net w (nreq w)) ->
  refresh_access_token m w
  = (false, m, next_request (PostRefreshToken (refresh_token m))
                 (log_event (Call "refresh_access_token") w)).
Proof.
  intros Hrt H. unfold refresh_access_token; run_act. rewrite Hrt; cbn.
  destruct H as [-> | (st & b & -> & Hst)]; cbn; [done|].
  by destruct (Z.eqb_spec st 200).
Qed.

Lemma ado_refresh_stored m w tokens :
  truthy (refresh_token m) = true ->
  net w (nreq w) = Response 200 (Some (PDict tokens)) ->
  let r := refresh_access_token m w in
  access_token (object r) = dict_get tokens "access_token" /\
  refresh_token (object r) = default (refresh_token m) (tokens !! "refresh_token") /\
  (value r = true <-> is_Some (expires_in_of tokens)) /\
  expires_at (object r)
  = match expires_in_of tokens with
    | Some e => Some (expiry (clock w (ticks w)) e)
    | None => expires_at m
    end.
Proof.
  intros Hrt H. unfold refresh_access_token; run_act.
  rewrite Hrt; cbn. rewrite H; cbn.
  destruct (tokens !! "refresh_token"), (expires_in_of tokens); cbn;
    splits; done.
Qed.

End ADORefreshOutcome.

(** ** The claims on the token managers *)

(** C4, as stated, fails: [get_valid_token()] can return a token whose
    [expires_at] has passed.  The stored token expired at 1000, the
    clock stands at 1000, and the refresh is answered with HTTP 200 and a
    token that lives 120 seconds: the new [expires_at] is 1000 + 120 -
    300 = 820, and the new token is returned without a second look at
    the expiry, on both managers. *)
Lemma C4_refreshed_token_past_expiry :
  value (Jira.get_valid_token jira_expired
           (scripted (Response 200 (Some (PDict short_token_body))) 1000))
  = PStr "fresh" /\
  passed
    (Jira.expires_at
       (object (Jira.get_valid_token jira_expired
                  (scripted (Response 200 (Some (PDict short_token_body))) 1000))))
    (float_of_Z 1000) /\
  value (ADO.get_valid_token ado_expired
           (scripted (Response 200 (Some (PDict short_token_body))) 1000))
  = PStr "fresh" /\
  passed
    (ADO.expires_at
       (object (ADO.get_valid_token ado_expired
                  (scripted (Response 200 (Some (PDict short_token_body))) 1000))))
    (float_of_Z 1000).
Proof.
  splits; try reflexivity.
  - exists (float_of_Z 820). by vm_compute.
  - exists (float_of_Z 820). by vm_compute.
Qed.



(** C7, as stated, fails in its last part: on an HTTP 200 refresh
    response that omits [refresh_token], [expires_at] need not be
    updated.  With [expires_in] the string "3600" the call replaces
    [access_token], keeps the refresh token, returns [False] and leaves
    [expires_at] at its old value, on both managers. *)
Lemma C7_expires_at_not_updated :
  odd_token_body !! "refresh_token" = None /\
  Jira.refresh_access_token jira_expired
    (scripted (Response 200 (Some (PDict odd_token_body))) 5000)
  = (false, Jira.set_access_token (PStr "fresh") jira_expired,
     next_tick (next_request (PostRefreshToken (PStr "r1"))
                  (log_event (Call "refresh_access_token")
                     (scripted (Response 200 (Some (PDict odd_token_body))) 5000)))) /\
  Jira.expires_at (Jira.set_access_token (PStr "fresh") jira_expired)
  = Jira.expires_at jira_expired /\
  ADO.refresh_access_token ado_expired
    (scripted (Response 200 (Some (PDict odd_token_body))) 5000)
  = (false, ADO.set_access_token (PStr "fresh") ado_expired,
     next_tick (next_request (PostRefreshToken (PStr "r1"))
                  (log_event (Call "refresh_access_token")
                     (scripted (Response 200 (Some (PDict odd_token_body))) 5000)))).
Proof. vm_compute. repeat split. Qed.



(** ** The claims on the servers *)

(** C8: [clear_session()] returns from every server state, leaves the
    session unauthenticated ([access_token], [refresh_token],
    [expires_at] and the resource context are [None],
    [session_authenticated] is [False], [auth_method] is [None]), and a
    second call on the cleared session changes nothing. *)
Theorem C8_clear_session_idempotent :
  (forall (s : Jira.JiraMCPServer) (w : world),
     let r := Jira.clear_session s w in
     after r = w /\
     Jira.session_authenticated (object r) = false /\
     Jira.auth_method (object r) = None /\
     Jira.oauth_manager (object r)
     = (fun m => Jira.Manager PNone PNone PNone None
                   (Jira.oauth_thread m) (Jira.auth_complete m))
         <$> Jira.oauth_manager s /\
     Jira.clear_session (object r) w = r) /\
  (forall (s : ADO.ADOMCPServer) (w : world),
     let r := ADO.clear_session s w in
     after r = w /\
     ADO.session_authenticated (object r) = false /\
     ADO.auth_method (object r) = None /\
     ADO.oauth_manager (object r)
     = (fun m => ADO.Manager PNone PNone None PNone None None
                   (ADO.oauth_thread m) (ADO.auth_complete m))
         <$> ADO.oauth_manager s /\
     ADO.clear_session (object r) w = r).
Proof.
  split; intros [[m|] method authenticated] w.
  all: repeat split.
Qed.

(** C9: one invocation of [oauth_callback] on either listener.  A request
    with a code sets the completion event exactly once, whatever the
    token endpoint does; when there is no error parameter this is after
    one exchange attempt.  A request with an error parameter sets the
    event once without an exchange attempt or any HTTP request.  A
    request with neither gets "Invalid callback", and nothing changes:
    the event is not set. *)
Theorem C9_oauth_callback :
  (forall (c : callback) (m : Jira.OAuthTokenManager) (w : world),
     let r := Jira.oauth_callback c m w in
     (arg_truthy (cb_code c) = true ->
        sets (after r) = S (sets w) /\ Jira.auth_complete (object r) = true) /\
     (arg_truthy (cb_error c) = false -> arg_truthy (cb_code c) = true ->
        calls "_exchange_code_for_tokens" (after r)
        = S (calls "_exchange_code_for_tokens" w)) /\
     (arg_truthy (cb_error c) = true ->
        sets (after r) = S (sets w) /\ Jira.auth_complete (object r) = true /\
        calls "_exchange_code_for_tokens" (after r)
        = calls "_exchange_code_for_tokens" w /\
        requests (after r) = requests w) /\
     (arg_truthy (cb_error c) = false -> arg_truthy (cb_code c) = false ->
        r = ("Invalid callback"%string, m, w))) /\
  (forall (c : callback) (m : ADO.ADOOAuthTokenManager) (w : world),
     let r := ADO.oauth_callback c m w in
     (arg_truthy (cb_code c) = true ->
        sets (after r) = S (sets w) /\ ADO.auth_complete (object r) = true) /\
     (arg_truthy (cb_error c) = false -> arg_truthy (cb_code c) = true ->
        calls "_exchange_code_for_tokens" (after r)
        = S (calls "_exchange_code_for_tokens" w)) /\
     (arg_truthy (cb_error c) = true ->
        sets (after r) = S (sets w) /\ ADO.auth_complete (object r) = true /\
        calls "_exchange_code_for_tokens" (after r)
        = calls "_exchange_code_for_tokens" w /\
        requests (after r) = requests w) /\
     (arg_truthy (cb_error c) = false -> arg_truthy (cb_code c) = false ->
        r = ("Invalid callback"%string, m, w))).
Proof.
  split; intros c m w.
  - exact (jira_callback_spec c m w).
  - exact (ado_callback_spec c m w).
Qed.

Lemma C9_oauth_callback_witness :
  (* a code whose exchange is refused *)
  sets (after (Jira.oauth_callback with_code Jira.init
                 (scripted (Response 400 None) 0))) = 1%nat /\
  (* a code whose exchange raises *)
  sets (after (ADO.oauth_callback with_code ADO.init (scripted Raised 0))) = 1%nat /\
  (* an error parameter *)
  calls "_exchange_code_for_tokens"
    (after (ADO.oauth_callback with_error ADO.init (scripted Raised 0))) = 0%nat /\
  (* neither *)
  Jira.oauth_callback with_neither Jira.init (scripted Raised 0)
  = ("Invalid callback"%string, Jira.init, scripted Raised 0).
Proof.
  pose proof (proj1 C9_oauth_callback with_code Jira.init
                (scripted (Response 400 None) 0)) as (H1 & _).
  pose proof (proj2 C9_oauth_callback with_code ADO.init (scripted Raised 0))
    as (H2 & _).
  pose proof (proj2 C9_oauth_callback with_error ADO.init (scripted Raised 0))
    as (_ & _ & H3 & _).
  pose proof (proj1 C9_oauth_callback with_neither Jira.init (scripted Raised 0))
    as (_ & _ & _ & H4).
  destruct (H1 eq_refl) as [S1 _].
  destruct (H2 eq_refl) as [S2 _].
  destruct (H3 eq_refl) as (_ & _ & S3 & _).
  split; [exact S1 | split; [exact S2 | split; [exact S3 | exact (H4 eq_refl eq_refl)]]].
Defined.

(** C10: once [auth_complete] is set on either server, it stays set
    through every sequence of session operations ([clear_session],
    [_clear_tokens], waits, [start_oauth_flow], callbacks, exchanges,
    refreshes, ...); afterwards [wait_for_authorization] returns [True] at
    once, and an [_authenticate_if_needed] call of a session that is not
    authenticated returns what [is_authenticated()] says at once, without
    a callback being waited for and without the event being set again. *)
Theorem C10_auth_complete_never_cleared :
  (forall (ops : list Jira.op) (s : Jira.JiraMCPServer) (w : world),
     Jira.event_set s = true ->
     let s' := object (Jira.run ops s w) in
     let w' := after (Jira.run ops s w) in
     Jira.event_set s' = true /\
     (forall m, Jira.oauth_manager s' = Some m ->
        Jira.wait_for_authorization m w' = (true, m, w') /\
        (Jira.session_authenticated s' = false ->
           let r := Jira._authenticate_if_needed s' w' in
           value r = Jira.is_authenticated m /\
           waits (after r) = waits w' /\
           sets (after r) = sets w'))) /\
  (forall (ops : list ADO.op) (s : ADO.ADOMCPServer) (w : world),
     ADO.event_set s = true ->
     let s' := object (ADO.run ops s w) in
     let w' := after (ADO.run ops s w) in
     ADO.event_set s' = true /\
     (forall m, ADO.oauth_manager s' = Some m ->
        ADO.wait_for_authorization m w' = (true, m, w') /\
        (ADO.session_authenticated s' = false ->
           let r := ADO._authenticate_if_needed s' w' in
           value r = ADO.is_authenticated m /\
           waits (after r) = waits w' /\
           sets (after r) = sets w'))).
Proof.
  split; intros ops s w Hs s' w'.
  - pose proof (jira_run_keeps ops s w Hs) as K. fold s' in K.
    split; [exact K|]. intros m Hm.
    assert (Ha : Jira.auth_complete m = true).
    { unfold Jira.event_set in K. by rewrite Hm in K. }
    split; [by apply jira_wait_when_set|].
    intros Hn. by apply jira_authenticate_when_set.
  - pose proof (ado_run_keeps ops s w Hs) as K. fold s' in K.
    split; [exact K|]. intros m Hm.
    assert (Ha : ADO.auth_complete m = true).
    { unfold ADO.event_set in K. by rewrite Hm in K. }
    split; [by apply ado_wait_when_set|].
    intros Hn. by apply ado_authenticate_when_set.
Qed.

Lemma C10_auth_complete_witness :
  (* a first authorization completed; the session is cleared; the next
     authentication does not wait and fails *)
  Jira.event_set jira_session = true /\
  Jira.event_set
    (object (Jira.run [Jira.ClearSession] jira_session (scripted Raised 0)))
  = true /\
  value (Jira._authenticate_if_needed
           (object (Jira.run [Jira.ClearSession] jira_session (scripted Raised 0)))
           (scripted Raised 0)) = false /\
  waits (after (Jira._authenticate_if_needed
                  (object (Jira.run [Jira.ClearSession] jira_session
                                    (scripted Raised 0)))
                  (scripted Raised 0))) = 0%nat.
Proof.
  pose proof (proj1 C10_auth_complete_never_cleared [Jira.ClearSession]
                jira_session (scripted Raised 0) eq_refl) as [H1 H2].
  destruct (H2 _ eq_refl) as [_ H3].
  destruct (H3 eq_refl) as (V & W & _).
  split; [reflexivity | split; [exact H1 | split; [exact V | exact W]]].
Defined.

(** ** The dispatcher (C2, C3) *)

Lemma is_str_eq v s : is_str v s = true -> v = PStr s.
Proof.
  destruct v; cbn; try done. intros H. f_equal. by apply String.eqb_eq.
Qed.

Lemma truthy_response (a b c : pyval) (k1 k2 k3 : string) :
  truthy (PDict {[ k1 := a; k2 := b; k3 := c ]}) = true.
Proof.
  cbn. rewrite bool_decide_eq_false_2; [done|]. apply insert_non_empty.
Qed.

Lemma falsy_dict_get d k : truthy (PDict d) = false -> dict_get d k = PNone.
Proof.
  cbn. intros H. apply negb_false_iff, bool_decide_eq_true_1 in H. by subst d.
Qed.

Section JiraDispatch.
Variable py_str : pyval -> string.
Variable tools_catalog : pyval.
Variable handle_tools_call : pyval -> act Jira.JiraMCPServer (exn + pyval).

(** A request line that does not end the loop gets one response with
    its [id], unless it is the initialization notification, which gets
    none. *)
Lemma jira_handle_request_answers line s w :
  fatal line = false ->
  exists response,
    value (Jira.handle_request py_str tools_catalog handle_tools_call line s w) = inr response /\
    map response_id (Jira.emitted response)
    = if is_notification line then [] else [line_id line].
Proof.
  unfold Jira.handle_request, is_notification.
  destruct line as [e | v]; [intros _; eexists; split; reflexivity|].
  destruct v as [| b | z | f | t | l | request_data]; cbn [fatal line_method line_id];
    try (intros ->; eexists; split; reflexivity).
  intros _.
  set (method := dict_get request_data "method").
  destruct (is_str method "initialize") eqn:E1.
  { apply is_str_eq in E1 as ->. eexists; split; [reflexivity|].
    cbn [is_str String.eqb Ascii.eqb Bool.eqb]. unfold Jira.emitted.
    by rewrite truthy_response. }
  destruct (is_str method "notifications/initialized") eqn:E2.
  { eexists; split; reflexivity. }
  destruct (is_str method "tools/list") eqn:E3.
  { eexists; split; [reflexivity|]. unfold Jira.emitted.
    by rewrite truthy_response. }
  destruct (is_str method "tools/call") eqn:E4.
  - unfold bind, ret, value.
    destruct (handle_tools_call _ s w).1.1 as [e | result];
      (eexists; split; [reflexivity|]); unfold Jira.emitted, Jira.internal_error;
      rewrite truthy_response; [|done].
    destruct (truthy (PDict request_data)) eqn:T; [done|].
    cbn [map]. f_equal. by rewrite (falsy_dict_get _ "id" T).
  - eexists; split; [reflexivity|]. unfold Jira.emitted.
    by rewrite truthy_response.
Qed.

(** On lines that do not end the loop, the Jira loop prints one response
    per request, in the order of the requests, and none for the
    initialization notification. *)
Lemma jira_main_loop_in_order lines s w :
  Forall (fun line => fatal line = false) lines ->
  map response_id (value (Jira.main_loop py_str tools_catalog handle_tools_call lines s w)) = expected_ids lines.
Proof.
  intros H. revert s w.
  induction H as [|line lines Hline _ IH]; intros s w; [done|].
  destruct (jira_handle_request_answers line s w Hline) as (response & Hv & Hid).
  cbn [Jira.main_loop expected_ids].
  run_act. rewrite Hv; cbn.
  rewrite map_app, Hid, IH. by destruct (is_notification line).
Qed.

(** A line that ends the loop silences the rest of the input. *)
Lemma jira_main_loop_fatal line lines s w :
  fatal line = true -> value (Jira.main_loop py_str tools_catalog handle_tools_call (line :: lines) s w) = [].
Proof.
  cbn [Jira.main_loop]. unfold Jira.handle_request.
  destruct line as [e | [| b | z | f | t | l | d]]; cbn [fatal]; try done;
    intros H; run_act; try done; by rewrite H.
Qed.
End JiraDispatch.

Section ADODispatch.
Variable py_str : pyval -> string.
Variable tools_catalog : pyval.
Variable handle_tools_call : pyval -> act ADO.ADOMCPServer (exn + pyval).

(** The ADO dispatcher answers every line that does not end the loop,
    the initialization notification included. *)
Lemma ado_handle_request_answers line s w :
  fatal line = false ->
  exists response,
    value (ADO.handle_request py_str tools_catalog handle_tools_call line s w) = inr response /\
    map response_id (ADO.emitted response) = [line_id line].
Proof.
  unfold ADO.handle_request.
  destruct line as [e | v]; [intros _; eexists; split; reflexivity|].
  destruct v as [| b | z | f | t | l | request_data]; cbn [fatal line_method line_id];
    try (intros ->; eexists; split; reflexivity).
  intros _.
  set (method := dict_get request_data "method").
  destruct (is_str method "initialize") eqn:E1.
  { eexists; split; [reflexivity|]. unfold ADO.emitted.
    by rewrite truthy_response. }
  destruct (is_str method "tools/list") eqn:E3.
  { eexists; split; [reflexivity|]. unfold ADO.emitted.
    by rewrite truthy_response. }
  destruct (is_str method "tools/call") eqn:E4.
  - unfold bind, ret, value.
    destruct (handle_tools_call _ s w).1.1 as [e | result];
      (eexists; split; [reflexivity|]); unfold ADO.emitted, ADO.internal_error;
      rewrite truthy_response; [|done].
    destruct (truthy (PDict request_data)) eqn:T; [done|].
    cbn [map]. f_equal. by rewrite (falsy_dict_get _ "id" T).
  - eexists; split; [reflexivity|]. unfold ADO.emitted.
    by rewrite truthy_response.
Qed.

Lemma ado_main_loop_in_order lines s w :
  Forall (fun line => fatal line = false) lines ->
  map response_id (value (ADO.main_loop py_str tools_catalog handle_tools_call lines s w)) = map line_id lines.
Proof.
  intros H. revert s w.
  induction H as [|line lines Hline _ IH]; intros s w; [done|].
  destruct (ado_handle_request_answers line s w Hline) as (response & Hv & Hid).
  cbn [ADO.main_loop map].
  run_act. rewrite Hv; cbn.
  by rewrite map_app, Hid, IH.
Qed.
End ADODispatch.

(** C2, at the input on which the code departs from it: fed the single
    line [{"jsonrpc": "2.0", "method": "notifications/initialized"}], the
    ADO loop prints one response (a "Method not found" one), where the
    Jira loop prints none. *)
Theorem C2_ado_answers_the_notification :
  forall (py_str : pyval -> string) (tools_catalog : pyval)
         (ado_tools_call : pyval -> act ADO.ADOMCPServer (exn + pyval))
         (jira_tools_call : pyval -> act Jira.JiraMCPServer (exn + pyval))
         (ado : ADO.ADOMCPServer) (jira : Jira.JiraMCPServer) (w : world),
    value (ADO.main_loop py_str tools_catalog ado_tools_call
             [inr (PDict initialized_notification)] ado w)
    = [PDict {[ "jsonrpc" := PStr "2.0";
                "id" := PNone;
                "result" := PDict {[ "error" :=
                  method_not_found py_str (PStr "notifications/initialized") ]} ]}] /\
    value (Jira.main_loop py_str tools_catalog jira_tools_call
             [inr (PDict initialized_notification)] jira w)
    = [].
Proof. intros. split; vm_compute; reflexivity. Qed.

(** C3, as the code has it: for a request whose method has no route,
    [handle_request] of either server returns a response with the members
    [jsonrpc], [id] and [result]; the error object with code -32601 is
    the value of ["error"] inside [result], and the response has no
    top-level [error] member. *)
Theorem C3_method_not_found_inside_result :
  forall (py_str : pyval -> string) (tools_catalog : pyval)
         (request_data : gmap string pyval),
    routed (dict_get request_data "method") = false ->
    let wrapped :=
      PDict {[ "jsonrpc" := PStr "2.0";
               "id" := dict_get request_data "id";
               "result" := PDict {[ "error" :=
                 method_not_found py_str (dict_get request_data "method") ]} ]} in
    response_member wrapped "error" = None /\
    (forall tools_call s w,
       Jira.handle_request py_str tools_catalog tools_call
         (inr (PDict request_data)) s w = (inr (Some wrapped), s, w)) /\
    (forall tools_call s w,
       ADO.handle_request py_str tools_catalog tools_call
         (inr (PDict request_data)) s w = (inr (Some wrapped), s, w)).
Proof.
  intros py_str catalog rd H wrapped. unfold routed in H.
  apply orb_false_iff in H as [H H4]. apply orb_false_iff in H as [H H3].
  apply orb_false_iff in H as [H1 H2].
  split; [reflexivity|].
  split; intros tools_call s w.
  - unfold Jira.handle_request. by rewrite H1, H2, H3, H4.
  - unfold ADO.handle_request. by rewrite H1, H3, H4.
Qed.

Lemma C3_method_not_found_witness :
  routed (dict_get unknown_method_request "method") = false /\
  Jira.handle_request sample_str PNone sample_tools_call
    (inr (PDict unknown_method_request)) Jira.init_server (scripted Raised 0)
  = (inr (Some (PDict {[ "jsonrpc" := PStr "2.0";
                         "id" := PNum 1;
                         "result" := PDict {[ "error" :=
                           method_not_found sample_str (PStr "resources/list") ]} ]})),
     Jira.init_server, scripted Raised 0).
Proof.
  split; [reflexivity|].
  exact (proj1 (proj2 (C3_method_not_found_inside_result sample_str PNone
                         unknown_method_request eq_refl))
           sample_tools_call Jira.init_server (scripted Raised 0)).
Defined.

(** * Further properties *)

(** ** Starting the flow, waiting, authenticating *)

Section JiraFlow.
Import Jira.

Lemma jira_start_flow_spec m w :
  let r := start_oauth_flow m w in
  oauth_thread (object r) = true /\
  threads (after r)
  = (if oauth_thread m && alive w (probes w) then threads w
     else S (threads w)) /\
  probes (after r) = (if oauth_thread m then S (probes w) else probes w) /\
  object r = set_oauth_thread true m /\
  nreq (after r) = nreq w /\ waits (after r) = waits w /\
  callbacks (after r) = callbacks w /\ net (after r) = net w /\
  clock (after r) = clock w /\ ticks (after r) = ticks w /\
  alive (after r) = alive w.
Proof.
  unfold start_oauth_flow, _start_oauth_server, threads; run_act.
  destruct m as [a r c e [] f]; cbn; [destruct (alive w (probes w)); cbn|];
    by splits.
Qed.


(** The first callback request that carries a code or an error ends the
    wait; the requests after it are not served within this wait. *)
Lemma jira_serve_first c cs m w :
  arg_truthy (cb_code c) = true \/ arg_truthy (cb_error c) = true ->
  serve (c :: cs) m w
  = (true, object (oauth_callback c m w), after (oauth_callback c m w)).
Proof.
  intros H. cbn [serve]. run_act.
  assert (Ha : auth_complete (oauth_callback c m w).1.2 = true).
  { pose proof (jira_callback_spec c m w) as (H1 & _ & H3 & _). run_act.
    destruct H as [H | H]; [by apply H1 | by apply H3]. }
  by rewrite Ha.
Qed.

End JiraFlow.

Section ADOFlow.
Import ADO.

Lemma ado_start_flow_spec m w :
  let r := start_oauth_flow m w in
  oauth_thread (object r) = true /\
  threads (after r)
  = (if oauth_thread m && alive w (probes w) then threads w
     else S (threads w)) /\
  probes (after r) = (if oauth_thread m then S (probes w) else probes w) /\
  object r = set_oauth_thread true m /\
  nreq (after r) = nreq w /\ waits (after r) = waits w /\
  callbacks (after r) = callbacks w /\ net (after r) = net w /\
  clock (after r) = clock w /\ ticks (after r) = ticks w /\
  alive (after r) = alive w.
Proof.
  unfold start_oauth_flow, _start_oauth_server, threads; run_act.
  destruct m as [a r e u o s [] f]; cbn; [destruct (alive w (probes w)); cbn|];
    by splits.
Qed.


(** The first callback request that carries a code or an error ends the
    wait; the requests after it are not served within this wait. *)
Lemma ado_serve_first c cs m w :
  arg_truthy (cb_code c) = true \/ arg_truthy (cb_error c) = true ->
  serve (c :: cs) m w
  = (true, object (oauth_callback c m w), after (oauth_callback c m w)).
Proof.
  intros H. cbn [serve]. run_act.
  assert (Ha : auth_complete (oauth_callback c m w).1.2 = true).
  { pose proof (ado_callback_spec c m w) as (H1 & _ & H3 & _). run_act.
    destruct H as [H | H]; [by apply H1 | by apply H3]. }
  by rewrite Ha.
Qed.

End ADOFlow.

Section JiraCloudId.
Import Jira.

Lemma jira_get_cloud_id_spec m w :
  let r := _get_cloud_id m w in
  (truthy (access_token m) = false -> r = (false, m, w)) /\
  (truthy (access_token m) = true -> nreq (after r) = S (nreq w)) /\
  (value r = false -> object r = m) /\
  (value r = true ->
     exists first rest cid,
       net w (nreq w) = Response 200 (Some (PList (PDict first :: rest))) /\
       first !! "id" = Some cid /\
       object r = set_cloud_id cid m) /\
  (forall first rest cid,
     truthy (access_token m) = true ->
     net w (nreq w) = Response 200 (Some (PList (PDict first :: rest))) ->
     first !! "id" = Some cid ->
     value r = true /\ object r = set_cloud_id cid m).
Proof.
  cbn zeta. unfold _get_cloud_id; run_act.
  destruct (truthy (access_token m)); cbn; [|by splits].
  destruct (net w (nreq w)) as [|st [resources|]]; cbn;
    [by splits | | by destruct (st =? 200); splits].
  destruct (Z.eqb_spec st 200) as [->|Hst]; cbn;
    [|splits; try done; intros ??? _ [= ? _]; done].
  destruct (truthy resources) eqn:T; cbn.
  2:{ splits; try done. intros ??? _ [= ->]. cbn in T. done. }
  destruct resources as [| | | | |[|[| | | | | |first] rest]|]; cbn;
    try (splits; done).
  destruct (first !! "id") as [cid|] eqn:E; cbn.
  - splits; try done.
    + intros _. by exists first, rest, cid.
    + intros ??? _ [= -> _] E'. rewrite E in E'. by injection E' as ->.
  - splits; try done. intros ??? _ [= -> _] E'. by rewrite E in E'.
Qed.
End JiraCloudId.

Section JiraAuthenticate.
Import Jira.

Lemma jira_exchange_ok code m w tokens e :
  net w (nreq w) = Response 200 (Some (PDict tokens)) ->
  expires_in_of tokens = Some e ->
  let m' := set_expires_at (Some (expiry (clock w (ticks w)) e))
              (set_refresh_token (dict_get tokens "refresh_token")
                 (set_access_token (dict_get tokens "access_token") m)) in
  let w' := next_tick (next_request (PostAuthorizationCode code)
                         (log_event (Call "_exchange_code_for_tokens") w)) in
  _exchange_code_for_tokens code m w
  = (true, object (_get_cloud_id m' w'), after (_get_cloud_id m' w')).
Proof.
  intros H He. unfold _exchange_code_for_tokens; run_act.
  rewrite H; cbn. rewrite He; cbn. done.
Qed.

Lemma jira_authenticate_with_code s m w c cs tokens e :
  oauth_manager s = Some m ->
  session_authenticated s = false ->
  auth_complete m = false ->
  callbacks w (waits w) = c :: cs ->
  arg_truthy (cb_error c) = false ->
  arg_truthy (cb_code c) = true ->
  net w (nreq w) = Response 200 (Some (PDict tokens)) ->
  expires_in_of tokens = Some e ->
  truthy (dict_get tokens "access_token") = true ->
  let r := _authenticate_if_needed s w in
  let stored cid :=
    Manager (dict_get tokens "access_token") (dict_get tokens "refresh_token")
            cid (Some (expiry (clock w (ticks w)) e)) true true in
  (forall first rest cid,
     net w (S (nreq w)) = Response 200 (Some (PList (PDict first :: rest))) ->
     first !! "id" = Some cid ->
     truthy cid = true ->
     value r = true /\
     object r = Server (Some (stored cid)) (Some "oauth"%string) true) /\
  (failed (net w (S (nreq w))) ->
   truthy (cloud_id m) = false ->
   value r = false /\
   object r = Server (Some (stored (cloud_id m))) (auth_method s) false).
Proof.
  intros Hm Hs Ha Hcb He Hc H200 Hexp Htok. cbn zeta.
  pose proof (jira_start_flow_spec m w)
    as (_ & _ & _ & Ho & Hn & Hw & Hcbs & Hnet & Hclock & Hticks & _).
  unfold _authenticate_if_needed, on_manager, wait_for_authorization.
  run_act. rewrite Hs, Hm; cbn. rewrite Ho; cbn. rewrite Ha; cbn.
  rewrite Hcbs, Hw, Hcb. cbn [serve]. unfold oauth_callback. rewrite He, Hc.
  run_act.
  match goal with |- context [_exchange_code_for_tokens ?code ?m' ?w'] =>
    pose proof (jira_exchange_ok code m' w' tokens e) as K end.
  cbn in K. rewrite Hnet, Hn, Hclock, Hticks in K.
  specialize (K H200 Hexp). rewrite K; clear K. cbn.
  match goal with |- context [_get_cloud_id ?m' ?w'] =>
    pose proof (jira_get_cloud_id_spec m' w') as (_ & _ & Kf & _ & Kt) end.
  cbn in Kf, Kt. rewrite Hnet, Hn in Kt. unfold value, object in *.
  split.
  - intros first rest cid Hres Hid Hcid.
    destruct (Kt first rest cid Htok Hres Hid) as [_ ->]. cbn.
    unfold is_authenticated, py_and; cbn. rewrite Htok, Hcid. cbn.
    done.
  - intros Hfail Hno.
    match goal with |- context [_get_cloud_id ?m' ?w'] =>
      assert (Kv : (_get_cloud_id m' w').1.1 = false) end.
    { unfold _get_cloud_id; run_act. rewrite Htok; cbn. rewrite Hnet, Hn.
      destruct Hfail as [-> | (st & b & -> & Hst)]; [done|]. cbn.
      by destruct (Z.eqb_spec st 200). }
    rewrite (Kf Kv). cbn.
    unfold is_authenticated, py_and; cbn. rewrite Htok, Hno, Hs. done.
Qed.

Lemma jira_authenticate_again s w :
  session_authenticated s = true -> _authenticate_if_needed s w = (true, s, w).
Proof. intros H. unfold _authenticate_if_needed; run_act. by rewrite H. Qed.
End JiraAuthenticate.

Section ADOOrganizations.
Import ADO.

Lemma collect_has_name l acc :
  Forall (fun org => has_name org = true) acc ->
  Forall (fun org => has_name org = true) (collect l acc).1.
Proof.
  revert acc. induction l as [|v l IH]; intros acc Hacc; [done|].
  destruct v; cbn [collect]; try done.
  apply IH. destruct (truthy (accountName (normalize d))) eqn:E; [|done].
  apply Forall_app. split; [done|]. by constructor.
Qed.



Lemma ado_get_organizations_spec m w :
  let r := _get_ado_organizations m w in
  (truthy (access_token m) = false -> r = (false, m, w)) /\
  object r = set_organizations (organizations (object r)) m /\
  (organizations (object r) = organizations m \/
   exists l, organizations (object r) = Some l /\
             Forall (fun org => has_name org = true) l) /\
  (value r = true ->
   exists l, organizations (object r) = Some l /\
             Forall (fun org => has_name org = true) l).
Proof.
  cbn zeta. unfold _get_ado_organizations; run_act.
  destruct m as [tok rt ea url orgs sel th ac]; cbn.
  destruct (truthy tok); cbn; [|by splits; auto].
  split; [done|].
  destruct (net w (nreq w)) as [|st [[]|]]; cbn;
    try (destruct (st =? 200); cbn); try (by splits; auto).
  destruct (truthy (dict_get d "id")); cbn; [|by splits; auto].
  destruct (net w (S (nreq w))) as [|st' [[]|]]; cbn;
    try (destruct (st' =? 200); cbn); try (by splits; auto).
  set (orgs' := dict_get_or d0 "value" (PList [])).
  destruct (truthy orgs') eqn:T; cbn.
  2:{ splits; [done | right; by exists [] | done]. }
  destruct orgs' as [| | | | |l|]; cbn;
    try (splits; [done | right; by exists [] | done]).
  assert (F : Forall (fun org => has_name org = true) (collect l []).1)
    by by apply collect_has_name.
  splits; [done | right; by eexists | intros _; by eexists].
Qed.
End ADOOrganizations.

Section ADOAuthenticate.
Import ADO.

Lemma ado_exchange_ok code m w tokens e :
  net w (nreq w) = Response 200 (Some (PDict tokens)) ->
  expires_in_of tokens = Some e ->
  truthy (dict_get tokens "access_token")
  && negb (has_len (dict_get tokens "access_token")) = false ->
  let m' := set_ado_url PNone
              (set_selected_organization None
                 (set_organizations None
                    (set_expires_at (Some (expiry (clock w (ticks w)) e))
                       (set_refresh_token (dict_get tokens "refresh_token")
                          (set_access_token (dict_get tokens "access_token") m))))) in
  let w' := next_tick (next_request (PostAuthorizationCode code)
                         (log_event (Call "_exchange_code_for_tokens") w)) in
  _exchange_code_for_tokens code m w
  = (true, object (_get_ado_organizations m' w'),
     after (_get_ado_organizations m' w')).
Proof.
  intros H He Hlen. unfold _exchange_code_for_tokens; run_act.
  rewrite H; cbn. rewrite He; cbn. rewrite Hlen. done.
Qed.

Lemma ado_authenticate_with_code s m w c cs tokens e :
  oauth_manager s = Some m ->
  session_authenticated s = false ->
  auth_complete m = false ->
  callbacks w (waits w) = c :: cs ->
  arg_truthy (cb_error c) = false ->
  arg_truthy (cb_code c) = true ->
  net w (nreq w) = Response 200 (Some (PDict tokens)) ->
  expires_in_of tokens = Some e ->
  truthy (dict_get tokens "access_token") = true ->
  has_len (dict_get tokens "access_token") = true ->
  let r := _authenticate_if_needed s w in
  value r = true /\
  exists orgs,
    object r
    = Server (Some (Manager (dict_get tokens "access_token")
                            (dict_get tokens "refresh_token")
                            (Some (expiry (clock w (ticks w)) e))
                            PNone orgs None true true))
             (Some "oauth"%string) true.
Proof.
  intros Hm Hs Ha Hcb He Hc H200 Hexp Htok Hlen. cbn zeta.
  pose proof (ado_start_flow_spec m w)
    as (_ & _ & _ & Ho & Hn & Hw & Hcbs & Hnet & Hclock & Hticks & _).
  unfold _authenticate_if_needed, on_manager, wait_for_authorization.
  run_act. rewrite Hs, Hm; cbn. rewrite Ho; cbn. rewrite Ha; cbn.
  rewrite Hcbs, Hw, Hcb. cbn [serve]. unfold oauth_callback. rewrite He, Hc.
  run_act.
  match goal with |- context [_exchange_code_for_tokens ?code ?m' ?w'] =>
    pose proof (ado_exchange_ok code m' w' tokens e) as K end.
  cbn in K. rewrite Hnet, Hn, Hclock, Hticks in K.
  specialize (K H200 Hexp). rewrite Htok, Hlen in K. specialize (K eq_refl).
  rewrite K; clear K.
  match goal with |- context [_get_ado_organizations ?m' ?w'] =>
    pose proof (ado_get_organizations_spec m' w') as (_ & Kframe & _) end.
  unfold object in *. rewrite Kframe. cbn.
  unfold is_authenticated; cbn. rewrite Htok. cbn.
  split; [done|]. by eexists.
Qed.

Lemma ado_authenticate_again s w :
  session_authenticated s = true -> _authenticate_if_needed s w = (true, s, w).
Proof. intros H. unfold _authenticate_if_needed; run_act. by rewrite H. Qed.
End ADOAuthenticate.

(** ** Token responses that are not as expected; failed refreshes *)

Section JiraTokens.
Import Jira.

Lemma jira_exchange_stored code m w tokens :
  net w (nreq w) = Response 200 (Some (PDict tokens)) ->
  let r := _exchange_code_for_tokens code m w in
  access_token (object r) = dict_get tokens "access_token" /\
  refresh_token (object r) = dict_get tokens "refresh_token" /\
  (value r = true <-> is_Some (expires_in_of tokens)) /\
  expires_at (object r)
  = match expires_in_of tokens with
    | Some e => Some (expiry (clock w (ticks w)) e)
    | None => expires_at m
    end.
Proof.
  intros H. cbn zeta.
  destruct (expires_in_of tokens) as [e|] eqn:He.
  - rewrite (jira_exchange_ok code m w tokens e H He).
    match goal with |- context [_get_cloud_id ?m' ?w'] =>
      pose proof (jira_get_cloud_id_keeps m' w') as (K1 & K2 & K3 & _) end.
    unfold value, object in *. cbn [fst snd]. rewrite K1, K2, K3. cbn.
    splits; done.
  - unfold _exchange_code_for_tokens; run_act.
    rewrite H; cbn. rewrite He; cbn. splits; done.
Qed.

Lemma jira_expired_without_refresh_token m w :
  passed (expires_at m) (clock w (ticks w)) ->
  truthy (refresh_token m) = false ->
  let r := get_valid_token m w in
  value r = PNone /\ object r = m /\ nreq (after r) = nreq w.
Proof.
  intros Hp Hrt. cbn zeta.
  destruct (truthy (access_token m)) eqn:Ht.
  - destruct (jira_get_valid_token_spec m w) as (_ & H & _).
    destruct (H Ht Hp) as (_ & Ho & Hv). rewrite Hv, Ho.
    rewrite (jira_refresh_without_token m (next_tick w) Hrt). cbn.
    splits; try done.
    unfold get_valid_token, token_expired; run_act. rewrite Ht; cbn.
    destruct Hp as (t & -> & Ht0 & Hle); cbn.
    rewrite Ht0; cbn. rewrite Hle; cbn.
    unfold refresh_access_token; run_act; by rewrite ?Hrt.
  - destruct (jira_get_valid_token_spec m w) as (H & _). by rewrite (H Ht).
Qed.

Lemma jira_expired_refresh_failed m w :
  truthy (access_token m) = true ->
  passed (expires_at m) (clock w (ticks w)) ->
  truthy (refresh_token m) = true ->
  failed (net w (nreq w)) ->
  let r := get_valid_token m w in
  value r = PNone /\ object r = m /\ nreq (after r) = S (nreq w).
Proof.
  intros Ht Hp Hrt Hf. cbn zeta.
  destruct (jira_get_valid_token_spec m w) as (_ & H & _).
  destruct (H Ht Hp) as (_ & Ho & Hv). rewrite Hv, Ho.
  rewrite (jira_refresh_failed m (next_tick w) Hrt Hf). cbn.
  splits; try done.
  unfold get_valid_token, token_expired; run_act. rewrite Ht; cbn.
  destruct Hp as (t & -> & Ht0 & Hle); cbn.
  rewrite Ht0; cbn. rewrite Hle; cbn.
  pose proof (jira_refresh_failed m (next_tick w) Hrt Hf) as K.
  run_act. by rewrite K.
Qed.
End JiraTokens.

Section ADOTokens.
Import ADO.

Lemma ado_exchange_stored code m w tokens :
  net w (nreq w) = Response 200 (Some (PDict tokens)) ->
  let r := _exchange_code_for_tokens code m w in
  let tok := dict_get tokens "access_token" in
  access_token (object r) = tok /\
  refresh_token (object r) = dict_get tokens "refresh_token" /\
  (value r = true <->
   is_Some (expires_in_of tokens) /\ truthy tok && negb (has_len tok) = false) /\
  expires_at (object r)
  = match expires_in_of tokens with
    | Some e => Some (expiry (clock w (ticks w)) e)
    | None => expires_at m
    end /\
  (is_Some (expires_in_of tokens) ->
   selected_organization (object r) = None /\ ado_url (object r) = PNone).
Proof.
  intros H. cbn zeta.
  destruct (expires_in_of tokens) as [e|] eqn:He.
  - destruct (truthy (dict_get tokens "access_token")
              && negb (has_len (dict_get tokens "access_token"))) eqn:Hlen.
    + unfold _exchange_code_for_tokens; run_act.
      rewrite H; cbn. rewrite He; cbn. rewrite Hlen; cbn.
      splits; first [done | by split; [intros [=] | intros [_ [=]]]].
    + rewrite (ado_exchange_ok code m w tokens e H He Hlen).
      match goal with |- context [_get_ado_organizations ?m' ?w'] =>
        pose proof (ado_get_organizations_spec m' w') as (_ & K & _) end.
      unfold value, object in *. cbn [fst snd]. rewrite K. cbn.
      splits; done.
  - unfold _exchange_code_for_tokens; run_act.
    rewrite H; cbn. rewrite He; cbn.
    splits; first [done | by intros [? [=]]
                  | by split; [intros [=] | intros [[? [=]] _]]].
Qed.

Lemma ado_expired_without_refresh_token m w :
  passed (expires_at m) (clock w (ticks w)) ->
  truthy (refresh_token m) = false ->
  let r := get_valid_token m w in
  value r = PNone /\ object r = m /\ nreq (after r) = nreq w.
Proof.
  intros Hp Hrt. cbn zeta.
  destruct (truthy (access_token m)) eqn:Ht.
  - destruct (ado_get_valid_token_spec m w) as (_ & H & _).
    destruct (H Ht Hp) as (_ & Ho & Hv). rewrite Hv, Ho.
    rewrite (ado_refresh_without_token m (next_tick w) Hrt). cbn.
    splits; try done.
    unfold get_valid_token, token_expired; run_act. rewrite Ht; cbn.
    destruct Hp as (t & -> & Ht0 & Hle); cbn.
    rewrite Ht0; cbn. rewrite Hle; cbn.
    unfold refresh_access_token; run_act; by rewrite ?Hrt.
  - destruct (ado_get_valid_token_spec m w) as (H & _). by rewrite (H Ht).
Qed.

Lemma ado_expired_refresh_failed m w :
  truthy (access_token m) = true ->
  passed (expires_at m) (clock w (ticks w)) ->
  truthy (refresh_token m) = true ->
  failed (net w (nreq w)) ->
  let r := get_valid_token m w in
  value r = PNone /\ object r = m /\ nreq (after r) = S (nreq w).
Proof.
  intros Ht Hp Hrt Hf. cbn zeta.
  destruct (ado_get_valid_token_spec m w) as (_ & H & _).
  destruct (H Ht Hp) as (_ & Ho & Hv). rewrite Hv, Ho.
  rewrite (ado_refresh_failed m (next_tick w) Hrt Hf). cbn.
  splits; try done.
  unfold get_valid_token, token_expired; run_act. rewrite Ht; cbn.
  destruct Hp as (t & -> & Ht0 & Hle); cbn.
  rewrite Ht0; cbn. rewrite Hle; cbn.
  pose proof (ado_refresh_failed m (next_tick w) Hrt Hf) as K.
  run_act. by rewrite K.
Qed.
End ADOTokens.

(** ** The tool layer *)

Section JiraTools.
Import Jira.
Variable py_str : pyval -> string.
Variable handler : string -> pyval -> act JiraMCPServer (exn + pyval).

Lemma jira_refresh_api_calls m w :
  api_calls (after (refresh_access_token m w)) = api_calls w.
Proof.
  unfold api_calls, refresh_access_token; run_act.
  repeat (case_match; cbn; try done).
Qed.

Lemma jira_get_valid_token_value m w :
  let r := get_valid_token m w in
  (value r = PNone \/ value r = access_token (object r)) /\
  api_calls (after r) = api_calls w.
Proof.
  cbn zeta. unfold get_valid_token, token_expired.
  pose proof (jira_refresh_api_calls m w) as K0.
  pose proof (jira_refresh_api_calls m (next_tick w)) as K1.
  unfold api_calls in *. run_act.
  destruct (truthy (access_token m)); cbn; [|by auto].
  destruct (expires_at m) as [t|]; cbn; [|by auto].
  destruct (float_truthy t); cbn; [|by auto].
  destruct (float_ge (clock w (ticks w)) t); cbn; [|by auto].
  destruct (refresh_access_token m (next_tick w)).1.1; cbn; by auto.
Qed.

Lemma jira_auth_headers_spec s w :
  let r := _get_auth_headers s w in
  (truthy (value r) = false -> value r = PNone) /\
  (truthy (value r) = true ->
   exists m', oauth_manager (object r) = Some m' /\ value r = access_token m') /\
  (match oauth_manager s with
   | Some m => is_authenticated m = false
   | None => True
   end -> r = (PNone, s, w)) /\
  api_calls (after r) = api_calls w /\
  auth_method (object r) = auth_method s /\
  session_authenticated (object r) = session_authenticated s.
Proof.
  cbn zeta. unfold _get_auth_headers, on_manager.
  destruct s as [[m|] method authenticated]; cbn; [|by splits].
  pose proof (jira_get_valid_token_value m w) as [Kv Kc].
  run_act.
  destruct (is_authenticated m) eqn:E; cbn; [|by splits].
  destruct (truthy (get_valid_token m w).1.1) eqn:T; cbn.
  - splits; try done.
    + intros H. by rewrite H in T.
    + intros _. eexists. split; [done|].
      destruct Kv as [Kv | Kv]; [|done]. by rewrite Kv in T.
  - by splits.
Qed.

Lemma jira_base_url_truthy (x : string) :
  arg_truthy (Some ("https://api.atlassian.com/ex/jira/" +:+ x)) = true.
Proof. reflexivity. Qed.

Lemma jira_api_request_spec method endpoint s w :
  let r := _make_api_request py_str method endpoint s w in
  (match oauth_manager s with
   | Some m => is_authenticated m = false
   | None => True
   end -> r = (inl "No valid Jira URL configured"%string, s, w)) /\
  (forall e, value r = inl e -> api_calls (after r) = api_calls w) /\
  (forall x, value r = inr x ->
     api_calls (after r) = S (api_calls w) /\
     exists m', oauth_manager (object r) = Some m' /\
                is_authenticated m' = true).
Proof.
  cbn zeta. unfold _make_api_request.
  pose proof (jira_auth_headers_spec s w) as (_ & Ht & Hno & Hc & _).
  split.
  - intros H. unfold bind. rewrite (Hno H). cbn.
    unfold gets, _get_base_url; cbn.
    destruct (oauth_manager s) as [m|]; [by rewrite H|done].
  - unfold bind, gets, ret, http_call, value, object, after, api_calls, calls in *.
    cbn.
    set (r := _get_auth_headers s w) in *.
    unfold _get_base_url.
    destruct (oauth_manager r.1.2) as [m'|] eqn:Em; cbn; [|by split].
    destruct (is_authenticated m') eqn:Ea; [|by split].
    rewrite jira_base_url_truthy.
    destruct (truthy r.1.1) eqn:T; cbn.
    + split; [done|]. intros x _. rewrite Hc. split; [done|]. by exists m'.
    + unfold _get_auth. rewrite Em, Ea. cbn. by split.
Qed.

Lemma jira_tools_call_unknown p s w :
  unknown_tool jira_rest_tools (dict_get p "name") = true ->
  handle_tools_call py_str handler (PDict p) s w
  = (inr (tool_error ("Unknown tool: " +:+ py_str (dict_get p "name"))), s, w).
Proof.
  unfold unknown_tool, handle_tools_call. cbn [existsb jira_rest_tools].
  intros H. apply negb_true_iff in H.
  repeat match goal with
         | E : _ || _ = false |- _ => apply orb_false_iff in E as [? ?]
         end.
  unfold bind.
  repeat match goal with E : is_str _ _ = false |- _ => rewrite E; clear E end.
  reflexivity.
Qed.

Lemma jira_tools_call_rest p s w t :
  In t jira_rest_tools ->
  dict_get p "name" = PStr t ->
  let h := handler t (dict_get_or p "arguments" (PDict ∅)) s
             (log_event (Sleep 2) w) in
  handle_tools_call py_str handler (PDict p) s w
  = (inr (match value h with
          | inr result => result
          | inl e =>
              tool_error ("Error executing " +:+ py_str (PStr t) +:+ ": " +:+ e)
          end),
     object h, after h).
Proof.
  intros Ht Hn. unfold handle_tools_call. rewrite Hn.
  cbn in Ht. unfold async_safe_call, bind, emit, ret, value, object, after.
  repeat (destruct Ht as [<- | Ht]; [cbn; by case_match|]).
  done.
Qed.

Lemma jira_tools_call_no_get params s w :
  match params with PDict _ => False | _ => True end ->
  handle_tools_call py_str handler params s w = (inl (no_get params), s, w).
Proof. by destruct params. Qed.

Lemma jira_tools_call_returns p s w :
  exists result,
    value (handle_tools_call py_str handler (PDict p) s w) = inr result.
Proof.
  unfold handle_tools_call, bind, value, ret.
  match goal with |- context [match ?x.1.1 with _ => _ end] =>
    destruct x.1.1 end; by eexists.
Qed.
End JiraTools.

Section ADOTools.
Import ADO.
Variable py_str : pyval -> string.
Variable handler : string -> pyval -> act ADOMCPServer (exn + pyval).

Lemma ado_refresh_api_calls m w :
  api_calls (after (refresh_access_token m w)) = api_calls w.
Proof.
  unfold api_calls, refresh_access_token; run_act.
  repeat (case_match; cbn; try done).
Qed.

Lemma ado_get_valid_token_value m w :
  let r := get_valid_token m w in
  (value r = PNone \/ value r = access_token (object r)) /\
  api_calls (after r) = api_calls w.
Proof.
  cbn zeta. unfold get_valid_token, token_expired.
  pose proof (ado_refresh_api_calls m w) as K0.
  pose proof (ado_refresh_api_calls m (next_tick w)) as K1.
  unfold api_calls in *. run_act.
  destruct (truthy (access_token m)); cbn; [|by auto].
  destruct (expires_at m) as [t|]; cbn; [|by auto].
  destruct (float_truthy t); cbn; [|by auto].
  destruct (float_ge (clock w (ticks w)) t); cbn; [|by auto].
  destruct (refresh_access_token m (next_tick w)).1.1; cbn; by auto.
Qed.

Lemma ado_auth_headers_spec s w :
  let r := _get_auth_headers s w in
  (truthy (value r) = false -> value r = PNone) /\
  (truthy (value r) = true ->
   exists m', oauth_manager (object r) = Some m' /\ value r = access_token m') /\
  (match oauth_manager s with
   | Some m => is_authenticated m = false
   | None => True
   end -> r = (PNone, s, w)) /\
  api_calls (after r) = api_calls w /\
  auth_method (object r) = auth_method s /\
  session_authenticated (object r) = session_authenticated s.
Proof.
  cbn zeta. unfold _get_auth_headers, on_manager.
  destruct s as [[m|] method authenticated]; cbn; [|by splits].
  pose proof (ado_get_valid_token_value m w) as [Kv Kc].
  run_act.
  destruct (is_authenticated m) eqn:E; cbn; [|by splits].
  destruct (truthy (get_valid_token m w).1.1) eqn:T; cbn.
  - splits; try done.
    + intros H. by rewrite H in T.
    + intros _. eexists. split; [done|].
      destruct Kv as [Kv | Kv]; [|done]. by rewrite Kv in T.
  - by splits.
Qed.

Lemma ado_get_valid_token_frame m w :
  let r := get_valid_token m w in
  ado_url (object r) = ado_url m /\
  organizations (object r) = organizations m /\
  selected_organization (object r) = selected_organization m.
Proof.
  cbn zeta. unfold get_valid_token, token_expired, refresh_access_token; run_act.
  repeat (case_match; cbn; try done).
Qed.

Lemma ado_api_request_spec method endpoint s w :
  let r := _make_api_request method endpoint s w in
  (match oauth_manager s with
   | Some m => truthy (access_token m) = false \/ truthy (ado_url m) = false
   | None => True
   end ->
   value r = inl "No valid ADO URL configured"%string /\
   api_calls (after r) = api_calls w) /\
  (forall e, value r = inl e -> api_calls (after r) = api_calls w) /\
  (forall x, value r = inr x ->
     api_calls (after r) = S (api_calls w) /\
     exists m', oauth_manager (object r) = Some m' /\
                truthy (access_token m') = true /\
                truthy (ado_url m') = true).
Proof.
  cbn zeta.
  unfold _make_api_request, _get_auth_headers, on_manager, _get_base_url,
    _get_auth, is_authenticated.
  destruct s as [[m|] auth authenticated]; [|by splits].
  pose proof (ado_get_valid_token_value m w) as [Kv Kc].
  pose proof (ado_get_valid_token_frame m w) as (Ku & _).
  unfold bind, gets, ret, http_call, value, object, after, api_calls, calls in *.
  cbn in *.
  destruct (truthy (access_token m)) eqn:Etok; cbn.
  2:{ rewrite Etok. cbn. by splits. }
  destruct (get_valid_token m w) as [[v m'] w'] eqn:G. cbn in *.
  destruct (truthy v) eqn:Tv; cbn.
  - destruct Kv as [-> | ->]; [done|]. rewrite Tv, Ku. cbn.
    destruct (truthy (ado_url m)) eqn:Eu; cbn.
    + splits; [by intros [|] | done |].
      intros x _. rewrite Kc. split; [done|]. exists m'. by rewrite Ku.
    + by splits.
  - destruct (truthy (access_token m')) eqn:Et'; cbn; [|by splits].
    rewrite Ku. destruct (truthy (ado_url m)) eqn:Eu; cbn; [|by splits].
    splits; [by intros [|] | by intros | done].
Qed.

Lemma ado_tools_call_unknown p s w :
  unknown_tool ado_rest_tools (dict_get p "name") = true ->
  handle_tools_call py_str handler (PDict p) s w
  = (inr (tool_error ("Unknown tool: " +:+ py_str (dict_get p "name"))), s, w).
Proof.
  unfold unknown_tool, handle_tools_call. cbn [existsb ado_rest_tools].
  intros H. apply negb_true_iff in H.
  repeat match goal with
         | E : _ || _ = false |- _ => apply orb_false_iff in E as [? ?]
         end.
  unfold bind.
  repeat match goal with E : is_str _ _ = false |- _ => rewrite E; clear E end.
  reflexivity.
Qed.

Lemma ado_tools_call_rest p s w t :
  In t ado_rest_tools ->
  dict_get p "name" = PStr t ->
  let h := handler t (dict_get_or p "arguments" (PDict ∅)) s
             (log_event (Sleep 2) w) in
  handle_tools_call py_str handler (PDict p) s w
  = (inr (match value h with
          | inr result => result
          | inl e =>
              tool_error ("Error executing " +:+ py_str (PStr t) +:+ ": " +:+ e)
          end),
     object h, after h).
Proof.
  intros Ht Hn. unfold handle_tools_call. rewrite Hn.
  cbn in Ht. unfold async_safe_call, bind, emit, ret, value, object, after.
  repeat (destruct Ht as [<- | Ht]; [cbn; by case_match|]).
  done.
Qed.

Lemma ado_tools_call_no_get params s w :
  match params with PDict _ => False | _ => True end ->
  handle_tools_call py_str handler params s w = (inl (no_get params), s, w).
Proof. by destruct params. Qed.

Lemma ado_tools_call_returns p s w :
  exists result,
    value (handle_tools_call py_str handler (PDict p) s w) = inr result.
Proof.
  unfold handle_tools_call, bind, value, ret.
  match goal with |- context [match ?x.1.1 with _ => _ end] =>
    destruct x.1.1 end; by eexists.
Qed.
End ADOTools.

(** ** Selecting and creating organizations *)

Section ADOSelect.
Import ADO.

Lemma named_self name a u p : named name (OrgInfo a (PStr name) u p) = true.
Proof. unfold named; cbn. apply String.eqb_refl. Qed.

Lemma find_named name l :
  match List.find (named name) l with
  | Some org => named name org = true /\ In org l
  | None => existsb (named name) l = false
  end.
Proof.
  destruct (List.find (named name) l) as [org|] eqn:E.
  - by apply find_some in E as [? ?].
  - destruct (existsb (named name) l) eqn:X; [|done].
    apply existsb_exists in X as (org & Hin & Hn).
    by rewrite (find_none _ _ E org Hin) in Hn.
Qed.

Lemma ado_validate_spec name m w :
  let r := _validate_organization_access name m w in
  object r = m /\
  (truthy (access_token m) = false -> r = (false, m, w)) /\
  (value r = true <->
   truthy (access_token m) = true /\
   exists body, net w (nreq w) = Response 200 body).
Proof.
  cbn zeta. unfold _validate_organization_access; run_tools.
  destruct (truthy (access_token m)); cbn.
  2:{ splits; try done. by split; [|intros [? _]]. }
  destruct (net w (nreq w)) as [|st body]; cbn.
  { splits; try done. split; [done|]. by intros [_ [? ?]]. }
  destruct (Z.eqb_spec st 200) as [->|Hst]; cbn.
  { splits; try done. split; [|done]. intros _. split; [done|]. by eexists. }
  assert (V : (if st =? 404 then @ret ADOOAuthTokenManager _ false
               else if (st =? 401) || (st =? 403) then ret false else ret false)
              = ret false).
  { by destruct (st =? 404), ((st =? 401) || (st =? 403)). }
  unfold ret in V. rewrite V. cbn.
  splits; try done. split; [done|]. intros [_ [b [= ? _]]]. done.
Qed.

Local Opaque List.find existsb.

Lemma ado_select_spec name m w :
  let r := select_organization name m w in
  let cached := existsb (named name) (organizations_or_empty m) in
  access_token (object r) = access_token m /\
  refresh_token (object r) = refresh_token m /\
  expires_at (object r) = expires_at m /\
  auth_complete (object r) = auth_complete m /\
  (value r = false -> object r = m) /\
  (value r = true <->
   value (_validate_organization_access name m w) = true \/ cached = true) /\
  (value r = true ->
   ado_url (object r) = dev_azure_url name /\
   exists org l,
     selected_organization (object r) = Some org /\
     named name org = true /\
     organizations (object r) = Some l /\
     existsb (named name) l = true) /\
  (cached = true -> organizations (object r) = organizations m) /\
  (length (organizations_or_empty (object r))
   <= S (length (organizations_or_empty m)))%nat.
Proof.
  cbn zeta. unfold select_organization.
  pose proof (ado_validate_spec name m w) as (Ho & _).
  unfold bind, gets, modify, ret, value, object in *.
  destruct (_validate_organization_access name m w) as [[valid m'] w'].
  cbn in *. subst m'.
  pose proof (find_named name (organizations_or_empty m)) as F.
  destruct valid.
  - cbn.
    destruct (List.find (named name) (organizations_or_empty m)) as [org|] eqn:E;
      cbn.
    + destruct F as [Fn Fi].
      assert (X : existsb (named name) (organizations_or_empty m) = true).
      { apply existsb_exists. by exists org. }
      assert (Hsome : organizations m = Some (organizations_or_empty m)).
      { unfold organizations_or_empty in *.
        by destruct (organizations m) as [[|]|]. }
      splits; try done.
      * split; auto.
      * intros _. split; [done|].
        eexists _, _. splits; [done | apply named_self | done | done].
      * destruct (organizations_or_empty m); cbn; lia.
    + splits; try done.
      * split; auto.
      * intros _. split; [done|].
        eexists _, _. splits; [done | apply named_self | done |].
        rewrite existsb_app. apply orb_true_iff. right.
        cbn [existsb]. by rewrite named_self.
      * by rewrite F.
      * destruct (organizations_or_empty m ++ _) eqn:A; [cbn; lia|].
        rewrite <- A, length_app. cbn. lia.
  - assert (Hsame : (length (organizations_or_empty m)
                     <= S (length (organizations_or_empty m)))%nat) by lia.
    unfold organizations_or_empty in F |- *.
    destruct (organizations m) as [[|o os]|] eqn:Eo.
    + cbn. rewrite Eo. splits; try done; [by split; [|intros [|]] | cbn; lia].
    + destruct (List.find (named name) (o :: os)) as [org|] eqn:E.
      * destruct F as [Fn Fi].
        assert (X : existsb (named name) (o :: os) = true).
        { apply existsb_exists. by exists org. }
        cbn. rewrite Eo.
        splits; try done.
        -- split; auto.
        -- intros _. split; [done|]. by eexists _, _.
        -- cbn. lia.
      * cbn. rewrite Eo.
        splits; try done.
        -- split; [done|]. intros [|H]; [done|]. by rewrite F in H.
        -- cbn. lia.
    + cbn. rewrite Eo. splits; try done; [by split; [|intros [|]] | cbn; lia].
Qed.
Local Transparent List.find existsb.

Lemma organizations_or_empty_set l m :
  l <> [] -> organizations_or_empty (set_organizations (Some l) m) = l.
Proof. unfold organizations_or_empty. cbn. by destruct l. Qed.

Lemma ado_create_spec name region m w :
  let r := _create_ado_organization name region m w in
  access_token (object r) = access_token m /\
  refresh_token (object r) = refresh_token m /\
  expires_at (object r) = expires_at m /\
  auth_complete (object r) = auth_complete m /\
  (value r = false -> object r = m) /\
  (value r = true <->
   truthy (access_token m) = true /\
   exists status_code org_data,
     net w (nreq w) = Response status_code (Some (PDict org_data)) /\
     (status_code = 200 \/ status_code = 201)) /\
  (value r = true ->
   ado_url (object r) = dev_azure_url name /\
   exists org l,
     selected_organization (object r) = Some org /\
     named name org = true /\
     organizations (object r) = Some l /\
     existsb (named name) l = true).
Proof.
  cbn zeta. unfold _create_ado_organization; run_tools.
  destruct (truthy (access_token m)); cbn.
  2:{ splits; try done. by split; [|intros [? _]]. }
  destruct (net w (nreq w)) as [|st body]; cbn.
  { splits; try done. split; [done|]. by intros [_ (? & ? & ? & _)]. }
  destruct ((st =? 200) || (st =? 201)) eqn:Est; cbn.
  2:{ splits; try done. split; [done|].
      intros [_ (st' & d & [= -> _] & Hst)].
      destruct Hst as [-> | ->]; by cbn in Est. }
  assert (Hst : st = 200 \/ st = 201).
  { apply orb_true_iff in Est as [H | H]; apply Z.eqb_eq in H; auto. }
  destruct body as [[| | | | | |org_data]|]; cbn;
    try (splits; try done; split; [done|];
         by intros [_ (st' & d & [= _ ?] & _)]).
  match goal with |- context [select_organization name ?m2 ?w2] =>
    pose proof (ado_select_spec name m2 w2)
      as (K1 & K2 & K3 & K4 & _ & Kv & Ksel & _ & _);
    assert (C : existsb (named name) (organizations_or_empty m2) = true)
  end.
  { rewrite organizations_or_empty_set; [|by destruct (organizations_or_empty m)].
    rewrite existsb_app. apply orb_true_iff. right.
    cbn [existsb]. by rewrite named_self. }
  cbn zeta in Kv, Ksel. unfold value, object in *.
  assert (V := proj2 Kv (or_intror C)).
  splits; try done.
  - split; [|done]. intros _. split; [done|]. by eexists _, _.
  - intros _. by apply Ksel.
Qed.
End ADOSelect.

(** ** Properties of the session flow *)

(** X1: [start_oauth_flow] starts a listener thread exactly when no
    thread is stored or the stored one is no longer alive (as after the
    web server could not bind its port); [is_alive()] is asked of a
    stored thread only.  In every case a thread is stored afterwards and
    nothing else of the manager changes; no HTTP request is sent, no
    callback is waited for and the completion event is not set. *)
Theorem X1_listener_started_unless_alive :
  (forall (m : Jira.OAuthTokenManager) (w : world),
     let r := Jira.start_oauth_flow m w in
     threads (after r)
     = (if Jira.oauth_thread m && alive w (probes w) then threads w
        else S (threads w)) /\
     probes (after r)
     = (if Jira.oauth_thread m then S (probes w) else probes w) /\
     object r = Jira.set_oauth_thread true m /\
     nreq (after r) = nreq w /\ waits (after r) = waits w /\
     sets (after r) = sets w) /\
  (forall (m : ADO.ADOOAuthTokenManager) (w : world),
     let r := ADO.start_oauth_flow m w in
     threads (after r)
     = (if ADO.oauth_thread m && alive w (probes w) then threads w
        else S (threads w)) /\
     probes (after r)
     = (if ADO.oauth_thread m then S (probes w) else probes w) /\
     object r = ADO.set_oauth_thread true m /\
     nreq (after r) = nreq w /\ waits (after r) = waits w /\
     sets (after r) = sets w).
Proof.
  split; intros m w.
  - destruct (jira_start_flow_spec m w) as (_ & ? & ? & ? & ? & ? & _).
    destruct (jira_start_keeps m w) as (_ & _ & _ & _ & ?).
    by splits.
  - destruct (ado_start_flow_spec m w) as (_ & ? & ? & ? & ? & ? & _).
    destruct (ado_start_keeps m w) as (_ & _ & _ & ?).
    by splits.
Qed.



(** X3: on the Jira server, a wait whose first callback carries a code,
    answered by the token endpoint with HTTP 200 and a usable token
    response, authenticates the session only if the cloud id can be
    fetched as well.  With the cloud id the call returns [True], the
    session is marked authenticated with method "oauth", and later calls
    return [True] at once.  When the accessible-resources request fails
    and no cloud id was stored, the call returns [False] and the session
    stays unauthenticated although the new tokens are stored and the
    event is set. *)
Theorem X3_jira_authentication_needs_cloud_id :
  forall (s : Jira.JiraMCPServer) (m : Jira.OAuthTokenManager) (w : world)
         (c : callback) (cs : list callback) (tokens : gmap string pyval) (e : float),
    Jira.oauth_manager s = Some m ->
    Jira.session_authenticated s = false ->
    Jira.auth_complete m = false ->
    callbacks w (waits w) = c :: cs ->
    arg_truthy (cb_error c) = false ->
    arg_truthy (cb_code c) = true ->
    net w (nreq w) = Response 200 (Some (PDict tokens)) ->
    expires_in_of tokens = Some e ->
    truthy (dict_get tokens "access_token") = true ->
    let r := Jira._authenticate_if_needed s w in
    let stored cid :=
      Jira.Manager (dict_get tokens "access_token")
                   (dict_get tokens "refresh_token")
                   cid (Some (expiry (clock w (ticks w)) e)) true true in
    (forall first rest cid,
       net w (S (nreq w)) = Response 200 (Some (PList (PDict first :: rest))) ->
       first !! "id" = Some cid ->
       truthy cid = true ->
       value r = true /\
       object r = Jira.Server (Some (stored cid)) (Some "oauth"%string) true /\
       forall w', Jira._authenticate_if_needed (object r) w' = (true, object r, w')) /\
    (failed (net w (S (nreq w))) ->
     truthy (Jira.cloud_id m) = false ->
     value r = false /\
     object r = Jira.Server (Some (stored (Jira.cloud_id m)))
                            (Jira.auth_method s) false).
Proof.
  intros s m w c cs tokens e Hm Hs Ha Hcb He Hc H200 Hexp Htok r stored.
  destruct (jira_authenticate_with_code s m w c cs tokens e
              Hm Hs Ha Hcb He Hc H200 Hexp Htok) as [Hok Hfail].
  split; [|exact Hfail].
  intros first rest cid Hres Hid Hcid.
  destruct (Hok first rest cid Hres Hid Hcid) as [Hv Ho].
  split; [exact Hv|]. split; [exact Ho|].
  intros w'. apply jira_authenticate_again. subst r. by rewrite Ho.
Qed.

Lemma X3_jira_authentication_witness :
  (* the cloud id is fetched *)
  value (Jira._authenticate_if_needed Jira.init_server flow_with_site) = true /\
  (* the accessible-resources request is refused *)
  value (Jira._authenticate_if_needed Jira.init_server flow_without_site) = false.
Proof.
  split.
  - refine (proj1 (proj1 (X3_jira_authentication_needs_cloud_id
                            Jira.init_server Jira.init flow_with_site with_code []
                            full_token_body (float_of_Z 3600)
                            eq_refl eq_refl eq_refl eq_refl eq_refl eq_refl
                            eq_refl eq_refl eq_refl)
                         {[ "id" := PStr "site-1"; "name" := PStr "acme" ]} []
                         (PStr "site-1") eq_refl eq_refl eq_refl)).
  - refine (proj1 (proj2 (X3_jira_authentication_needs_cloud_id
                            Jira.init_server Jira.init flow_without_site with_code []
                            full_token_body (float_of_Z 3600)
                            eq_refl eq_refl eq_refl eq_refl eq_refl eq_refl
                            eq_refl eq_refl eq_refl) _ eq_refl)).
    right. exists 403, None. split; [reflexivity | lia].
Defined.

(** X4: on the ADO server the same wait authenticates the session as soon
    as the token endpoint answers with HTTP 200 and a usable token
    response with a string access token, whatever becomes of the
    organization requests: the call returns [True], the session is marked
    authenticated, no organization is selected and no organization URL is
    set. *)
Theorem X4_ado_authentication_needs_token_only :
  forall (s : ADO.ADOMCPServer) (m : ADO.ADOOAuthTokenManager) (w : world)
         (c : callback) (cs : list callback) (tokens : gmap string pyval) (e : float),
    ADO.oauth_manager s = Some m ->
    ADO.session_authenticated s = false ->
    ADO.auth_complete m = false ->
    callbacks w (waits w) = c :: cs ->
    arg_truthy (cb_error c) = false ->
    arg_truthy (cb_code c) = true ->
    net w (nreq w) = Response 200 (Some (PDict tokens)) ->
    expires_in_of tokens = Some e ->
    truthy (dict_get tokens "access_token") = true ->
    has_len (dict_get tokens "access_token") = true ->
    let r := ADO._authenticate_if_needed s w in
    value r = true /\
    (exists orgs,
       object r
       = ADO.Server (Some (ADO.Manager (dict_get tokens "access_token")
                                       (dict_get tokens "refresh_token")
                                       (Some (expiry (clock w (ticks w)) e))
                                       PNone orgs None true true))
                    (Some "oauth"%string) true) /\
    forall w', ADO._authenticate_if_needed (object r) w' = (true, object r, w').
Proof.
  intros s m w c cs tokens e Hm Hs Ha Hcb He Hc H200 Hexp Htok Hlen r.
  destruct (ado_authenticate_with_code s m w c cs tokens e
              Hm Hs Ha Hcb He Hc H200 Hexp Htok Hlen) as [Hv [orgs Ho]].
  split; [exact Hv|]. split; [by exists orgs|].
  intros w'. apply ado_authenticate_again. subst r. by rewrite Ho.
Qed.

Lemma X4_ado_authentication_witness :
  value (ADO._authenticate_if_needed ADO.init_server flow_token_only) = true.
Proof.
  exact (proj1 (X4_ado_authentication_needs_token_only
                  ADO.init_server ADO.init flow_token_only with_code []
                  full_token_body (float_of_Z 3600)
                  eq_refl eq_refl eq_refl eq_refl eq_refl eq_refl
                  eq_refl eq_refl eq_refl eq_refl)).
Defined.

(** X5: [_get_cloud_id] changes nothing but [cloud_id], and that only
    when it returns [True]: this happens exactly with an access token in
    store and an HTTP 200 answer whose body is a list starting with an
    object that has an ["id"] member, which becomes the cloud id.
    Without an access token no request is sent. *)
Theorem X5_get_cloud_id :
  forall (m : Jira.OAuthTokenManager) (w : world),
    let r := Jira._get_cloud_id m w in
    (truthy (Jira.access_token m) = false -> r = (false, m, w)) /\
    (truthy (Jira.access_token m) = true -> nreq (after r) = S (nreq w)) /\
    (value r = false -> object r = m) /\
    (value r = true ->
       exists first rest cid,
         net w (nreq w) = Response 200 (Some (PList (PDict first :: rest))) /\
         first !! "id" = Some cid /\
         object r = Jira.set_cloud_id cid m) /\
    (forall first rest cid,
       truthy (Jira.access_token m) = true ->
       net w (nreq w) = Response 200 (Some (PList (PDict first :: rest))) ->
       first !! "id" = Some cid ->
       value r = true /\ object r = Jira.set_cloud_id cid m).
Proof. intros m w. exact (jira_get_cloud_id_spec m w). Qed.

Lemma X5_get_cloud_id_witness :
  Jira._get_cloud_id Jira.init (replayed [Response 200 (Some one_site)] 0 [])
  = (false, Jira.init, replayed [Response 200 (Some one_site)] 0 []) /\
  Jira.cloud_id
    (object (Jira._get_cloud_id jira_token_only
               (replayed [Response 200 (Some one_site)] 0 [])))
  = PStr "site-1".
Proof.
  pose proof (X5_get_cloud_id Jira.init
                (replayed [Response 200 (Some one_site)] 0 [])) as (H1 & _).
  pose proof (X5_get_cloud_id jira_token_only
                (replayed [Response 200 (Some one_site)] 0 []))
    as (_ & _ & _ & _ & H2).
  split; [exact (H1 eq_refl)|].
  destruct (H2 _ [] (PStr "site-1") eq_refl eq_refl eq_refl) as [_ ->].
  reflexivity.
Defined.



(** ** Token responses and refreshes *)

(** X7: an HTTP 200 token response whose [expires_in] cannot be added
    to the clock (it is not a number, or an integer too large for a float)
    makes [_exchange_code_for_tokens] and [refresh_access_token] return
    [False] after [access_token] (and the refresh token, as far as the
    call replaces it) have already been overwritten from the response;
    [expires_at] keeps its old value. *)
Theorem X7_token_response_without_numeric_expiry :
  forall (w : world) (tokens : gmap string pyval),
    net w (nreq w) = Response 200 (Some (PDict tokens)) ->
    expires_in_of tokens = None ->
    (forall (code : string) (m : Jira.OAuthTokenManager),
       let r := Jira._exchange_code_for_tokens code m w in
       value r = false /\
       Jira.access_token (object r) = dict_get tokens "access_token" /\
       Jira.refresh_token (object r) = dict_get tokens "refresh_token" /\
       Jira.expires_at (object r) = Jira.expires_at m) /\
    (forall (code : string) (m : ADO.ADOOAuthTokenManager),
       let r := ADO._exchange_code_for_tokens code m w in
       value r = false /\
       ADO.access_token (object r) = dict_get tokens "access_token" /\
       ADO.refresh_token (object r) = dict_get tokens "refresh_token" /\
       ADO.expires_at (object r) = ADO.expires_at m) /\
    (forall m : Jira.OAuthTokenManager,
       truthy (Jira.refresh_token m) = true ->
       let r := Jira.refresh_access_token m w in
       value r = false /\
       Jira.access_token (object r) = dict_get tokens "access_token" /\
       Jira.expires_at (object r) = Jira.expires_at m) /\
    (forall m : ADO.ADOOAuthTokenManager,
       truthy (ADO.refresh_token m) = true ->
       let r := ADO.refresh_access_token m w in
       value r = false /\
       ADO.access_token (object r) = dict_get tokens "access_token" /\
       ADO.expires_at (object r) = ADO.expires_at m).
Proof.
  intros w tokens H He.
  assert (N : forall b : bool, (b = true <-> is_Some (@None float)) -> b = false).
  { intros [] [Hb _]; [|done]. by destruct (Hb eq_refl). }
  assert (N' : forall (b : bool) (P : Prop),
             (b = true <-> is_Some (@None float) /\ P) -> b = false).
  { intros [] P [Hb _]; [|done]. by destruct (Hb eq_refl) as [[? ?] _]. }
  splits.
  - intros code m.
    destruct (jira_exchange_stored code m w tokens H) as (Ha & Hr & Hv & Hx).
    rewrite He in Hv, Hx. cbn zeta. splits; first [by apply N | done].
  - intros code m.
    destruct (ado_exchange_stored code m w tokens H) as (Ha & Hr & Hv & Hx & _).
    rewrite He in Hv, Hx. cbn zeta. splits; first [by eapply N' | done].
  - intros m Hrt.
    destruct (jira_refresh_stored m w tokens Hrt H) as (Ha & _ & Hv & Hx).
    rewrite He in Hv, Hx. cbn zeta. splits; first [by apply N | done].
  - intros m Hrt.
    destruct (ado_refresh_stored m w tokens Hrt H) as (Ha & _ & Hv & Hx).
    rewrite He in Hv, Hx. cbn zeta. splits; first [by apply N | done].
Qed.

Lemma X7_token_response_witness :
  value (Jira.refresh_access_token jira_expired
           (scripted (Response 200 (Some (PDict odd_token_body))) 2000)) = false /\
  Jira.access_token
    (object (Jira.refresh_access_token jira_expired
               (scripted (Response 200 (Some (PDict odd_token_body))) 2000)))
  = PStr "fresh" /\
  Jira.expires_at
    (object (Jira.refresh_access_token jira_expired
               (scripted (Response 200 (Some (PDict odd_token_body))) 2000)))
  = Some (float_of_Z 1000).
Proof.
  exact (proj1 (proj2 (proj2 (X7_token_response_without_numeric_expiry
                                (scripted (Response 200 (Some (PDict odd_token_body))) 2000)
                                odd_token_body eq_refl eq_refl)))
           jira_expired eq_refl).
Defined.

(** X8: a token exchange whose response has no [refresh_token] member
    stores [None] as refresh token; once the expiry it set has passed,
    [get_valid_token()] returns [None] without sending any request and
    without changing the manager, on both servers. *)
Theorem X8_exchange_without_refresh_token :
  forall (code : string) (w w' : world) (tokens : gmap string pyval) (e : float),
    net w (nreq w) = Response 200 (Some (PDict tokens)) ->
    expires_in_of tokens = Some e ->
    tokens !! "refresh_token" = None ->
    passed (Some (expiry (clock w (ticks w)) e)) (clock w' (ticks w')) ->
    (forall m : Jira.OAuthTokenManager,
       let m' := object (Jira._exchange_code_for_tokens code m w) in
       Jira.refresh_token m' = PNone /\
       value (Jira.get_valid_token m' w') = PNone /\
       object (Jira.get_valid_token m' w') = m' /\
       nreq (after (Jira.get_valid_token m' w')) = nreq w') /\
    (forall m : ADO.ADOOAuthTokenManager,
       let m' := object (ADO._exchange_code_for_tokens code m w) in
       ADO.refresh_token m' = PNone /\
       value (ADO.get_valid_token m' w') = PNone /\
       object (ADO.get_valid_token m' w') = m' /\
       nreq (after (ADO.get_valid_token m' w')) = nreq w').
Proof.
  intros code w w' tokens e H He Hno Hp.
  assert (Hrt : dict_get tokens "refresh_token" = PNone).
  { unfold dict_get. by rewrite Hno. }
  split; intros m m'.
  - destruct (jira_exchange_stored code m w tokens H) as (_ & Hr & _ & Hx).
    rewrite He in Hx. rewrite Hrt in Hr. fold m' in Hr, Hx.
    split; [exact Hr|].
    apply jira_expired_without_refresh_token; [by rewrite Hx | by rewrite Hr].
  - destruct (ado_exchange_stored code m w tokens H) as (_ & Hr & _ & Hx & _).
    rewrite He in Hx. rewrite Hrt in Hr. fold m' in Hr, Hx.
    split; [exact Hr|].
    apply ado_expired_without_refresh_token; [by rewrite Hx | by rewrite Hr].
Qed.

Lemma X8_exchange_without_refresh_token_witness :
  value (Jira.get_valid_token
           (object (Jira._exchange_code_for_tokens "c" Jira.init
                      (scripted (Response 200 (Some (PDict token_body))) 1000)))
           (scripted (Response 200 (Some (PDict token_body))) 5000))
  = PNone.
Proof.
  assert (Hp : passed (Some (expiry (float_of_Z 1000) (float_of_Z 3600)))
                      (float_of_Z 5000)).
  { exists (float_of_Z 4300). by vm_compute. }
  exact (proj1 (proj2 (proj1 (X8_exchange_without_refresh_token "c"
                                (scripted (Response 200 (Some (PDict token_body))) 1000)
                                (scripted (Response 200 (Some (PDict token_body))) 5000)
                                token_body (float_of_Z 3600) eq_refl eq_refl eq_refl Hp)
                             Jira.init))).
Defined.

(** X9: on the ADO manager every token exchange that gets as far as
    setting [expires_at] (HTTP 200, a token response with a usable
    [expires_in]) forgets the selected organization: afterwards
    [selected_organization] and [ado_url] are [None], whatever was
    selected before and whatever the organization requests return. *)
Theorem X9_exchange_forgets_organization :
  forall (code : string) (m : ADO.ADOOAuthTokenManager) (w : world)
         (tokens : gmap string pyval),
    net w (nreq w) = Response 200 (Some (PDict tokens)) ->
    is_Some (expires_in_of tokens) ->
    let r := ADO._exchange_code_for_tokens code m w in
    ADO.selected_organization (object r) = None /\
    ADO.ado_url (object r) = PNone /\
    ADO._get_base_url (ADO.Server (Some (object r)) (Some "oauth"%string) true)
    = PNone.
Proof.
  intros code m w tokens H He r.
  destruct (ado_exchange_stored code m w tokens H) as (_ & _ & _ & _ & Hs).
  destruct (Hs He) as [Hsel Hurl]. fold r in Hsel, Hurl.
  splits; [done | done |].
  unfold ADO._get_base_url. cbn. rewrite Hurl. by case_match.
Qed.

Lemma X9_exchange_forgets_organization_witness :
  ADO.ado_url
    (object (ADO._exchange_code_for_tokens "c"
               (ADO.set_ado_url (ADO.dev_azure_url "acme") ado_expired)
               (scripted (Response 200 (Some (PDict token_body))) 1000)))
  = PNone.
Proof.
  assert (He : is_Some (expires_in_of token_body)) by (by exists (float_of_Z 3600)).
  exact (proj1 (proj2 (X9_exchange_forgets_organization "c"
                         (ADO.set_ado_url (ADO.dev_azure_url "acme") ado_expired)
                         (scripted (Response 200 (Some (PDict token_body))) 1000)
                         token_body eq_refl He))).
Defined.

(** X10: when the stored expiry has passed and the refresh request raises
    or is answered with a status other than 200, [get_valid_token()]
    returns [None] after that one request and leaves the manager as it
    was: the stale token and the refresh token stay in store, so the
    next call tries the refresh again. *)
Theorem X10_failed_refresh_keeps_tokens :
  (forall (m : Jira.OAuthTokenManager) (w : world),
     truthy (Jira.access_token m) = true ->
     passed (Jira.expires_at m) (clock w (ticks w)) ->
     truthy (Jira.refresh_token m) = true ->
     failed (net w (nreq w)) ->
     let r := Jira.get_valid_token m w in
     value r = PNone /\ object r = m /\ nreq (after r) = S (nreq w)) /\
  (forall (m : ADO.ADOOAuthTokenManager) (w : world),
     truthy (ADO.access_token m) = true ->
     passed (ADO.expires_at m) (clock w (ticks w)) ->
     truthy (ADO.refresh_token m) = true ->
     failed (net w (nreq w)) ->
     let r := ADO.get_valid_token m w in
     value r = PNone /\ object r = m /\ nreq (after r) = S (nreq w)).
Proof.
  split; intros m w.
  - apply jira_expired_refresh_failed.
  - apply ado_expired_refresh_failed.
Qed.

Lemma X10_failed_refresh_witness :
  value (Jira.get_valid_token jira_expired (scripted Raised 2000)) = PNone /\
  object (Jira.get_valid_token jira_expired (scripted Raised 2000))
  = jira_expired /\
  object (ADO.get_valid_token ado_expired (scripted (Response 500 None) 2000))
  = ado_expired.
Proof.
  assert (Hp : passed (Some (float_of_Z 1000)) (float_of_Z 2000)).
  { exists (float_of_Z 1000). by vm_compute. }
  assert (F1 : failed (net (scripted Raised 2000) 0)) by (by left).
  assert (F2 : failed (net (scripted (Response 500 None) 2000) 0)).
  { right. exists 500, None. split; [reflexivity | lia]. }
  destruct (proj1 X10_failed_refresh_keeps_tokens jira_expired
              (scripted Raised 2000) eq_refl Hp eq_refl F1) as (V & O & _).
  destruct (proj2 X10_failed_refresh_keeps_tokens ado_expired
              (scripted (Response 500 None) 2000) eq_refl Hp eq_refl F2)
    as (_ & O' & _).
  split; [exact V | split; [exact O | exact O']].
Defined.

(** ** Authentication headers and REST requests *)

(** X11: [_get_auth_headers] of either server yields headers only with a
    truthy bearer token, and that token is the [access_token] in store
    afterwards.  It yields none, sends nothing and changes nothing when
    there is no manager or [is_authenticated()] is false; on the Jira
    server this is also the case with a valid token but no cloud id.  It
    never touches [auth_method] or [session_authenticated]. *)
Theorem X11_auth_headers :
  (forall (s : Jira.JiraMCPServer) (w : world),
     let r := Jira._get_auth_headers s w in
     (truthy (value r) = false -> value r = PNone) /\
     (truthy (value r) = true ->
      exists m', Jira.oauth_manager (object r) = Some m' /\
                 value r = Jira.access_token m') /\
     (match Jira.oauth_manager s with
      | Some m => truthy (Jira.access_token m) = false \/
                  truthy (Jira.cloud_id m) = false
      | None => True
      end -> r = (PNone, s, w)) /\
     Jira.auth_method (object r) = Jira.auth_method s /\
     Jira.session_authenticated (object r) = Jira.session_authenticated s) /\
  (forall (s : ADO.ADOMCPServer) (w : world),
     let r := ADO._get_auth_headers s w in
     (truthy (value r) = false -> value r = PNone) /\
     (truthy (value r) = true ->
      exists m', ADO.oauth_manager (object r) = Some m' /\
                 value r = ADO.access_token m') /\
     (match ADO.oauth_manager s with
      | Some m => truthy (ADO.access_token m) = false
      | None => True
      end -> r = (PNone, s, w)) /\
     ADO.auth_method (object r) = ADO.auth_method s /\
     ADO.session_authenticated (object r) = ADO.session_authenticated s).
Proof.
  split; intros s w; cbn zeta.
  - destruct (jira_auth_headers_spec s w) as (H1 & H2 & H3 & _ & H4 & H5).
    splits; try done. intros H. apply H3.
    destruct (Jira.oauth_manager s) as [m|]; [|done].
    unfold Jira.is_authenticated. rewrite truthy_py_and.
    by destruct H as [-> | ->]; [|rewrite andb_false_r].
  - destruct (ado_auth_headers_spec s w) as (H1 & H2 & H3 & _ & H4 & H5).
    by splits.
Qed.

Lemma X11_auth_headers_witness :
  Jira._get_auth_headers
    (Jira.Server (Some jira_token_only) (Some "oauth"%string) true)
    (scripted Raised 0)
  = (PNone, Jira.Server (Some jira_token_only) (Some "oauth"%string) true,
     scripted Raised 0) /\
  value (ADO._get_auth_headers
           (ADO.Server (Some ado_expired) (Some "oauth"%string) true)
           (scripted Raised 0)) = PStr "stale".
Proof.
  pose proof (proj1 X11_auth_headers
                (Jira.Server (Some jira_token_only) (Some "oauth"%string) true)
                (scripted Raised 0)) as (_ & _ & H & _).
  pose proof (proj2 X11_auth_headers
                (ADO.Server (Some ado_expired) (Some "oauth"%string) true)
                (scripted Raised 0)) as (_ & H' & _).
  split; [exact (H (or_intror eq_refl))|].
  destruct (H' eq_refl) as (m' & Hm & Hv).
  exact (eq_trans Hv (f_equal ADO.access_token (eq_sym (Some_inj _ _ Hm)))).
Defined.

(** X12: [_make_api_request] of the Jira server.  Without a manager, or
    when [is_authenticated()] is false, it raises "No valid Jira URL
    configured" with nothing sent and nothing changed.  In every case it
    calls [requests.request] at most once: once when it gets that far,
    and then the manager is authenticated, and not at all when it raises
    itself. *)
Theorem X12_jira_api_request :
  forall (py_str : pyval -> string) (method endpoint : string)
         (s : Jira.JiraMCPServer) (w : world),
    let r := Jira._make_api_request py_str method endpoint s w in
    (match Jira.oauth_manager s with
     | Some m => Jira.is_authenticated m = false
     | None => True
     end -> r = (inl "No valid Jira URL configured"%string, s, w)) /\
    (forall e, value r = inl e -> api_calls (after r) = api_calls w) /\
    (forall x, value r = inr x ->
       api_calls (after r) = S (api_calls w) /\
       exists m', Jira.oauth_manager (object r) = Some m' /\
                  Jira.is_authenticated m' = true).
Proof. intros. apply jira_api_request_spec. Qed.

Lemma X12_jira_api_request_witness :
  Jira._make_api_request sample_str "GET" "/myself" Jira.init_server
    (scripted Raised 0)
  = (inl "No valid Jira URL configured"%string, Jira.init_server,
     scripted Raised 0).
Proof.
  exact (proj1 (X12_jira_api_request sample_str "GET" "/myself"
                  Jira.init_server (scripted Raised 0)) eq_refl).
Defined.

(** X13: [_make_api_request] of the ADO server.  Without a manager,
    without an access token, or while no organization URL is set, it
    raises "No valid ADO URL configured" without calling
    [requests.request].  It calls [requests.request] at most once, and
    only with an access token and an organization URL in store. *)
Theorem X13_ado_api_request :
  forall (method endpoint : string) (s : ADO.ADOMCPServer) (w : world),
    let r := ADO._make_api_request method endpoint s w in
    (match ADO.oauth_manager s with
     | Some m => truthy (ADO.access_token m) = false \/
                 truthy (ADO.ado_url m) = false
     | None => True
     end ->
     value r = inl "No valid ADO URL configured"%string /\
     api_calls (after r) = api_calls w) /\
    (forall e, value r = inl e -> api_calls (after r) = api_calls w) /\
    (forall x, value r = inr x ->
       api_calls (after r) = S (api_calls w) /\
       exists m', ADO.oauth_manager (object r) = Some m' /\
                  truthy (ADO.access_token m') = true /\
                  truthy (ADO.ado_url m') = true).
Proof. intros. apply ado_api_request_spec. Qed.

Lemma X13_ado_api_request_witness :
  value (ADO._make_api_request "GET" "/_apis/projects"
           (ADO.Server (Some ado_expired) (Some "oauth"%string) true)
           (scripted (Response 200 (Some (PDict full_token_body))) 500))
  = inl "No valid ADO URL configured"%string.
Proof.
  exact (proj1 (proj1 (X13_ado_api_request "GET" "/_apis/projects"
                         (ADO.Server (Some ado_expired) (Some "oauth"%string) true)
                         (scripted (Response 200 (Some (PDict full_token_body))) 500))
                  (or_intror eq_refl))).
Defined.

(** ** The session tools *)

(** X14: the [clear_session] tool, from every server state, reports no
    error, has no effect on the world and leaves the session cleared:
    [access_token], [refresh_token], [expires_at] and the resource
    context are [None], [session_authenticated] is [False] and
    [auth_method] is [None]; the listener thread and the completion
    event are as before.  When the completion event had been set before,
    an [authenticate] tool call after it reports an error at once: no
    callback is waited for, no HTTP request is sent, the event is not
    set again, and the session and the tokens are cleared as before. *)
Theorem X14_authenticate_after_clear_session :
  (forall (s : Jira.JiraMCPServer) (w : world),
     let c := Jira._clear_session s w in
     is_error (value c) = false /\
     after c = w /\
     Jira.session_authenticated (object c) = false /\
     Jira.auth_method (object c) = None /\
     Jira.oauth_manager (object c)
     = (fun m => Jira.Manager PNone PNone PNone None
                   (Jira.oauth_thread m) (Jira.auth_complete m))
         <$> Jira.oauth_manager s /\
     (Jira.event_set s = true ->
      let a := Jira._authenticate (object c) (after c) in
      is_error (value a) = true /\
      waits (after a) = waits w /\
      nreq (after a) = nreq w /\
      sets (after a) = sets w /\
      Jira.session_authenticated (object a) = false /\
      Jira.auth_method (object a) = None /\
      Jira.oauth_manager (object a)
      = (fun m => Jira.Manager PNone PNone PNone None true true)
          <$> Jira.oauth_manager s)) /\
  (forall (s : ADO.ADOMCPServer) (w : world),
     let c := ADO._clear_session s w in
     is_error (value c) = false /\
     after c = w /\
     ADO.session_authenticated (object c) = false /\
     ADO.auth_method (object c) = None /\
     ADO.oauth_manager (object c)
     = (fun m => ADO.Manager PNone PNone None PNone None None
                   (ADO.oauth_thread m) (ADO.auth_complete m))
         <$> ADO.oauth_manager s /\
     (ADO.event_set s = true ->
      let a := ADO._authenticate (object c) (after c) in
      is_error (value a) = true /\
      waits (after a) = waits w /\
      nreq (after a) = nreq w /\
      sets (after a) = sets w /\
      ADO.session_authenticated (object a) = false /\
      ADO.auth_method (object a) = None /\
      ADO.oauth_manager (object a)
      = (fun m => ADO.Manager PNone PNone None PNone None None true true)
          <$> ADO.oauth_manager s)).
Proof.
  split; intros [[m|] method authenticated] w; cbn zeta.
  - destruct m as [tok rt cid ea thread flag].
    splits; try reflexivity. cbn. intros ->.
    destruct thread; [destruct (alive w (probes w)) eqn:E|];
      unfold Jira._authenticate, Jira._authenticate_if_needed, Jira.on_manager,
        Jira.start_oauth_flow, Jira._start_oauth_server,
        Jira.wait_for_authorization; run_act; rewrite ?E; cbn; by splits.
  - by splits.
  - destruct m as [tok rt ea url orgs sel thread flag].
    splits; try reflexivity. cbn. intros ->.
    destruct thread; [destruct (alive w (probes w)) eqn:E|];
      unfold ADO._authenticate, ADO._authenticate_if_needed, ADO.on_manager,
        ADO.start_oauth_flow, ADO._start_oauth_server,
        ADO.wait_for_authorization; run_act; rewrite ?E; cbn; by splits.
  - by splits.
Qed.

Lemma X14_authenticate_after_clear_witness :
  Jira.event_set jira_session = true /\
  is_error (value (Jira._authenticate
                     (object (Jira._clear_session jira_session (scripted Raised 0)))
                     (after (Jira._clear_session jira_session (scripted Raised 0)))))
  = true /\
  Jira.oauth_manager
    (object (Jira._authenticate
               (object (Jira._clear_session jira_session (scripted Raised 0)))
               (after (Jira._clear_session jira_session (scripted Raised 0)))))
  = Some (Jira.Manager PNone PNone PNone None true true).
Proof.
  split; [reflexivity|].
  destruct (proj1 X14_authenticate_after_clear_session jira_session
              (scripted Raised 0)) as (_ & _ & _ & _ & _ & H).
  destruct (H eq_refl) as (E & _ & _ & _ & _ & _ & M).
  split; [exact E | exact M].
Defined.

(** ** Properties of the dispatcher *)

Section JiraEnvelope.
Variable py_str : pyval -> string.
Variable tools_catalog : pyval.
Variable handle_tools_call : pyval -> act Jira.JiraMCPServer (exn + pyval).

Lemma jira_response_envelope line s w response :
  value (Jira.handle_request py_str tools_catalog handle_tools_call line s w)
  = inr (Some response) ->
  response_member response "jsonrpc" = Some (PStr "2.0") /\
  response_member response "id" = Some (line_id line) /\
  ((is_Some (response_member response "result") /\
    response_member response "error" = None) \/
   (response_member response "result" = None /\
    exists message,
      response_member response "error"
      = Some (PDict {[ "code" := PNum (-32603); "message" := PStr message ]}))).
Proof.
  unfold Jira.handle_request.
  destruct line as [e | v].
  { intros [= <-]. splits; [done | done | right]. split; [done|]. by eexists. }
  assert (Hother :
    forall v', ((if truthy v'
                then @ret Jira.JiraMCPServer _ (inl (Jira.no_get v'))
                else ret (inr (Some (Jira.internal_error PNone (Jira.no_get v')))))
                 s w).1.1 = inr (Some response) ->
      response_member response "jsonrpc" = Some (PStr "2.0") /\
      response_member response "id" = Some PNone /\
      ((is_Some (response_member response "result") /\
        response_member response "error" = None) \/
       (response_member response "result" = None /\
        exists message,
          response_member response "error"
          = Some (PDict {[ "code" := PNum (-32603); "message" := PStr message ]})))).
  { intros v'. destruct (truthy v'); [done|]. intros [= <-].
    splits; [done | done | right]. split; [done|]. by eexists. }
  destruct v as [| b | z | f | t | l | request_data]; cbn [line_id];
    try apply Hother.
  clear Hother.
  set (method := dict_get request_data "method").
  destruct (is_str method "initialize").
  { intros [= <-]. splits; [done | done | left]. split; [by eexists | done]. }
  destruct (is_str method "notifications/initialized"); [done|].
  destruct (is_str method "tools/list").
  { intros [= <-]. splits; [done | done | left]. split; [by eexists | done]. }
  destruct (is_str method "tools/call").
  - unfold bind, ret, value.
    destruct (handle_tools_call _ s w).1.1 as [e | result]; intros [= <-].
    + splits; [done | | right; split; [done | by eexists]].
      pose proof (falsy_dict_get request_data "id") as F.
      cbn [truthy] in F.
      destruct (negb (bool_decide (request_data = ∅))); [done|].
      by rewrite (F eq_refl).
    + splits; [done | done | left]. split; [by eexists | done].
  - intros [= <-]. splits; [done | done | left]. split; [by eexists | done].
Qed.
End JiraEnvelope.

Section ADOEnvelope.
Variable py_str : pyval -> string.
Variable tools_catalog : pyval.
Variable handle_tools_call : pyval -> act ADO.ADOMCPServer (exn + pyval).

Lemma ado_response_envelope line s w response :
  value (ADO.handle_request py_str tools_catalog handle_tools_call line s w)
  = inr (Some response) ->
  response_member response "jsonrpc" = Some (PStr "2.0") /\
  response_member response "id" = Some (line_id line) /\
  ((is_Some (response_member response "result") /\
    response_member response "error" = None) \/
   (response_member response "result" = None /\
    exists message,
      response_member response "error"
      = Some (PDict {[ "code" := PNum (-32603); "message" := PStr message ]}))).
Proof.
  unfold ADO.handle_request.
  destruct line as [e | v].
  { intros [= <-]. splits; [done | done | right]. split; [done|]. by eexists. }
  assert (Hother :
    forall v', ((if truthy v'
                then @ret ADO.ADOMCPServer _ (inl (ADO.no_get v'))
                else ret (inr (Some (ADO.internal_error PNone (ADO.no_get v')))))
                 s w).1.1 = inr (Some response) ->
      response_member response "jsonrpc" = Some (PStr "2.0") /\
      response_member response "id" = Some PNone /\
      ((is_Some (response_member response "result") /\
        response_member response "error" = None) \/
       (response_member response "result" = None /\
        exists message,
          response_member response "error"
          = Some (PDict {[ "code" := PNum (-32603); "message" := PStr message ]})))).
  { intros v'. destruct (truthy v'); [done|]. intros [= <-].
    splits; [done | done | right]. split; [done|]. by eexists. }
  destruct v as [| b | z | f | t | l | request_data]; cbn [line_id];
    try apply Hother.
  clear Hother.
  set (method := dict_get request_data "method").
  destruct (is_str method "initialize").
  { intros [= <-]. splits; [done | done | left]. split; [by eexists | done]. }
  destruct (is_str method "tools/list").
  { intros [= <-]. splits; [done | done | left]. split; [by eexists | done]. }
  destruct (is_str method "tools/call").
  - unfold bind, ret, value.
    destruct (handle_tools_call _ s w).1.1 as [e | result]; intros [= <-].
    + splits; [done | | right; split; [done | by eexists]].
      pose proof (falsy_dict_get request_data "id") as F.
      cbn [truthy] in F.
      destruct (negb (bool_decide (request_data = ∅))); [done|].
      by rewrite (F eq_refl).
    + splits; [done | done | left]. split; [by eexists | done].
  - intros [= <-]. splits; [done | done | left]. split; [by eexists | done].
Qed.

Lemma ado_main_loop_fatal line lines s w :
  fatal line = true ->
  value (ADO.main_loop py_str tools_catalog handle_tools_call (line :: lines) s w)
  = [].
Proof.
  cbn [ADO.main_loop]. unfold ADO.handle_request.
  destruct line as [e | [| b | z | f | t | l | d]]; cbn [fatal]; try done;
    intros H; run_act; try done; by rewrite H.
Qed.
End ADOEnvelope.

(** X15: on input lines none of which ends the loop, the Jira loop prints
    exactly one response per line that is not the initialization
    notification, in the order of the lines and each with the [id] of its
    line ([None] for a line without one), and nothing for the
    notification. *)
Theorem X15_jira_responses_in_order :
  forall (py_str : pyval -> string) (tools_catalog : pyval)
         (handle_tools_call : pyval -> act Jira.JiraMCPServer (exn + pyval))
         (lines : list (exn + pyval)) (s : Jira.JiraMCPServer) (w : world),
    Forall (fun line => fatal line = false) lines ->
    map response_id
        (value (Jira.main_loop py_str tools_catalog handle_tools_call lines s w))
    = expected_ids lines.
Proof. intros. by apply jira_main_loop_in_order. Qed.

Lemma X15_jira_responses_witness :
  map response_id
      (value (Jira.main_loop sample_str PNone sample_tools_call
                [inr (PDict unknown_method_request);
                 inr (PDict initialized_notification);
                 inl "Expecting value"%string]
                Jira.init_server (scripted Raised 0)))
  = [PNum 1; PNone].
Proof.
  refine (X15_jira_responses_in_order sample_str PNone sample_tools_call
            [inr (PDict unknown_method_request);
             inr (PDict initialized_notification);
             inl "Expecting value"%string]
            Jira.init_server (scripted Raised 0) _).
  repeat constructor.
Defined.

(** X16: on input lines none of which ends the loop, the ADO loop prints
    exactly one response per line, in the order of the lines and each
    with the [id] of its line; this includes the lines whose method is
    [notifications/initialized]. *)
Theorem X16_ado_answers_every_line :
  forall (py_str : pyval -> string) (tools_catalog : pyval)
         (handle_tools_call : pyval -> act ADO.ADOMCPServer (exn + pyval))
         (lines : list (exn + pyval)) (s : ADO.ADOMCPServer) (w : world),
    Forall (fun line => fatal line = false) lines ->
    map response_id
        (value (ADO.main_loop py_str tools_catalog handle_tools_call lines s w))
    = map line_id lines.
Proof. intros. by apply ado_main_loop_in_order. Qed.

Lemma X16_ado_answers_witness :
  map response_id
      (value (ADO.main_loop sample_str PNone (ado_raising_handler "tools/call")
                [inr (PDict unknown_method_request);
                 inr (PDict initialized_notification)]
                ADO.init_server (scripted Raised 0)))
  = [PNum 1; PNone].
Proof.
  refine (X16_ado_answers_every_line sample_str PNone
            (ado_raising_handler "tools/call")
            [inr (PDict unknown_method_request);
             inr (PDict initialized_notification)]
            ADO.init_server (scripted Raised 0) _).
  repeat constructor.
Defined.

(** X17: a line whose JSON value is truthy but not an object (a non-empty
    list or string, a non-zero number, [true]) ends the loop of either
    server without a response: nothing is printed for it or for any line
    after it. *)
Theorem X17_line_that_ends_the_loop :
  forall (py_str : pyval -> string) (tools_catalog : pyval)
         (line : exn + pyval) (lines : list (exn + pyval)) (w : world),
    fatal line = true ->
    (forall tools_call s,
       value (Jira.main_loop py_str tools_catalog tools_call (line :: lines) s w)
       = []) /\
    (forall tools_call s,
       value (ADO.main_loop py_str tools_catalog tools_call (line :: lines) s w)
       = []).
Proof.
  intros py_str catalog line lines w H. split; intros tools_call s.
  - by apply jira_main_loop_fatal.
  - by apply ado_main_loop_fatal.
Qed.

Lemma X17_line_that_ends_the_loop_witness :
  fatal (inr (PList [PNum 1])) = true /\
  value (Jira.main_loop sample_str PNone sample_tools_call
           [inr (PList [PNum 1]); inr (PDict unknown_method_request)]
           Jira.init_server (scripted Raised 0))
  = [].
Proof.
  split; [reflexivity|].
  exact (proj1 (X17_line_that_ends_the_loop sample_str PNone
                  (inr (PList [PNum 1])) [inr (PDict unknown_method_request)]
                  (scripted Raised 0) eq_refl)
           sample_tools_call Jira.init_server).
Defined.

(** X18: every response [handle_request] of either server returns carries
    ["jsonrpc": "2.0"] and the [id] of its line, and has exactly one of
    the members [result] and [error]; an [error] member always has the
    code -32603. *)
Theorem X18_response_envelope :
  forall (py_str : pyval -> string) (tools_catalog : pyval)
         (line : exn + pyval) (w : world) (response : pyval),
    let well_formed :=
      response_member response "jsonrpc" = Some (PStr "2.0") /\
      response_member response "id" = Some (line_id line) /\
      ((is_Some (response_member response "result") /\
        response_member response "error" = None) \/
       (response_member response "result" = None /\
        exists message,
          response_member response "error"
          = Some (PDict {[ "code" := PNum (-32603);
                           "message" := PStr message ]}))) in
    (forall tools_call s,
       value (Jira.handle_request py_str tools_catalog tools_call line s w)
       = inr (Some response) -> well_formed) /\
    (forall tools_call s,
       value (ADO.handle_request py_str tools_catalog tools_call line s w)
       = inr (Some response) -> well_formed).
Proof.
  intros py_str catalog line w response well_formed.
  split; intros tools_call s H.
  - exact (jira_response_envelope py_str catalog tools_call line s w response H).
  - exact (ado_response_envelope py_str catalog tools_call line s w response H).
Qed.

Lemma X18_response_envelope_witness :
  response_member
    (Jira.internal_error PNone "Expecting value") "result" = None /\
  response_member
    (Jira.internal_error PNone "Expecting value") "id" = Some PNone.
Proof.
  pose proof (proj1 (X18_response_envelope sample_str PNone
                       (inl "Expecting value"%string) (scripted Raised 0)
                       (Jira.internal_error PNone "Expecting value"))
                sample_tools_call Jira.init_server eq_refl) as (_ & Hid & _).
  split; [reflexivity | exact Hid].
Defined.

(** X19: a [tools/call] request for a tool name neither server routes (a
    missing name and a name that is not a string included) is answered
    with a result flagged [isError] whose text is "Unknown tool: " and the
    name; no pause is made, no handler runs and the server is left as it
    was. *)
Theorem X19_unknown_tool :
  forall (py_str : pyval -> string) (tools_catalog : pyval)
         (request_data p : gmap string pyval) (w : world),
    dict_get request_data "method" = PStr "tools/call" ->
    dict_get_or request_data "params" (PDict ∅) = PDict p ->
    let answer :=
      PDict {[ "jsonrpc" := PStr "2.0";
               "id" := dict_get request_data "id";
               "result" :=
                 tool_error ("Unknown tool: " +:+ py_str (dict_get p "name")) ]} in
    is_error (tool_error ("Unknown tool: " +:+ py_str (dict_get p "name"))) = true /\
    (forall handler s,
       unknown_tool jira_rest_tools (dict_get p "name") = true ->
       Jira.handle_request py_str tools_catalog
         (Jira.handle_tools_call py_str handler) (inr (PDict request_data)) s w
       = (inr (Some answer), s, w)) /\
    (forall handler s,
       unknown_tool ado_rest_tools (dict_get p "name") = true ->
       ADO.handle_request py_str tools_catalog
         (ADO.handle_tools_call py_str handler) (inr (PDict request_data)) s w
       = (inr (Some answer), s, w)).
Proof.
  intros py_str catalog rd p w Hm Hp answer.
  split; [reflexivity|].
  split; intros handler s H.
  - unfold Jira.handle_request. rewrite Hm, Hp. cbn [is_str String.eqb Ascii.eqb Bool.eqb].
    unfold bind. by rewrite jira_tools_call_unknown.
  - unfold ADO.handle_request. rewrite Hm, Hp. cbn [is_str String.eqb Ascii.eqb Bool.eqb].
    unfold bind. by rewrite ado_tools_call_unknown.
Qed.

Lemma X19_unknown_tool_witness :
  Jira.handle_request sample_str PNone
    (Jira.handle_tools_call sample_str jira_quiet_handler)
    (inr (PDict unknown_tool_request)) Jira.init_server (scripted Raised 0)
  = (inr (Some (PDict {[ "jsonrpc" := PStr "2.0";
                         "id" := PNum 7;
                         "result" := tool_error "Unknown tool: delete_everything" ]})),
     Jira.init_server, scripted Raised 0).
Proof.
  exact (proj1 (proj2 (X19_unknown_tool sample_str PNone unknown_tool_request
                         unknown_tool_params (scripted Raised 0)
                         eq_refl eq_refl))
           jira_quiet_handler Jira.init_server eq_refl).
Defined.

(** X20: a call of a tool that either server routes to a REST handler
    pauses two seconds once, before the handler runs, and never raises:
    what the handler returns is passed on unchanged, and an exception of
    the handler becomes a result flagged [isError] whose text is "Error
    executing ", the tool name, ": " and the text of the exception.  The
    server and the world are as the handler left them. *)
Theorem X20_rest_tool_exceptions_become_results :
  forall (py_str : pyval -> string) (p : gmap string pyval) (t : string)
         (w : world),
    dict_get p "name" = PStr t ->
    (forall handler s,
       In t jira_rest_tools ->
       let h := handler t (dict_get_or p "arguments" (PDict ∅)) s
                  (log_event (Sleep 2) w) in
       let r := Jira.handle_tools_call py_str handler (PDict p) s w in
       object r = object h /\ after r = after h /\
       (forall result, value h = inr result -> value r = inr result) /\
       (forall e, value h = inl e ->
          exists result,
            value r = inr result /\ is_error result = true /\
            result = tool_error ("Error executing " +:+ py_str (PStr t)
                                 +:+ ": " +:+ e))) /\
    (forall handler s,
       In t ado_rest_tools ->
       let h := handler t (dict_get_or p "arguments" (PDict ∅)) s
                  (log_event (Sleep 2) w) in
       let r := ADO.handle_tools_call py_str handler (PDict p) s w in
       object r = object h /\ after r = after h /\
       (forall result, value h = inr result -> value r = inr result) /\
       (forall e, value h = inl e ->
          exists result,
            value r = inr result /\ is_error result = true /\
            result = tool_error ("Error executing " +:+ py_str (PStr t)
                                 +:+ ": " +:+ e))).
Proof.
  intros py_str p t w Hn. split; intros handler s Ht h r; subst r.
  - rewrite (jira_tools_call_rest py_str handler p s w t Ht Hn).
    fold h. unfold value, object, after. cbn.
    splits; try done.
    + by intros result ->.
    + intros e ->. by eexists.
  - rewrite (ado_tools_call_rest py_str handler p s w t Ht Hn).
    fold h. unfold value, object, after. cbn.
    splits; try done.
    + by intros result ->.
    + intros e ->. by eexists.
Qed.

Lemma X20_rest_tool_exceptions_witness :
  value (Jira.handle_tools_call sample_str jira_raising_handler
           (PDict get_issue_params) Jira.init_server (scripted Raised 0))
  = inr (tool_error "Error executing get_issue: boom") /\
  slept (log (after (Jira.handle_tools_call sample_str jira_raising_handler
                       (PDict get_issue_params) Jira.init_server
                       (scripted Raised 0))))
  = 2.
Proof.
  destruct (proj1 (X20_rest_tool_exceptions_become_results sample_str
                     get_issue_params "get_issue" (scripted Raised 0) eq_refl)
              jira_raising_handler Jira.init_server
              (or_intror (or_intror (or_intror (or_intror (or_intror
                 (or_introl eq_refl)))))))
    as (_ & Hw & _ & He).
  destruct (He "boom"%string eq_refl) as (result & Hv & _ & Hr).
  split; [by rewrite Hv, Hr | by rewrite Hw].
Defined.

(** X21: [handle_tools_call] raises exactly when [params] is not an
    object.  A [tools/call] request with an object as [params] (or with
    none) is always answered with a [result]; one whose [params] is
    anything else is answered with the JSON-RPC error -32603 under the
    [id] of the request, the message naming the missing [get], and
    nothing is paused, sent or changed. *)
Theorem X21_tools_call_without_params_object :
  forall (py_str : pyval -> string) (tools_catalog : pyval)
         (request_data : gmap string pyval) (w : world),
    dict_get request_data "method" = PStr "tools/call" ->
    let params := dict_get_or request_data "params" (PDict ∅) in
    let request_id := dict_get request_data "id" in
    (forall handler s,
       let r := Jira.handle_request py_str tools_catalog
                  (Jira.handle_tools_call py_str handler)
                  (inr (PDict request_data)) s w in
       match params with
       | PDict _ =>
           exists result,
             value r = inr (Some (PDict {[ "jsonrpc" := PStr "2.0";
                                           "id" := request_id;
                                           "result" := result ]}))
       | _ =>
           r = (inr (Some (Jira.internal_error request_id (Jira.no_get params))),
                s, w)
       end) /\
    (forall handler s,
       let r := ADO.handle_request py_str tools_catalog
                  (ADO.handle_tools_call py_str handler)
                  (inr (PDict request_data)) s w in
       match params with
       | PDict _ =>
           exists result,
             value r = inr (Some (PDict {[ "jsonrpc" := PStr "2.0";
                                           "id" := request_id;
                                           "result" := result ]}))
       | _ =>
           r = (inr (Some (ADO.internal_error request_id (ADO.no_get params))),
                s, w)
       end).
Proof.
  intros py_str catalog rd w Hm params request_id.
  assert (T : truthy (PDict rd) = true).
  { cbn. apply negb_true_iff, bool_decide_eq_false. intros ->.
    unfold dict_get in Hm. by rewrite lookup_empty in Hm. }
  split; intros handler s r; subst r.
  - unfold Jira.handle_request. rewrite Hm.
    cbn [is_str String.eqb Ascii.eqb Bool.eqb].
    subst params request_id.
    destruct (dict_get_or rd "params" (PDict ∅)) as [| b | z | f | t | l | p];
      try (unfold bind;
           match goal with
           | |- context [Jira.handle_tools_call _ _ ?v] =>
               rewrite (jira_tools_call_no_get py_str handler v s w I)
           end;
           unfold ret; by rewrite T).
    destruct (jira_tools_call_returns py_str handler p s w) as [result Hr].
    unfold bind, value in *. rewrite Hr. by eexists.
  - unfold ADO.handle_request. rewrite Hm.
    cbn [is_str String.eqb Ascii.eqb Bool.eqb].
    subst params request_id.
    destruct (dict_get_or rd "params" (PDict ∅)) as [| b | z | f | t | l | p];
      try (unfold bind;
           match goal with
           | |- context [ADO.handle_tools_call _ _ ?v] =>
               rewrite (ado_tools_call_no_get py_str handler v s w I)
           end;
           unfold ret; by rewrite T).
    destruct (ado_tools_call_returns py_str handler p s w) as [result Hr].
    unfold bind, value in *. rewrite Hr. by eexists.
Qed.

Lemma X21_tools_call_without_params_witness :
  ADO.handle_request sample_str PNone
    (ADO.handle_tools_call sample_str ado_quiet_handler)
    (inr (PDict list_params_request)) ADO.init_server (scripted Raised 0)
  = (inr (Some (ADO.internal_error (PNum 8)
                  "'list' object has no attribute 'get'")),
     ADO.init_server, scripted Raised 0).
Proof.
  exact (proj2 (X21_tools_call_without_params_object sample_str PNone
                  list_params_request (scripted Raised 0) eq_refl)
           ado_quiet_handler ADO.init_server).
Defined.

(** ** Organizations *)

(** X22: [_validate_organization_access] never changes the manager.
    Without an access token it returns [False] and sends nothing; with
    one it returns [True] exactly when the request is answered with HTTP
    200: every other status and every exception give [False]. *)
Theorem X22_validate_organization_access :
  forall (org_name : string) (m : ADO.ADOOAuthTokenManager) (w : world),
    let r := ADO._validate_organization_access org_name m w in
    object r = m /\
    (truthy (ADO.access_token m) = false -> r = (false, m, w)) /\
    (value r = true <->
     truthy (ADO.access_token m) = true /\
     exists body, net w (nreq w) = Response 200 body).
Proof. intros org_name m w. exact (ado_validate_spec org_name m w). Qed.

Lemma X22_validate_organization_witness :
  ADO._validate_organization_access "acme" ADO.init
    (scripted (Response 200 None) 0)
  = (false, ADO.init, scripted (Response 200 None) 0).
Proof.
  exact (proj1 (proj2 (X22_validate_organization_access "acme" ADO.init
                         (scripted (Response 200 None) 0))) eq_refl).
Defined.

(** X23: [select_organization] never touches the tokens, the expiry or
    the completion event.  It returns [True] exactly when the
    organization can be reached or an organization of that name is
    cached; then [ado_url] is "https://dev.azure.com/" and the name, and
    the selected organization bears the name and so does a cached one.
    When it returns [False] the manager is unchanged.  The cache is not
    changed when it already holds the name, and it never grows by more
    than one entry. *)
Theorem X23_select_organization :
  forall (org_name : string) (m : ADO.ADOOAuthTokenManager) (w : world),
    let r := ADO.select_organization org_name m w in
    let cached :=
      existsb (ADO.named org_name) (ADO.organizations_or_empty m) in
    ADO.access_token (object r) = ADO.access_token m /\
    ADO.refresh_token (object r) = ADO.refresh_token m /\
    ADO.expires_at (object r) = ADO.expires_at m /\
    ADO.auth_complete (object r) = ADO.auth_complete m /\
    (value r = false -> object r = m) /\
    (value r = true <->
     value (ADO._validate_organization_access org_name m w) = true \/
     cached = true) /\
    (value r = true ->
     ADO.ado_url (object r) = ADO.dev_azure_url org_name /\
     exists org l,
       ADO.selected_organization (object r) = Some org /\
       ADO.named org_name org = true /\
       ADO.organizations (object r) = Some l /\
       existsb (ADO.named org_name) l = true) /\
    (cached = true -> ADO.organizations (object r) = ADO.organizations m) /\
    (length (ADO.organizations_or_empty (object r))
     <= S (length (ADO.organizations_or_empty m)))%nat.
Proof. intros org_name m w. exact (ado_select_spec org_name m w). Qed.

Lemma X23_select_organization_witness :
  ADO.ado_url
    (object (ADO.select_organization "acme" ado_expired
               (scripted (Response 200 None) 0)))
  = PStr "https://dev.azure.com/acme" /\
  object (ADO.select_organization "acme" ado_expired
            (scripted (Response 404 None) 0))
  = ado_expired.
Proof.
  pose proof (X23_select_organization "acme" ado_expired
                (scripted (Response 200 None) 0))
    as (_ & _ & _ & _ & _ & _ & H & _).
  pose proof (X23_select_organization "acme" ado_expired
                (scripted (Response 404 None) 0))
    as (_ & _ & _ & _ & K & _).
  split; [exact (proj1 (H eq_refl)) | exact (K eq_refl)].
Defined.

(** X24: [_create_ado_organization] returns [True] exactly when an access
    token is in store and the request is answered with HTTP 200 or 201
    and a JSON object.  Then an organization of that name is selected,
    whatever the validation request that follows returns: [ado_url] is
    "https://dev.azure.com/" and the name, and the selected organization
    and a cached one bear the name.  When it returns [False] the manager
    is unchanged; the tokens, the expiry and the completion event are
    never touched. *)
Theorem X24_create_organization_selects_it :
  forall (org_name region : string) (m : ADO.ADOOAuthTokenManager) (w : world),
    let r := ADO._create_ado_organization org_name region m w in
    ADO.access_token (object r) = ADO.access_token m /\
    ADO.refresh_token (object r) = ADO.refresh_token m /\
    ADO.expires_at (object r) = ADO.expires_at m /\
    ADO.auth_complete (object r) = ADO.auth_complete m /\
    (value r = false -> object r = m) /\
    (value r = true <->
     truthy (ADO.access_token m) = true /\
     exists status_code org_data,
       net w (nreq w) = Response status_code (Some (PDict org_data)) /\
       (status_code = 200 \/ status_code = 201)) /\
    (value r = true ->
     ADO.ado_url (object r) = ADO.dev_azure_url org_name /\
     exists org l,
       ADO.selected_organization (object r) = Some org /\
       ADO.named org_name org = true /\
       ADO.organizations (object r) = Some l /\
       existsb (ADO.named org_name) l = true).
Proof.
  intros org_name region m w. exact (ado_create_spec org_name region m w).
Qed.

Lemma X24_create_organization_witness :
  ADO.ado_url
    (object (ADO._create_ado_organization "acme" "Central US" ado_expired
               (replayed [Response 201 (Some (PDict ∅)); Response 403 None]
                         0 [])))
  = PStr "https://dev.azure.com/acme" /\
  object (ADO._create_ado_organization "acme" "Central US" ado_expired
            (scripted (Response 500 None) 0))
  = ado_expired.
Proof.
  pose proof (X24_create_organization_selects_it "acme" "Central US"
                ado_expired
                (replayed [Response 201 (Some (PDict ∅)); Response 403 None]
                          0 []))
    as (_ & _ & _ & _ & _ & _ & H).
  pose proof (X24_create_organization_selects_it "acme" "Central US"
                ado_expired (scripted (Response 500 None) 0))
    as (_ & _ & _ & _ & K & _).
  split; [exact (proj1 (H eq_refl)) | exact (K eq_refl)].
Defined.

(** ** The wait for the callback *)

Lemma jira_serve_skips before c cs m w :
  Jira.auth_complete m = false -> Forall stray before ->
  Jira.serve (before ++ c :: cs) m w = Jira.serve (c :: cs) m w.
Proof.
  intros Hm H. induction H as [|b before [Hc He] _ IH]; [done|].
  rewrite <- app_comm_cons. cbn [Jira.serve]. unfold bind at 1.
  rewrite (proj2 (proj2 (proj2 (jira_callback_spec b m w))) He Hc).
  unfold bind at 1. unfold gets at 1. cbn [fst snd]. by rewrite Hm.
Qed.

Lemma ado_serve_skips before c cs m w :
  ADO.auth_complete m = false -> Forall stray before ->
  ADO.serve (before ++ c :: cs) m w = ADO.serve (c :: cs) m w.
Proof.
  intros Hm H. induction H as [|b before [Hc He] _ IH]; [done|].
  rewrite <- app_comm_cons. cbn [ADO.serve]. unfold bind at 1.
  rewrite (proj2 (proj2 (proj2 (ado_callback_spec b m w))) He Hc).
  unfold bind at 1. unfold gets at 1. cbn [fst snd]. by rewrite Hm.
Qed.

(** X25: while the completion event is not set, [wait_for_authorization]
    ends with the first callback request that carries a code or an error:
    it returns [True], the requests with neither that came before have
    left no trace, and the requests that come after are not served within
    this wait.  The manager and the world are those [oauth_callback]
    leaves for that one request. *)
Theorem X25_first_completing_callback_ends_the_wait :
  forall (before : list callback) (c : callback) (cs : list callback)
         (w : world),
    Forall stray before ->
    arg_truthy (cb_code c) = true \/ arg_truthy (cb_error c) = true ->
    callbacks w (waits w) = before ++ c :: cs ->
    (forall m : Jira.OAuthTokenManager,
       Jira.auth_complete m = false ->
       Jira.wait_for_authorization m w
       = (true, object (Jira.oauth_callback c m (next_wait w)),
          after (Jira.oauth_callback c m (next_wait w)))) /\
    (forall m : ADO.ADOOAuthTokenManager,
       ADO.auth_complete m = false ->
       ADO.wait_for_authorization m w
       = (true, object (ADO.oauth_callback c m (next_wait w)),
          after (ADO.oauth_callback c m (next_wait w)))).
Proof.
  intros before c cs w Hb Hc Hw. split; intros m Hm.
  - unfold Jira.wait_for_authorization, bind, gets, arrivals. cbn [fst snd].
    rewrite Hm, Hw. cbn [fst snd].
    rewrite jira_serve_skips by done. by apply jira_serve_first.
  - unfold ADO.wait_for_authorization, bind, gets, arrivals. cbn [fst snd].
    rewrite Hm, Hw. cbn [fst snd].
    rewrite ado_serve_skips by done. by apply ado_serve_first.
Qed.

Lemma X25_first_completing_callback_witness :
  Jira.wait_for_authorization Jira.init three_callbacks
  = (true,
     object (Jira.oauth_callback with_error Jira.init (next_wait three_callbacks)),
     after (Jira.oauth_callback with_error Jira.init (next_wait three_callbacks))).
Proof.
  exact (proj1 (X25_first_completing_callback_ends_the_wait
                  [with_neither] with_error [with_code] three_callbacks
                  (@List.Forall_cons callback stray with_neither []
                     (conj eq_refl eq_refl) (List.Forall_nil stray))
                  (or_intror eq_refl) eq_refl)
           Jira.init eq_refl).
Defined.
